(** * Verification of the customer-support workflow orchestrator

    A shallow embedding of [state_manager.py] (the State Store),
    [mcp_client.py] (the Ability Clients), [stage_nodes.py] (the Stage
    Executor), [config.py] (the stage table) and [langgraph_agent.py] (the
    Workflow Engine), followed by the properties proved about them.

    Conventions of the embedding.
    - Python dictionaries keep insertion order: a [dict] is an association
      list with string keys, [dict_set] overwrites in place or appends.
    - [datetime.now()] reads a clock that is part of the world and advances
      at every reading; a [float] is the rational it is closest to; [asyncio.sleep] and the [logger] calls have no
      effect on the values computed and are left out.
    - Python exceptions are values of [exn]; a computation is a function
      from the world to an [outcome] and the next world, so that mutations
      done before an exception are kept, as in Python.
    - The handler methods of the two clients are a parameter of the
      executor and of the engine (a [HandlerTable]): the properties of the
      orchestration hold for whatever the handlers compute. The handlers
      the properties depend on are embedded from the source.
    - The attributes of [AgentState] carry the types of the dataclass
      annotations; scores are Python ints ([Z]), which is what
      [_handle_solution_evaluation] produces.  A value of an ability result
      that is handed to a typed State Store method is checked at the call
      ([as_dict], [as_str], ...): a result that breaks the ability result
      contract raises [TypeError] there. *)

From Stdlib Require Import List String Ascii ZArith QArith Bool Lia DecimalString.
Import ListNotations.
Close Scope Q_scope.
Local Open Scope string_scope.
Local Open Scope list_scope.

(** ** Python values *)

Set Warnings "-register-all".

Definition Time := nat.

Inductive value : Type :=
| VNone
| VBool (b : bool)
| VInt (z : Z)
| VFloat (q : Q)
| VStr (s : string)
| VList (l : list value)
| VDict (d : list (string * value)).

Definition dict := list (string * value).

(** [d.get(k)], [None] when the key is absent. *)
Fixpoint dict_get (k : string) (d : dict) : option value :=
  match d with
  | [] => None
  | (k', v) :: d' => if String.eqb k k' then Some v else dict_get k d'
  end.

(** [d.get(k, default)] *)
Definition get_or (k : string) (default : value) (d : dict) : value :=
  match dict_get k d with
  | Some v => v
  | None => default
  end.

(** [d[k] = v]: an existing key keeps its position, a new key goes last. *)
Fixpoint dict_set (k : string) (v : value) (d : dict) : dict :=
  match d with
  | [] => [(k, v)]
  | (k', v') :: d' =>
      if String.eqb k k' then (k', v) :: d' else (k', v') :: dict_set k v d'
  end.

(** [d.update(m)]: the items of [m] are assigned in order. *)
Definition dict_update (d m : dict) : dict :=
  fold_left (fun acc kv => dict_set (fst kv) (snd kv) acc) m d.

(** [list(d.keys())] *)
Definition keys (d : dict) : value := VList (map (fun kv => VStr (fst kv)) d).

(** Lookup along a path of keys in nested dictionaries. *)
Fixpoint path_get (path : list string) (v : value) : option value :=
  match path with
  | [] => Some v
  | k :: path' =>
      match v with
      | VDict d =>
          match dict_get k d with
          | Some v' => path_get path' v'
          | None => None
          end
      | _ => None
      end
  end.

(** [str(n)] for an int. *)
Definition str_of_Z (z : Z) : string :=
  DecimalString.NilZero.string_of_int (Z.to_int z).

(** The clock counts its readings; a reading is printed as its number,
    whatever the format asked for. *)
Definition isoformat (t : Time) : string := str_of_Z (Z.of_nat t).
Definition strftime (fmt : string) (t : Time) : string := str_of_Z (Z.of_nat t).

Definition py_len {A} (l : list A) : value := VInt (Z.of_nat (List.length l)).
Definition str_len (s : string) : value := VInt (Z.of_nat (String.length s)).

(** ** Exceptions and outcomes *)

Inductive exn : Type :=
| MCPClientError (msg : string)
| ValueError (msg : string)
| TypeError (msg : string)
| AttributeError (msg : string)
| GraphRecursionError (msg : string)
| OtherError (cls msg : string).

(** [str(e)] *)
Definition exn_str (e : exn) : string :=
  match e with
  | MCPClientError msg | ValueError msg | TypeError msg
  | AttributeError msg | GraphRecursionError msg | OtherError _ msg => msg
  end.

Inductive outcome (A : Type) : Type :=
| Ok (a : A)
| Raise (e : exn).
Arguments Ok {A} a.
Arguments Raise {A} e.

(** ** The agent state ([state_manager.py], class [AgentState]) *)

Record AgentState : Type := mkAgentState {
  customer_name : value;
  email : value;
  query : value;
  priority : value;
  ticket_id : value;
  current_stage : string;
  stage_history : list string;
  entities : dict;
  normalized_fields : dict;
  enriched_data : dict;
  kb_results : list dict;
  solutions : list dict;
  solution_scores : list Z;
  escalation_required : bool;
  escalation_reason : string;
  actions_taken : list string;
  clarification_questions : list string;
  human_responses : list string;
  generated_response : string;
  created_at : Time;
  updated_at : Time;
  processing_log : list dict
}.

Definition with_customer_name (v : value) (s : AgentState) : AgentState :=
  mkAgentState
    v (email s) (query s) (priority s) (ticket_id s) (current_stage s)
    (stage_history s) (entities s) (normalized_fields s) (enriched_data s)
    (kb_results s) (solutions s) (solution_scores s) (escalation_required s)
    (escalation_reason s) (actions_taken s) (clarification_questions s)
    (human_responses s) (generated_response s) (created_at s) (updated_at s)
    (processing_log s).

Definition with_email (v : value) (s : AgentState) : AgentState :=
  mkAgentState
    (customer_name s) v (query s) (priority s) (ticket_id s)
    (current_stage s) (stage_history s) (entities s) (normalized_fields s)
    (enriched_data s) (kb_results s) (solutions s) (solution_scores s)
    (escalation_required s) (escalation_reason s) (actions_taken s)
    (clarification_questions s) (human_responses s) (generated_response s)
    (created_at s) (updated_at s) (processing_log s).

Definition with_query (v : value) (s : AgentState) : AgentState :=
  mkAgentState
    (customer_name s) (email s) v (priority s) (ticket_id s)
    (current_stage s) (stage_history s) (entities s) (normalized_fields s)
    (enriched_data s) (kb_results s) (solutions s) (solution_scores s)
    (escalation_required s) (escalation_reason s) (actions_taken s)
    (clarification_questions s) (human_responses s) (generated_response s)
    (created_at s) (updated_at s) (processing_log s).

Definition with_priority (v : value) (s : AgentState) : AgentState :=
  mkAgentState
    (customer_name s) (email s) (query s) v (ticket_id s) (current_stage s)
    (stage_history s) (entities s) (normalized_fields s) (enriched_data s)
    (kb_results s) (solutions s) (solution_scores s) (escalation_required s)
    (escalation_reason s) (actions_taken s) (clarification_questions s)
    (human_responses s) (generated_response s) (created_at s) (updated_at s)
    (processing_log s).

Definition with_ticket_id (v : value) (s : AgentState) : AgentState :=
  mkAgentState
    (customer_name s) (email s) (query s) (priority s) v (current_stage s)
    (stage_history s) (entities s) (normalized_fields s) (enriched_data s)
    (kb_results s) (solutions s) (solution_scores s) (escalation_required s)
    (escalation_reason s) (actions_taken s) (clarification_questions s)
    (human_responses s) (generated_response s) (created_at s) (updated_at s)
    (processing_log s).

Definition with_current_stage (v : string) (s : AgentState) : AgentState :=
  mkAgentState
    (customer_name s) (email s) (query s) (priority s) (ticket_id s) v
    (stage_history s) (entities s) (normalized_fields s) (enriched_data s)
    (kb_results s) (solutions s) (solution_scores s) (escalation_required s)
    (escalation_reason s) (actions_taken s) (clarification_questions s)
    (human_responses s) (generated_response s) (created_at s) (updated_at s)
    (processing_log s).

Definition with_stage_history (v : list string) (s : AgentState) : AgentState :=
  mkAgentState
    (customer_name s) (email s) (query s) (priority s) (ticket_id s)
    (current_stage s) v (entities s) (normalized_fields s) (enriched_data s)
    (kb_results s) (solutions s) (solution_scores s) (escalation_required s)
    (escalation_reason s) (actions_taken s) (clarification_questions s)
    (human_responses s) (generated_response s) (created_at s) (updated_at s)
    (processing_log s).

Definition with_entities (v : dict) (s : AgentState) : AgentState :=
  mkAgentState
    (customer_name s) (email s) (query s) (priority s) (ticket_id s)
    (current_stage s) (stage_history s) v (normalized_fields s)
    (enriched_data s) (kb_results s) (solutions s) (solution_scores s)
    (escalation_required s) (escalation_reason s) (actions_taken s)
    (clarification_questions s) (human_responses s) (generated_response s)
    (created_at s) (updated_at s) (processing_log s).

Definition with_normalized_fields (v : dict) (s : AgentState) : AgentState :=
  mkAgentState
    (customer_name s) (email s) (query s) (priority s) (ticket_id s)
    (current_stage s) (stage_history s) (entities s) v (enriched_data s)
    (kb_results s) (solutions s) (solution_scores s) (escalation_required s)
    (escalation_reason s) (actions_taken s) (clarification_questions s)
    (human_responses s) (generated_response s) (created_at s) (updated_at s)
    (processing_log s).

Definition with_enriched_data (v : dict) (s : AgentState) : AgentState :=
  mkAgentState
    (customer_name s) (email s) (query s) (priority s) (ticket_id s)
    (current_stage s) (stage_history s) (entities s) (normalized_fields s) v
    (kb_results s) (solutions s) (solution_scores s) (escalation_required s)
    (escalation_reason s) (actions_taken s) (clarification_questions s)
    (human_responses s) (generated_response s) (created_at s) (updated_at s)
    (processing_log s).

Definition with_kb_results (v : list dict) (s : AgentState) : AgentState :=
  mkAgentState
    (customer_name s) (email s) (query s) (priority s) (ticket_id s)
    (current_stage s) (stage_history s) (entities s) (normalized_fields s)
    (enriched_data s) v (solutions s) (solution_scores s)
    (escalation_required s) (escalation_reason s) (actions_taken s)
    (clarification_questions s) (human_responses s) (generated_response s)
    (created_at s) (updated_at s) (processing_log s).

Definition with_solutions (v : list dict) (s : AgentState) : AgentState :=
  mkAgentState
    (customer_name s) (email s) (query s) (priority s) (ticket_id s)
    (current_stage s) (stage_history s) (entities s) (normalized_fields s)
    (enriched_data s) (kb_results s) v (solution_scores s)
    (escalation_required s) (escalation_reason s) (actions_taken s)
    (clarification_questions s) (human_responses s) (generated_response s)
    (created_at s) (updated_at s) (processing_log s).

Definition with_solution_scores (v : list Z) (s : AgentState) : AgentState :=
  mkAgentState
    (customer_name s) (email s) (query s) (priority s) (ticket_id s)
    (current_stage s) (stage_history s) (entities s) (normalized_fields s)
    (enriched_data s) (kb_results s) (solutions s) v (escalation_required s)
    (escalation_reason s) (actions_taken s) (clarification_questions s)
    (human_responses s) (generated_response s) (created_at s) (updated_at s)
    (processing_log s).

Definition with_escalation_required (v : bool) (s : AgentState) : AgentState :=
  mkAgentState
    (customer_name s) (email s) (query s) (priority s) (ticket_id s)
    (current_stage s) (stage_history s) (entities s) (normalized_fields s)
    (enriched_data s) (kb_results s) (solutions s) (solution_scores s) v
    (escalation_reason s) (actions_taken s) (clarification_questions s)
    (human_responses s) (generated_response s) (created_at s) (updated_at s)
    (processing_log s).

Definition with_escalation_reason (v : string) (s : AgentState) : AgentState :=
  mkAgentState
    (customer_name s) (email s) (query s) (priority s) (ticket_id s)
    (current_stage s) (stage_history s) (entities s) (normalized_fields s)
    (enriched_data s) (kb_results s) (solutions s) (solution_scores s)
    (escalation_required s) v (actions_taken s) (clarification_questions s)
    (human_responses s) (generated_response s) (created_at s) (updated_at s)
    (processing_log s).

Definition with_actions_taken (v : list string) (s : AgentState) : AgentState :=
  mkAgentState
    (customer_name s) (email s) (query s) (priority s) (ticket_id s)
    (current_stage s) (stage_history s) (entities s) (normalized_fields s)
    (enriched_data s) (kb_results s) (solutions s) (solution_scores s)
    (escalation_required s) (escalation_reason s) v
    (clarification_questions s) (human_responses s) (generated_response s)
    (created_at s) (updated_at s) (processing_log s).

Definition with_clarification_questions (v : list string) (s : AgentState) : AgentState :=
  mkAgentState
    (customer_name s) (email s) (query s) (priority s) (ticket_id s)
    (current_stage s) (stage_history s) (entities s) (normalized_fields s)
    (enriched_data s) (kb_results s) (solutions s) (solution_scores s)
    (escalation_required s) (escalation_reason s) (actions_taken s) v
    (human_responses s) (generated_response s) (created_at s) (updated_at s)
    (processing_log s).

Definition with_human_responses (v : list string) (s : AgentState) : AgentState :=
  mkAgentState
    (customer_name s) (email s) (query s) (priority s) (ticket_id s)
    (current_stage s) (stage_history s) (entities s) (normalized_fields s)
    (enriched_data s) (kb_results s) (solutions s) (solution_scores s)
    (escalation_required s) (escalation_reason s) (actions_taken s)
    (clarification_questions s) v (generated_response s) (created_at s)
    (updated_at s) (processing_log s).

Definition with_generated_response (v : string) (s : AgentState) : AgentState :=
  mkAgentState
    (customer_name s) (email s) (query s) (priority s) (ticket_id s)
    (current_stage s) (stage_history s) (entities s) (normalized_fields s)
    (enriched_data s) (kb_results s) (solutions s) (solution_scores s)
    (escalation_required s) (escalation_reason s) (actions_taken s)
    (clarification_questions s) (human_responses s) v (created_at s)
    (updated_at s) (processing_log s).

Definition with_updated_at (v : Time) (s : AgentState) : AgentState :=
  mkAgentState
    (customer_name s) (email s) (query s) (priority s) (ticket_id s)
    (current_stage s) (stage_history s) (entities s) (normalized_fields s)
    (enriched_data s) (kb_results s) (solutions s) (solution_scores s)
    (escalation_required s) (escalation_reason s) (actions_taken s)
    (clarification_questions s) (human_responses s) (generated_response s)
    (created_at s) v (processing_log s).

Definition with_processing_log (v : list dict) (s : AgentState) : AgentState :=
  mkAgentState
    (customer_name s) (email s) (query s) (priority s) (ticket_id s)
    (current_stage s) (stage_history s) (entities s) (normalized_fields s)
    (enriched_data s) (kb_results s) (solutions s) (solution_scores s)
    (escalation_required s) (escalation_reason s) (actions_taken s)
    (clarification_questions s) (human_responses s) (generated_response s)
    (created_at s) (updated_at s) v.
(** [AgentState()]: every attribute at its default; the two timestamps are
    two readings of the clock. *)
Definition AgentState_init (t_created t_updated : Time) : AgentState :=
  mkAgentState
    (VStr "") (VStr "") (VStr "") (VStr "") (VStr "")
    "INTAKE" []
    [] [] []
    [] [] []
    false "" []
    [] [] ""
    t_created t_updated [].

(** ** The world and its monad *)

(** One [StateManager] (its [state] attribute) and the clock. *)
Record World : Type := mkWorld {
  state : AgentState;
  clock : Time
}.

Definition M (A : Type) : Type := World -> outcome A * World.

Definition ret {A} (a : A) : M A := fun w => (Ok a, w).

Definition raise {A} (e : exn) : M A := fun w => (Raise e, w).

Definition bind {A B} (m : M A) (k : A -> M B) : M B :=
  fun w =>
    match m w with
    | (Ok a, w') => k a w'
    | (Raise e, w') => (Raise e, w')
    end.

Notation "x <- m ;; k" := (bind m (fun x => k))
  (at level 61, m at next level, right associativity).
Notation "m ;;; k" := (bind m (fun _ => k))
  (at level 61, right associativity).

(** [try: body / except MCPClientError as e: handler(str(e))] *)
Definition try_except_MCPClientError {A} (body : M A) (handler : string -> M A)
  : M A :=
  fun w =>
    match body w with
    | (Raise (MCPClientError msg), w') => handler msg w'
    | r => r
    end.

(** [try: body / except Exception as e: handler(e)] *)
Definition try_except_Exception {A} (body : M A) (handler : exn -> M A) : M A :=
  fun w =>
    match body w with
    | (Raise e, w') => handler e w'
    | r => r
    end.

(** [for x in xs: body(x)] *)
Fixpoint for_each {A} (xs : list A) (body : A -> M unit) : M unit :=
  match xs with
  | [] => ret tt
  | x :: xs' => body x ;;; for_each xs' body
  end.

Definition lift_outcome {A} (o : outcome A) : M A := fun w => (o, w).

(** [datetime.now()] *)
Definition datetime_now : M Time :=
  fun w => (Ok (clock w), mkWorld (state w) (S (clock w))).

Definition gets {A} (f : AgentState -> A) : M A :=
  fun w => (Ok (f (state w)), w).

Definition modify (f : AgentState -> AgentState) : M unit :=
  fun w => (Ok tt, mkWorld (f (state w)) (clock w)).

(** The value and the world a computation ends with. *)
Definition result_of {A} (m : M A) (w : World) : outcome A := fst (m w).
Definition world_after {A} (m : M A) (w : World) : World := snd (m w).
Definition state_after {A} (m : M A) (w : World) : AgentState :=
  state (world_after m w).

(** ** The State Store ([state_manager.py], class [StateManager]) *)

Module StateManager.

(** [StateManager()] at clock [t]. *)
Definition init (t : Time) : World :=
  mkWorld (AgentState_init t (S t)) (S (S t)).

Definition log_event (event_type : string) (details : dict) : M unit :=
  t <- datetime_now ;;
  stage <- gets current_stage ;;
  let log_entry : dict :=
    [("timestamp", VStr (isoformat t));
     ("stage", VStr stage);
     ("event_type", VStr event_type);
     ("details", VDict details)] in
  modify (fun s => with_processing_log (processing_log s ++ [log_entry]) s).

Definition initialize_state (input_data : dict) : M AgentState :=
  modify (with_customer_name (get_or "customer_name" (VStr "") input_data)) ;;;
  modify (with_email (get_or "email" (VStr "") input_data)) ;;;
  modify (with_query (get_or "query" (VStr "") input_data)) ;;;
  modify (with_priority (get_or "priority" (VStr "medium") input_data)) ;;;
  modify (with_ticket_id (get_or "ticket_id" (VStr "") input_data)) ;;;
  log_event "STATE_INITIALIZED" [("input_keys", keys input_data)] ;;;
  gets (fun s => s).

(** [xs[-1] if xs else None] *)
Definition last_or_None (xs : list string) : value :=
  match rev xs with
  | [] => VNone
  | x :: _ => VStr x
  end.

(** Truth value of a string: the empty string is false. *)
Definition str_truthy (s : string) : bool :=
  match s with
  | EmptyString => false
  | _ => true
  end.

Definition update_stage (stage_name : string) : M unit :=
  cur <- gets current_stage ;;
  (if str_truthy cur
   then modify (fun s => with_stage_history (stage_history s ++ [cur]) s)
   else ret tt) ;;;
  modify (with_current_stage stage_name) ;;;
  t <- datetime_now ;;
  modify (with_updated_at t) ;;;
  hist <- gets stage_history ;;
  log_event "STAGE_UPDATED"
    [("from", last_or_None hist); ("to", VStr stage_name)].

Definition update_entities (entities' : dict) : M unit :=
  modify (fun s => with_entities (dict_update (entities s) entities') s) ;;;
  log_event "ENTITIES_UPDATED" [("entities", keys entities')].

Definition update_normalized_fields (fields : dict) : M unit :=
  modify (fun s =>
            with_normalized_fields (dict_update (normalized_fields s) fields) s) ;;;
  log_event "FIELDS_NORMALIZED" [("fields", keys fields)].

Definition add_enriched_data (data : dict) : M unit :=
  modify (fun s => with_enriched_data (dict_update (enriched_data s) data) s) ;;;
  log_event "DATA_ENRICHED" [("data_types", keys data)].

Definition add_kb_result (result : dict) : M unit :=
  modify (fun s => with_kb_results (kb_results s ++ [result]) s) ;;;
  log_event "KB_RESULT_ADDED"
    [("result_id", get_or "id" (VStr "unknown") result)].

Definition add_solution (solution : dict) (score : Z) : M unit :=
  modify (fun s => with_solutions (solutions s ++ [solution]) s) ;;;
  modify (fun s => with_solution_scores (solution_scores s ++ [score]) s) ;;;
  log_event "SOLUTION_ADDED"
    [("score", VInt score);
     ("solution_id", get_or "id" (VStr "unknown") solution)].

Definition set_escalation (required : bool) (reason : string) : M unit :=
  modify (with_escalation_required required) ;;;
  modify (with_escalation_reason reason) ;;;
  log_event "ESCALATION_SET"
    [("required", VBool required); ("reason", VStr reason)].

Definition add_clarification_question (question : string) : M unit :=
  modify (fun s =>
            with_clarification_questions (clarification_questions s ++ [question]) s) ;;;
  log_event "CLARIFICATION_ADDED" [("question", VStr question)].

Definition add_human_response (response : string) : M unit :=
  modify (fun s => with_human_responses (human_responses s ++ [response]) s) ;;;
  log_event "HUMAN_RESPONSE_ADDED" [("response_length", str_len response)].

Definition set_generated_response (response : string) : M unit :=
  modify (with_generated_response response) ;;;
  log_event "RESPONSE_GENERATED" [("response_length", str_len response)].

Definition add_action (action : string) : M unit :=
  modify (fun s => with_actions_taken (actions_taken s ++ [action]) s) ;;;
  log_event "ACTION_EXECUTED" [("action", VStr action)].

(** [copy.deepcopy(self.state)]: values are immutable here, the copy is the
    state itself. *)
Definition get_current_state : M AgentState := gets (fun s => s).

(** [max(xs) if xs else 0] *)
Definition max_or_0 (xs : list Z) : Z :=
  match xs with
  | [] => 0%Z
  | x :: xs' => fold_left Z.max xs' x
  end.

Definition export_final_payload : M dict :=
  s <- gets (fun s => s) ;;
  ret
    [("input", VDict
        [("customer_name", customer_name s);
         ("email", email s);
         ("query", query s);
         ("priority", priority s);
         ("ticket_id", ticket_id s)]);
     ("processing", VDict
        [("stages_completed",
          VList (map VStr (stage_history s ++ [current_stage s])));
         ("entities_extracted", VDict (entities s));
         ("enriched_data", VDict (enriched_data s));
         ("knowledge_base_results", py_len (kb_results s));
         ("solutions_evaluated", py_len (solutions s))]);
     ("decisions", VDict
        [("escalation_required", VBool (escalation_required s));
         ("escalation_reason", VStr (escalation_reason s));
         ("best_solution_score", VInt (max_or_0 (solution_scores s)))]);
     ("output", VDict
        [("generated_response", VStr (generated_response s));
         ("actions_executed", VList (map VStr (actions_taken s)));
         ("final_status",
          VStr (if escalation_required s then "escalated" else "resolved"))]);
     ("metadata", VDict
        [("created_at", VStr (isoformat (created_at s)));
         ("completed_at", VStr (isoformat (updated_at s)));
         ("processing_log", VList (map VDict (processing_log s)))])].

End StateManager.

(** ** Dynamic operations on values *)

(** [type(v).__name__] *)
Definition type_name (v : value) : string :=
  match v with
  | VNone => "NoneType"
  | VBool _ => "bool"
  | VInt _ => "int"
  | VFloat _ => "float"
  | VStr _ => "str"
  | VList _ => "list"
  | VDict _ => "dict"
  end.

(** Truth value of an object. *)
Definition truthy (v : value) : bool :=
  match v with
  | VNone => false
  | VBool b => b
  | VInt z => negb (z =? 0)%Z
  | VFloat q => negb (Qeq_bool q 0%Q)
  | VStr s => StateManager.str_truthy s
  | VList l => match l with [] => false | _ => true end
  | VDict d => match d with [] => false | _ => true end
  end.

Definition obind {A B} (o : outcome A) (k : A -> outcome B) : outcome B :=
  match o with
  | Ok a => k a
  | Raise e => Raise e
  end.

Notation "x <~ o ;; k" := (obind o (fun x => k))
  (at level 61, o at next level, right associativity).

Fixpoint omap {A B} (f : A -> outcome B) (xs : list A) : outcome (list B) :=
  match xs with
  | [] => Ok []
  | x :: xs' => y <~ f x ;; ys <~ omap f xs' ;; Ok (y :: ys)
  end.

Definition no_attribute {A} (v : value) (attr : string) : outcome A :=
  Raise (AttributeError
           ("'" ++ type_name v ++ "' object has no attribute '" ++ attr ++ "'")).

Definition contract_error {A} (v : value) (expected : string) : outcome A :=
  Raise (TypeError ("expected " ++ expected ++ ", got " ++ type_name v)).

(** The receiver of [v.get(...)]. *)
Definition as_mapping (v : value) : outcome dict :=
  match v with
  | VDict d => Ok d
  | _ => no_attribute v "get"
  end.

(** A value used where the annotations ask for a [Dict], a [List], a [str],
    a [bool] or a number. *)
Definition as_dict (v : value) : outcome dict :=
  match v with VDict d => Ok d | _ => contract_error v "dict" end.
Definition as_list (v : value) : outcome (list value) :=
  match v with VList l => Ok l | _ => contract_error v "list" end.
Definition as_str (v : value) : outcome string :=
  match v with VStr s => Ok s | _ => contract_error v "str" end.
Definition as_bool (v : value) : outcome bool :=
  match v with VBool b => Ok b | _ => contract_error v "bool" end.
Definition as_int (v : value) : outcome Z :=
  match v with VInt z => Ok z | _ => contract_error v "int" end.

(** *** Strings (ASCII text) *)

Definition lower_ascii (c : ascii) : ascii :=
  let n := nat_of_ascii c in
  if (65 <=? n)%nat && (n <=? 90)%nat then ascii_of_nat (n + 32) else c.

(** [s.lower()] *)
Fixpoint lower (s : string) : string :=
  match s with
  | EmptyString => EmptyString
  | String c s' => String (lower_ascii c) (lower s')
  end.

Definition is_space (c : ascii) : bool :=
  let n := nat_of_ascii c in
  ((9 <=? n)%nat && (n <=? 13)%nat) || ((28 <=? n)%nat && (n <=? 32)%nat).

(** [s.split()]: the maximal runs of non-blank characters. [cur] is the run
    being read. *)
Fixpoint split_from (cur : string) (s : string) : list string :=
  match s with
  | EmptyString => if StateManager.str_truthy cur then [cur] else []
  | String c s' =>
      if is_space c
      then (if StateManager.str_truthy cur then [cur] else []) ++ split_from "" s'
      else split_from (cur ++ String c "") s'
  end.

Definition split (s : string) : list string := split_from "" s.

(** [sub in s] *)
Fixpoint contains (sub s : string) : bool :=
  String.prefix sub s ||
  match s with
  | EmptyString => false
  | String _ s' => contains sub s'
  end.

(** ** Configuration ([config.py]) *)

Inductive MCPServer : Type := COMMON | ATLAS.

(** [server.value] *)
Definition MCPServer_value (s : MCPServer) : string :=
  match s with COMMON => "common" | ATLAS => "atlas" end.

Definition MCPServer_eqb (a b : MCPServer) : bool :=
  match a, b with
  | COMMON, COMMON | ATLAS, ATLAS => true
  | _, _ => false
  end.

Inductive StageMode : Type :=
| DETERMINISTIC | NON_DETERMINISTIC | HUMAN | PAYLOAD_ONLY.

Record Ability : Type := mkAbility {
  ability_name : string;
  ability_server : MCPServer;
  ability_description : string
}.

Record Stage : Type := mkStage {
  stage_name : string;
  stage_mode : StageMode;
  stage_abilities : list Ability;
  stage_description : string
}.

Definition STAGES : list Stage :=
  [ mkStage "INTAKE" PAYLOAD_ONLY
      [ mkAbility "accept_payload" COMMON "Capture incoming request payload" ]
      "Accept and validate incoming customer request";
    mkStage "UNDERSTAND" DETERMINISTIC
      [ mkAbility "parse_request_text" COMMON
          "Convert unstructured request to structured data";
        mkAbility "extract_entities" ATLAS "Identify product, account, dates" ]
      "Parse and understand customer request";
    mkStage "PREPARE" DETERMINISTIC
      [ mkAbility "normalize_fields" COMMON "Standardize dates, codes, IDs";
        mkAbility "enrich_records" ATLAS "Add SLA, historical ticket info";
        mkAbility "add_flags_calculations" COMMON "Compute priority or SLA risk" ]
      "Normalize and enrich customer data";
    mkStage "ASK" HUMAN
      [ mkAbility "clarify_question" ATLAS "Request missing information" ]
      "Ask clarifying questions if needed";
    mkStage "WAIT" DETERMINISTIC
      [ mkAbility "extract_answer" ATLAS "Wait and capture concise response";
        mkAbility "store_answer" COMMON "Update payload with response" ]
      "Wait for and process human responses";
    mkStage "RETRIEVE" DETERMINISTIC
      [ mkAbility "knowledge_base_search" ATLAS "Lookup KB or FAQ";
        mkAbility "store_data" COMMON "Attach retrieved info to payload" ]
      "Search knowledge base for solutions";
    mkStage "DECIDE" NON_DETERMINISTIC
      [ mkAbility "solution_evaluation" COMMON "Score potential solutions 1-100";
        mkAbility "escalation_decision" ATLAS
          "Assign to human agent if score <90";
        mkAbility "update_payload" COMMON "Record decision outcomes" ]
      "Evaluate solutions and make escalation decisions";
    mkStage "UPDATE" DETERMINISTIC
      [ mkAbility "update_ticket" ATLAS "Modify status, fields, priority";
        mkAbility "close_ticket" ATLAS "Mark issue resolved" ]
      "Update ticket status and information";
    mkStage "CREATE" DETERMINISTIC
      [ mkAbility "response_generation" COMMON "Draft customer reply" ]
      "Generate customer response";
    mkStage "DO" DETERMINISTIC
      [ mkAbility "execute_api_calls" ATLAS "Trigger CRM/order system actions";
        mkAbility "trigger_notifications" ATLAS "Notify customer" ]
      "Execute actions and send notifications";
    mkStage "COMPLETE" PAYLOAD_ONLY
      [ mkAbility "output_payload" COMMON "Print final structured payload" ]
      "Output final results" ].

(** ** The Ability Clients ([mcp_client.py]) *)

(** A handler method [_handle_<name>(self, context)]: it reads the context
    and the clock, and returns a result mapping or raises. *)
Definition Handler : Type := dict -> Time -> outcome dict.

(** The handler methods of the two client classes: [handlers server name] is
    the method [_handle_<name>] of the client class of [server], if the class
    has one ([hasattr]). *)
Definition HandlerTable : Type := MCPServer -> string -> option Handler.

Record MCPClient : Type := mkMCPClient {
  server_type : MCPServer;
  connected : bool
}.

Module MCPClient.

(** [MCPClient(server_type)] *)
Definition init (server : MCPServer) : MCPClient := mkMCPClient server false.

Definition connect (c : MCPClient) : MCPClient * bool :=
  (mkMCPClient (server_type c) true, true).

Definition disconnect (c : MCPClient) : MCPClient :=
  mkMCPClient (server_type c) false.

Definition _default_handler (ability : Ability) : Handler :=
  fun context t =>
    Ok [("ability", VStr (ability_name ability));
        ("server", VStr (MCPServer_value (ability_server ability)));
        ("status", VStr "completed");
        ("timestamp", VStr (isoformat t));
        ("result", VStr ("Executed " ++ ability_name ability ++ " successfully"))].

Definition not_connected_message (c : MCPClient) : string :=
  "Not connected to " ++ MCPServer_value (server_type c) ++ " server".

Definition wrong_server_message (c : MCPClient) (ability : Ability) : string :=
  "Ability " ++ ability_name ability ++ " belongs to "
  ++ MCPServer_value (ability_server ability) ++ ", not "
  ++ MCPServer_value (server_type c).

Definition execute_ability (handlers : HandlerTable) (c : MCPClient)
  (ability : Ability) (context : dict) : M dict :=
  if negb (connected c) then
    raise (MCPClientError (not_connected_message c))
  else if negb (MCPServer_eqb (ability_server ability) (server_type c)) then
    raise (MCPClientError (wrong_server_message c ability))
  else
    t <- datetime_now ;;
    match handlers (server_type c) (ability_name ability) with
    | Some handler => lift_outcome (handler context t)
    | None => lift_outcome (_default_handler ability context t)
    end.

End MCPClient.

(** *** Handlers of the source *)

(** [max(xs)] *)
Definition py_max (xs : list Z) : outcome Z :=
  match xs with
  | [] => Raise (ValueError "max() arg is an empty sequence")
  | x :: xs' => Ok (fold_left Z.max xs' x)
  end.

(** [for x in v] *)
Definition iterate (v : value) : outcome (list value) :=
  match v with
  | VList l => Ok l
  | VDict d => Ok (map (fun kv => VStr (fst kv)) d)
  | VStr s => Ok (map (fun c => VStr (String c "")) (list_ascii_of_string s))
  | _ => Raise (TypeError ("'" ++ type_name v ++ "' object is not iterable"))
  end.

(** [len(v)] *)
Definition len_of (v : value) : outcome value :=
  match v with
  | VStr s => Ok (str_len s)
  | VList l => Ok (py_len l)
  | VDict d => Ok (py_len d)
  | _ => Raise (TypeError
                  ("object of type '" ++ type_name v ++ "' has no len()"))
  end.

(** [s.get("score", 0)] *)
Definition score_of (s : value) : outcome Z :=
  d <~ as_mapping s ;; as_int (get_or "score" (VInt 0) d).

Module CommonMCPClient.

Definition urgency_words : list string :=
  ["urgent"; "emergency"; "asap"; "critical"; "immediately"].

(** The receiver of a [str] method. *)
Definition str_method (v : value) (method : string) : outcome string :=
  match v with
  | VStr s => Ok s
  | _ => no_attribute v method
  end.

Definition _handle_parse_request_text : Handler :=
  fun context t =>
    let query := get_or "query" (VStr "") context in
    word_count <~ (if truthy query
                   then q <~ str_method query "split" ;;
                        Ok (List.length (split q))
                   else Ok 0%nat) ;;
    urgency_keywords <~
      omap (fun word =>
              q <~ str_method query "lower" ;;
              Ok (word, contains (lower word) (lower q)))
           urgency_words ;;
    let parsed_data : dict :=
      [("intent", VStr "support_request");
       ("sentiment", VStr "neutral");
       ("urgency_keywords",
        VList (map (fun wb => VStr (fst wb))
                 (filter (fun wb => snd wb) urgency_keywords)));
       ("word_count", VInt (Z.of_nat word_count))] in
    original_length <~ len_of query ;;
    Ok [("parsed_data", VDict parsed_data);
        ("original_length", original_length);
        ("structured", VBool true)].

Definition _handle_store_answer : Handler :=
  fun context t =>
    answer_length <~ len_of (get_or "human_response" (VStr "") context) ;;
    Ok [("stored", VBool true);
        ("answer_length", answer_length);
        ("storage_timestamp", VStr (isoformat t))].

Definition _handle_store_data : Handler :=
  fun context t =>
    data_points <~ len_of (get_or "kb_results" (VList []) context) ;;
    Ok [("stored", VBool true);
        ("data_points", data_points);
        ("storage_timestamp", VStr (isoformat t))].

(** [v[:n]]; slicing a [dict] raises [TypeError] up to Python 3.11 (a
    [KeyError] from 3.12 on, where a slice is hashable). *)
Definition slice_to (n : nat) (v : value) : outcome value :=
  match v with
  | VList l => Ok (VList (firstn n l))
  | VStr s => Ok (VStr (substring 0 n s))
  | VDict _ => Raise (TypeError "unhashable type: 'slice'")
  | _ => Raise (TypeError ("'" ++ type_name v ++ "' object is not subscriptable"))
  end.

(** [any(word in title for word in query.split())] *)
Definition any_word_in (query title : string) : bool :=
  existsb (fun word => contains word title) (split query).

(** The loop of [_handle_solution_evaluation] over [enumerate(...)], from
    index [i] on; it returns the solutions appended. *)
Fixpoint evaluate_results (context : dict) (i : Z) (results : list value)
  : outcome (list dict) :=
  match results with
  | [] => Ok []
  | result :: rest =>
      let base_score := (60 + i * 5)%Z in
      query <~ str_method (get_or "query" (VStr "") context) "lower" ;;
      let query := lower query in
      r <~ as_mapping result ;;
      title <~ str_method (get_or "title" (VStr "") r) "lower" ;;
      let title := lower title in
      let relevance_boost := if any_word_in query title then 20%Z else 0%Z in
      let final_score := Z.min (base_score + relevance_boost) 100 in
      let solution : dict :=
        [("id", VStr ("sol_" ++ str_of_Z (i + 1)));
         ("title", get_or "title" (VStr ("Solution " ++ str_of_Z (i + 1))) r);
         ("score", VInt final_score);
         ("confidence", VFloat (Qmake final_score 100));
         ("source", VStr "knowledge_base")] in
      solutions <~ evaluate_results context (i + 1) rest ;;
      Ok (solution :: solutions)
  end.

(** [s["score"]] *)
Definition score_item (s : dict) : outcome Z :=
  match dict_get "score" s with
  | Some v => as_int v
  | None => Raise (OtherError "KeyError" "'score'")
  end.

Definition _handle_solution_evaluation : Handler :=
  fun context t =>
    let kb_results := get_or "kb_results" (VList []) context in
    top <~ slice_to 3 kb_results ;;
    items <~ iterate top ;;
    solutions <~ evaluate_results context 0 items ;;
    best_score <~ (match solutions with
                   | [] => Ok 0%Z
                   | _ => scores <~ omap score_item solutions ;; py_max scores
                   end) ;;
    Ok [("solutions", VList (map VDict solutions));
        ("best_score", VInt best_score);
        ("evaluation_method", VStr "relevance_based")].

Definition _handle_update_payload : Handler :=
  fun context t =>
    Ok [("updated", VBool true);
        ("decision_recorded", VBool true);
        ("update_timestamp", VStr (isoformat t))].

Definition _handle_output_payload : Handler :=
  fun context t =>
    Ok [("output_generated", VBool true);
        ("payload_complete", VBool true);
        ("timestamp", VStr (isoformat t))].

End CommonMCPClient.

Module AtlasMCPClient.

Definition _handle_escalation_decision : Handler :=
  fun context t =>
    let solutions := get_or "solutions" (VList []) context in
    best_score <~ (if truthy solutions
                   then items <~ iterate solutions ;;
                        scores <~ omap score_of items ;;
                        py_max scores
                   else Ok 0%Z) ;;
    let escalate := (best_score <? 90)%Z in
    let escalation_data : dict :=
      [("escalation_required", VBool escalate);
       ("reason",
        VStr (if escalate
              then "Best solution score (" ++ str_of_Z best_score
                   ++ ") below threshold (90)"
              else "Sufficient solution found"));
       ("assigned_to",
        VStr (if escalate then "specialist_team" else "automated_system"));
       ("priority", VStr (if (best_score <? 70)%Z then "high" else "medium"))] in
    Ok [("escalation_decision", VDict escalation_data);
        ("decision_confidence", VFloat (9 # 10)%Q);
        ("threshold_used", VInt 90)].

Definition is_digit (c : ascii) : bool :=
  let n := nat_of_ascii c in (48 <=? n)%nat && (n <=? 57)%nat.

(** [any(char.isdigit() for char in s)] *)
Definition has_digit (s : string) : bool :=
  existsb is_digit (list_ascii_of_string s).

Definition _handle_clarify_question : Handler :=
  fun context t =>
    let entities := get_or "extracted_entities" (VDict []) context in
    let query := get_or "query" (VStr "") context in
    e <~ as_mapping entities ;;
    let about_account :=
      if negb (truthy (get_or "account_numbers" VNone e))
      then ["Could you please provide your account number?"]
      else [] in
    q <~ CommonMCPClient.str_method query "lower" ;;
    let about_order :=
      if contains "order" (lower q) && negb (has_digit q)
      then ["What is your order number?"]
      else [] in
    let questions := about_account ++ about_order in
    let questions :=
      match questions with
      | [] => ["Could you provide more details about your specific issue?"]
      | _ => questions
      end in
    Ok [("clarification_questions", VList (map VStr questions));
        ("question_count", py_len questions);
        ("requires_human_input", VBool true)].

Definition _handle_extract_answer : Handler :=
  fun context t =>
    let human_response :=
      get_or "human_response" (VStr "No response provided") context in
    n <~ len_of human_response ;;
    n <~ as_int n ;;
    Ok [("extracted_answer", human_response);
        ("answer_processed", VBool true);
        ("contains_useful_info", VBool (10 <? n)%Z)].

(** The records the search returns, whatever the query. *)
Definition kb_records : list dict :=
  [ [("id", VStr "kb_001");
     ("title", VStr "How to track your order status");
     ("content", VStr "You can track your order by logging into your account...");
     ("relevance", VFloat (92 # 100)%Q);
     ("category", VStr "orders")];
    [("id", VStr "kb_002");
     ("title", VStr "Resolving payment issues");
     ("content", VStr "If you're experiencing payment problems...");
     ("relevance", VFloat (78 # 100)%Q);
     ("category", VStr "payments")];
    [("id", VStr "kb_003");
     ("title", VStr "Account access troubleshooting");
     ("content", VStr "For account access issues, please try...");
     ("relevance", VFloat (65 # 100)%Q);
     ("category", VStr "account")] ].

Definition _handle_knowledge_base_search : Handler :=
  fun context t =>
    Ok [("kb_results", VList (map VDict kb_records));
        ("total_results", py_len kb_records);
        ("search_method", VStr "semantic_search")].

Definition _handle_update_ticket : Handler :=
  fun context t =>
    let ticket_id := get_or "ticket_id" (VStr "") context in
    let escalation_required := get_or "escalation_required" (VBool false) context in
    let update_data : dict :=
      [("ticket_id", ticket_id);
       ("status",
        VStr (if truthy escalation_required then "escalated" else "in_progress"));
       ("last_updated", VStr (isoformat t));
       ("updated_by", VStr "langie_agent")] in
    Ok [("ticket_updated", VBool true);
        ("update_data", VDict update_data);
        ("external_system", VStr "crm_system")].

Definition _handle_close_ticket : Handler :=
  fun context t =>
    let ticket_id := get_or "ticket_id" (VStr "") context in
    Ok [("ticket_closed", VBool true);
        ("ticket_id", ticket_id);
        ("closure_timestamp", VStr (isoformat t));
        ("resolution_method", VStr "automated")].

Definition _handle_execute_api_calls : Handler :=
  fun context t =>
    let notify : list dict :=
      if truthy (get_or "escalation_required" VNone context)
      then [[("api", VStr "notification_service");
             ("action", VStr "notify_specialist_team");
             ("status", VStr "success")]]
      else [] in
    let api_calls : list dict :=
      notify ++ [[("api", VStr "crm_system");
                  ("action", VStr "update_customer_record");
                  ("status", VStr "success")]] in
    Ok [("api_calls_executed", VList (map VDict api_calls));
        ("total_calls", py_len api_calls);
        ("all_successful", VBool true)].

End AtlasMCPClient.

(** ** The Stage Executor ([stage_nodes.py]) *)

Record StageExecutor : Type := mkStageExecutor {
  common_client : MCPClient;
  atlas_client : MCPClient;
  clients_connected : bool
}.

Section Orchestration.

(** The handler methods the two client classes are given. *)
Variable handlers : HandlerTable.

(** [StageExecutor()] *)
Definition StageExecutor_init : StageExecutor :=
  mkStageExecutor (MCPClient.init COMMON) (MCPClient.init ATLAS) false.

Definition setup_clients (self : StageExecutor) : StageExecutor * bool :=
  if negb (clients_connected self) then
    let (common, common_connected) := MCPClient.connect (common_client self) in
    let (atlas, atlas_connected) := MCPClient.connect (atlas_client self) in
    let both := common_connected && atlas_connected in
    (mkStageExecutor common atlas both, both)
  else (self, clients_connected self).

Definition cleanup_clients (self : StageExecutor) : StageExecutor :=
  mkStageExecutor (MCPClient.disconnect (common_client self))
                  (MCPClient.disconnect (atlas_client self)) false.

(** The [else] branch of the source ([ValueError] for an unknown server
    type) has no case left in [MCPServer]. *)
Definition get_client (self : StageExecutor) (server : MCPServer) : MCPClient :=
  match server with
  | COMMON => common_client self
  | ATLAS => atlas_client self
  end.

Definition _build_context (s : AgentState) : dict :=
  [("customer_name", customer_name s);
   ("email", email s);
   ("query", query s);
   ("priority", priority s);
   ("ticket_id", ticket_id s);
   ("priority_level", get_or "priority_level" (VInt 2) (normalized_fields s));
   ("extracted_entities", VDict (entities s));
   ("enriched_data", VDict (enriched_data s));
   ("kb_results", VList (map VDict (kb_results s)));
   ("solutions", VList (map VDict (solutions s)));
   ("escalation_required", VBool (escalation_required s));
   ("human_responses", VList (map VStr (human_responses s)));
   ("generated_response", VStr (generated_response s));
   ("actions_taken", VList (map VStr (actions_taken s)))].

(** [{"error": str(e), "ability": ability.name}] *)
Definition error_result (msg : string) (ability : Ability) : dict :=
  [("error", VStr msg); ("ability", VStr (ability_name ability))].

(** [v == s] for a string [s]. *)
Definition is_str (v : value) (s : string) : bool :=
  match v with
  | VStr s' => String.eqb s' s
  | _ => false
  end.

Definition _update_state_from_result (ability : Ability) (result : dict)
  (context : dict) : M unit :=
  let name := ability_name ability in
  if String.eqb name "extract_entities" then
    entities <- lift_outcome
                  (as_dict (get_or "extracted_entities" (VDict []) result)) ;;
    StateManager.update_entities entities
  else if String.eqb name "normalize_fields" then
    fields <- lift_outcome
                (as_dict (get_or "normalized_fields" (VDict []) result)) ;;
    StateManager.update_normalized_fields fields
  else if String.eqb name "enrich_records" then
    data <- lift_outcome (as_dict (get_or "enriched_data" (VDict []) result)) ;;
    StateManager.add_enriched_data data
  else if String.eqb name "knowledge_base_search" then
    kb_results <- lift_outcome (iterate (get_or "kb_results" (VList []) result)) ;;
    for_each kb_results
      (fun kb_result =>
         r <- lift_outcome (as_dict kb_result) ;; StateManager.add_kb_result r)
  else if String.eqb name "response_generation" then
    response <- lift_outcome
                  (as_str (get_or "generated_response" (VStr "") result)) ;;
    StateManager.set_generated_response response
  else if String.eqb name "extract_answer" then
    let answer := get_or "extracted_answer" (VStr "") result in
    if truthy answer && negb (is_str answer "No response provided") then
      a <- lift_outcome (as_str answer) ;; StateManager.add_human_response a
    else ret tt
  else ret tt.

(** The body of the loop of [_execute_payload_stage]; [results] is the list
    built so far. *)
Fixpoint payload_loop (self : StageExecutor) (abilities : list Ability)
  (context : dict) (results : list dict) : M (list dict) :=
  match abilities with
  | [] => ret results
  | ability :: rest =>
      results' <-
        try_except_MCPClientError
          (result <- MCPClient.execute_ability handlers
                       (get_client self (ability_server ability)) ability context ;;
           if String.eqb (ability_name ability) "accept_payload" then
             ret (results ++ [result])
           else if String.eqb (ability_name ability) "output_payload" then
             try_except_MCPClientError
               (final_payload <- StateManager.export_final_payload ;;
                ret (results ++ [dict_set "final_payload" (VDict final_payload) result]))
               (fun msg => ret (results ++ [result] ++ [error_result msg ability]))
           else ret (results ++ [result]))
          (fun msg => ret (results ++ [error_result msg ability])) ;;
      payload_loop self rest context results'
  end.

Definition stage_result (stage_config : Stage) (results : list dict) : dict :=
  [("stage", VStr (stage_name stage_config));
   ("results", VList (map VDict results));
   ("status", VStr "completed")].

Definition _execute_payload_stage (self : StageExecutor) (stage_config : Stage)
  : M dict :=
  s <- StateManager.get_current_state ;;
  let context := _build_context s in
  results <- payload_loop self (stage_abilities stage_config) context [] ;;
  ret (stage_result stage_config results).

(** The loop of [_execute_deterministic_stage]; it carries [context] and
    [results]. *)
Fixpoint deterministic_loop (self : StageExecutor) (abilities : list Ability)
  (context : dict) (results : list dict) : M (list dict) :=
  match abilities with
  | [] => ret results
  | ability :: rest =>
      next <-
        try_except_MCPClientError
          (result <- MCPClient.execute_ability handlers
                       (get_client self (ability_server ability)) ability context ;;
           try_except_MCPClientError
             (_update_state_from_result ability result context ;;;
              s <- StateManager.get_current_state ;;
              ret (_build_context s, results ++ [result]))
             (fun msg =>
                ret (context, results ++ [result] ++ [error_result msg ability])))
          (fun msg => ret (context, results ++ [error_result msg ability])) ;;
      deterministic_loop self rest (fst next) (snd next)
  end.

Definition _execute_deterministic_stage (self : StageExecutor)
  (stage_config : Stage) : M dict :=
  s <- StateManager.get_current_state ;;
  let context := _build_context s in
  results <- deterministic_loop self (stage_abilities stage_config) context [] ;;
  ret (stage_result stage_config results).

(** [next((a for a in abilities if a.name == name), None)] *)
Definition find_ability (abilities : list Ability) (name : string)
  : option Ability :=
  find (fun a => String.eqb (ability_name a) name) abilities.

(** The three steps of the DECIDE choreography. First, evaluate solutions:
    the step returns the context rebuilt after the solutions are added, and
    the results. *)
Definition evaluate_solutions (self : StageExecutor) (stage_config : Stage)
  (context : dict) (results : list dict) : M (dict * list dict) :=
  match find_ability (stage_abilities stage_config) "solution_evaluation" with
  | Some solution_ability =>
      eval_result <- MCPClient.execute_ability handlers
                       (get_client self (ability_server solution_ability))
                       solution_ability context ;;
      solutions <- lift_outcome
                     (iterate (get_or "solutions" (VList []) eval_result)) ;;
      for_each solutions
        (fun solution =>
           score <- lift_outcome (score_of solution) ;;
           d <- lift_outcome (as_dict solution) ;;
           StateManager.add_solution d score) ;;;
      s' <- StateManager.get_current_state ;;
      ret (_build_context s', results ++ [eval_result])
  | None => ret (context, results)
  end.

(** Then, make the escalation decision based on the scores. *)
Definition decide_escalation (self : StageExecutor) (stage_config : Stage)
  (context : dict) (results : list dict) : M (list dict) :=
  match find_ability (stage_abilities stage_config) "escalation_decision" with
  | Some escalation_ability =>
      escalation_result <- MCPClient.execute_ability handlers
                             (get_client self (ability_server escalation_ability))
                             escalation_ability context ;;
      escalation_data <- lift_outcome
                           (as_mapping (get_or "escalation_decision" (VDict [])
                                          escalation_result)) ;;
      required <- lift_outcome
                    (as_bool (get_or "escalation_required" (VBool false)
                                escalation_data)) ;;
      reason <- lift_outcome
                  (as_str (get_or "reason" (VStr "") escalation_data)) ;;
      StateManager.set_escalation required reason ;;;
      ret (results ++ [escalation_result])
  | None => ret results
  end.

(** Finally, update the payload. *)
Definition record_decision (self : StageExecutor) (stage_config : Stage)
  (context : dict) (results : list dict) : M (list dict) :=
  match find_ability (stage_abilities stage_config) "update_payload" with
  | Some update_ability =>
      update_result <- MCPClient.execute_ability handlers
                         (get_client self (ability_server update_ability))
                         update_ability context ;;
      ret (results ++ [update_result])
  | None => ret results
  end.

Definition _execute_non_deterministic_stage (self : StageExecutor)
  (stage_config : Stage) : M dict :=
  s <- StateManager.get_current_state ;;
  let context := _build_context s in
  let results : list dict := [] in
  if String.eqb (stage_name stage_config) "DECIDE" then
    step1 <- evaluate_solutions self stage_config context results ;;
    let context := fst step1 in
    let results := snd step1 in
    results <- decide_escalation self stage_config context results ;;
    results <- record_decision self stage_config context results ;;
    ret (stage_result stage_config results)
  else ret (stage_result stage_config results).

(** The loop of [_execute_human_stage]. *)
Fixpoint human_loop (self : StageExecutor) (abilities : list Ability)
  (context : dict) (results : list dict) : M (list dict) :=
  match abilities with
  | [] => ret results
  | ability :: rest =>
      results' <-
        try_except_MCPClientError
          (result <- MCPClient.execute_ability handlers
                       (get_client self (ability_server ability)) ability context ;;
           try_except_MCPClientError
             ((if String.eqb (ability_name ability) "clarify_question" then
                 questions <- lift_outcome
                                (iterate (get_or "clarification_questions"
                                            (VList []) result)) ;;
                 for_each questions
                   (fun question =>
                      q <- lift_outcome (as_str question) ;;
                      StateManager.add_clarification_question q)
               else ret tt) ;;;
              ret (results ++ [result]))
             (fun msg => ret (results ++ [result] ++ [error_result msg ability])))
          (fun msg => ret (results ++ [error_result msg ability])) ;;
      human_loop self rest context results'
  end.

Definition _execute_human_stage (self : StageExecutor) (stage_config : Stage)
  : M dict :=
  s <- StateManager.get_current_state ;;
  let context := _build_context s in
  results <- human_loop self (stage_abilities stage_config) context [] ;;
  ret (stage_result stage_config results).

(** The last [else] of the source ([ValueError] for an unknown mode) has no
    case left in [StageMode]. *)
Definition execute_stage (self : StageExecutor) (name : string) : M dict :=
  match find (fun s => String.eqb (stage_name s) name) STAGES with
  | None => raise (ValueError ("Unknown stage: " ++ name))
  | Some stage_config =>
      StateManager.update_stage name ;;;
      match stage_mode stage_config with
      | PAYLOAD_ONLY => _execute_payload_stage self stage_config
      | DETERMINISTIC => _execute_deterministic_stage self stage_config
      | NON_DETERMINISTIC => _execute_non_deterministic_stage self stage_config
      | HUMAN => _execute_human_stage self stage_config
      end
  end.

(** [try: body / finally: cleanup]; the clean-up here disconnects the clients
    of the executor, which the node drops afterwards. *)
Definition try_finally {A} (body : M A) (cleanup : M unit) : M A :=
  fun w =>
    match body w with
    | (r, w') =>
        match cleanup w' with
        | (Ok _, w'') => (r, w'')
        | (Raise e, w'') => (Raise e, w'')
        end
    end.

(** The eleven node functions ([intake_node] ... [complete_node]) are the
    same text up to the stage name. *)
Definition stage_node (name : string) : M dict :=
  let executor := StageExecutor_init in
  let executor := fst (setup_clients executor) in
  try_finally (execute_stage executor name)
              (let _ := cleanup_clients executor in ret tt).

Definition intake_node := stage_node "INTAKE".
Definition understand_node := stage_node "UNDERSTAND".
Definition prepare_node := stage_node "PREPARE".
Definition ask_node := stage_node "ASK".
Definition wait_node := stage_node "WAIT".
Definition retrieve_node := stage_node "RETRIEVE".
Definition decide_node := stage_node "DECIDE".
Definition update_node := stage_node "UPDATE".
Definition create_node := stage_node "CREATE".
Definition do_node := stage_node "DO".
Definition complete_node := stage_node "COMPLETE".

(** ** The Workflow Engine ([langgraph_agent.py]) *)

(** What the engine uses of the graph library: named nodes that transform
    the graph state, plain edges, and conditional edges that map the label
    returned by a router to the next node. *)
Record StateGraph : Type := mkStateGraph {
  nodes : list (string * (dict -> M dict));
  edges : list (string * string);
  conditional_edges : list (string * (dict -> M string * list (string * string)));
  entry_point : string
}.

Definition END : string := "__end__".

Fixpoint lookup {A} (k : string) (l : list (string * A)) : option A :=
  match l with
  | [] => None
  | (k', a) :: l' => if String.eqb k k' then Some a else lookup k l'
  end.

(** The node that follows [node] in graph state [state]. *)
Definition next_node (g : StateGraph) (node : string) (state : dict) : M string :=
  match lookup node (edges g) with
  | Some target => ret target
  | None =>
      match lookup node (conditional_edges g) with
      | Some router =>
          let (route, targets) := router state in
          label <- route ;;
          match lookup label targets with
          | Some target => ret target
          | None => raise (ValueError ("Unknown branch: " ++ label))
          end
      | None => raise (ValueError ("No edge from: " ++ node))
      end
  end.

(** The library stops a run after [limit] steps. *)
Fixpoint run_graph (g : StateGraph) (limit : nat) (node : string) (state : dict)
  : M dict :=
  if String.eqb node END then ret state
  else
    match limit with
    | O => raise (GraphRecursionError "Recursion limit reached")
    | S limit' =>
        match lookup node (nodes g) with
        | None => raise (ValueError ("Unknown node: " ++ node))
        | Some node_func =>
            state' <- node_func state ;;
            target <- next_node g node state' ;;
            run_graph g limit' target state'
        end
    end.

Definition recursion_limit : nat := 25.

(** [graph.ainvoke(initial_state, config)] *)
Definition ainvoke (g : StateGraph) (initial_state : dict) : M dict :=
  run_graph g recursion_limit (entry_point g) initial_state.

Definition _wrap_node (node_func : M dict) : dict -> M dict :=
  fun state =>
    try_except_Exception
      (result <- node_func ;;
       ret (dict_update state result))
      (fun e => ret (dict_set "error" (VStr (exn_str e)) state)).

Definition _should_escalate (state : dict) : M string :=
  agent_state <- StateManager.get_current_state ;;
  if escalation_required agent_state then ret "escalate" else ret "continue".

(** [_build_graph] *)
Definition graph : StateGraph :=
  mkStateGraph
    [("intake", _wrap_node intake_node);
     ("understand", _wrap_node understand_node);
     ("prepare", _wrap_node prepare_node);
     ("ask", _wrap_node ask_node);
     ("wait", _wrap_node wait_node);
     ("retrieve", _wrap_node retrieve_node);
     ("decide", _wrap_node decide_node);
     ("update", _wrap_node update_node);
     ("create", _wrap_node create_node);
     ("do", _wrap_node do_node);
     ("complete", _wrap_node complete_node)]
    [("intake", "understand");
     ("understand", "prepare");
     ("prepare", "ask");
     ("ask", "wait");
     ("wait", "retrieve");
     ("retrieve", "decide");
     ("update", "create");
     ("create", "do");
     ("do", "complete");
     ("complete", END)]
    [("decide",
      fun state =>
        (_should_escalate state, [("escalate", "update"); ("continue", "update")]))]
    "intake".

Definition process_request (input_data : dict) : M dict :=
  try_except_Exception
    (StateManager.initialize_state input_data ;;;
     t_id <- datetime_now ;;
     t_started <- datetime_now ;;
     let initial_state : dict :=
       [("request_id",
         get_or "ticket_id" (VStr ("req_" ++ strftime "%Y%m%d_%H%M%S" t_id))
           input_data);
        ("input_data", VDict input_data);
        ("processing_started", VStr (isoformat t_started))] in
     final_state <- ainvoke graph initial_state ;;
     final_payload <- StateManager.export_final_payload ;;
     ret (dict_set "final_payload" (VDict final_payload) final_state))
    (fun e =>
       t <- datetime_now ;;
       ret [("error", VStr (exn_str e));
            ("status", VStr "failed");
            ("timestamp", VStr (isoformat t));
            ("input_data", VDict input_data)]).

End Orchestration.

(** [LangieAgent()]: the agent owns one [StateManager], created when the
    clock shows [t]. *)
Definition LangieAgent_init (t : Time) : World := StateManager.init t.

(** The source handlers embedded above. An ability whose handler is not
    embedded here is answered by [_default_handler]. *)
Definition embedded_handlers : HandlerTable :=
  fun server name =>
    match server with
    | COMMON =>
        if String.eqb name "parse_request_text"
        then Some CommonMCPClient._handle_parse_request_text
        else None
    | ATLAS =>
        if String.eqb name "escalation_decision"
        then Some AtlasMCPClient._handle_escalation_decision
        else None
    end.

(** ** The mutation methods of the State Store, as data *)

Inductive Mutation : Type :=
| InitializeState (input_data : dict)
| UpdateStage (stage_name : string)
| UpdateEntities (entities : dict)
| UpdateNormalizedFields (fields : dict)
| AddEnrichedData (data : dict)
| AddKbResult (result : dict)
| AddSolution (solution : dict) (score : Z)
| SetEscalation (required : bool) (reason : string)
| AddClarificationQuestion (question : string)
| AddHumanResponse (response : string)
| SetGeneratedResponse (response : string)
| AddAction (action : string).

(** The call a [Mutation] stands for. *)
Definition run_mutation (m : Mutation) : M unit :=
  match m with
  | InitializeState input_data =>
      StateManager.initialize_state input_data ;;; ret tt
  | UpdateStage stage_name => StateManager.update_stage stage_name
  | UpdateEntities entities => StateManager.update_entities entities
  | UpdateNormalizedFields fields => StateManager.update_normalized_fields fields
  | AddEnrichedData data => StateManager.add_enriched_data data
  | AddKbResult result => StateManager.add_kb_result result
  | AddSolution solution score => StateManager.add_solution solution score
  | SetEscalation required reason => StateManager.set_escalation required reason
  | AddClarificationQuestion question =>
      StateManager.add_clarification_question question
  | AddHumanResponse response => StateManager.add_human_response response
  | SetGeneratedResponse response => StateManager.set_generated_response response
  | AddAction action => StateManager.add_action action
  end.

(** The event-type tag each method logs. *)
Definition event_type_of (m : Mutation) : string :=
  match m with
  | InitializeState _ => "STATE_INITIALIZED"
  | UpdateStage _ => "STAGE_UPDATED"
  | UpdateEntities _ => "ENTITIES_UPDATED"
  | UpdateNormalizedFields _ => "FIELDS_NORMALIZED"
  | AddEnrichedData _ => "DATA_ENRICHED"
  | AddKbResult _ => "KB_RESULT_ADDED"
  | AddSolution _ _ => "SOLUTION_ADDED"
  | SetEscalation _ _ => "ESCALATION_SET"
  | AddClarificationQuestion _ => "CLARIFICATION_ADDED"
  | AddHumanResponse _ => "HUMAN_RESPONSE_ADDED"
  | SetGeneratedResponse _ => "RESPONSE_GENERATED"
  | AddAction _ => "ACTION_EXECUTED"
  end.

Definition is_initialize (m : Mutation) : bool :=
  match m with
  | InitializeState _ => true
  | _ => false
  end.

(** The five input fields. *)
Definition input_fields (s : AgentState)
  : value * value * value * value * value :=
  (customer_name s, email s, query s, priority s, ticket_id s).

(** Every attribute other than the input fields and the event log. *)
Definition processing_fields (s : AgentState) :=
  (current_stage s, stage_history s,
   (entities s, normalized_fields s, enriched_data s),
   (kb_results s, solutions s, solution_scores s),
   (escalation_required s, escalation_reason s, actions_taken s),
   (clarification_questions s, human_responses s, generated_response s),
   (created_at s, updated_at s)).

(** [m] called [n] times in a row, with the values returned. *)
Fixpoint call_n {A} (n : nat) (m : M A) : M (list A) :=
  match n with
  | O => ret []
  | S n' => a <- m ;; rest <- call_n n' m ;; ret (a :: rest)
  end.

(** [b] is the greatest element of [xs], or 0 when there is none. *)
Definition maximum_or_0 (b : Z) (xs : list Z) : Prop :=
  match xs with
  | [] => b = 0%Z
  | _ => In b xs /\ Forall (fun x => (x <= b)%Z) xs
  end.

(** ** The vocabulary of the properties *)

(** Assignment to a key that is present: the first binding is replaced. *)
Fixpoint replace_first (k : string) (v : value) (d : dict) : dict :=
  match d with
  | [] => []
  | (k', v') :: d' =>
      if String.eqb k k' then (k', v) :: d' else (k', v') :: replace_first k v d'
  end.

(** [k in d] *)
Definition has_key (k : string) (d : dict) : Prop := In k (map fst d).

(** The merge when every key is present already. *)
Definition replace_all (d m : dict) : dict :=
  fold_left (fun acc kv => replace_first (fst kv) (snd kv) acc) m d.

(** The computation [m] leaves the view [f] of the state as it was, whether
    it returns or raises. *)
Definition preserves {B A} (f : AgentState -> B) (m : M A) : Prop :=
  forall w, f (state (snd (m w))) = f (state w).

(** The view [f] does not look at the attribute written by [setter]. *)
Definition ignores {B V} (f : AgentState -> B)
  (setter : V -> AgentState -> AgentState) : Prop :=
  forall v s, f (setter v s) = f s.

(** The part of the state that records the progress through the stages. *)
Definition stage_view (s : AgentState) : list string * string :=
  (stage_history s, current_stage s).

(** The stages in the order the graph runs them. *)
Definition stage_order : list string :=
  ["INTAKE"; "UNDERSTAND"; "PREPARE"; "ASK"; "WAIT"; "RETRIEVE"; "DECIDE";
   "UPDATE"; "CREATE"; "DO"; "COMPLETE"].

(** The world after the node functions of [names], one after the other. *)
Definition after_nodes (handlers : HandlerTable) (names : list string)
  (w : World) : World :=
  fold_left (fun w name => world_after (stage_node handlers name) w) names w.

(** The world after one reading of the clock. *)
Definition tick (w : World) : World := mkWorld (state w) (S (clock w)).

(** [m], when it returns, returns a value in [P]. *)
Definition ensures {A} (m : M A) (P : A -> Prop) : Prop :=
  forall w,
    match fst (m w) with
    | Ok a => P a
    | Raise _ => True
    end.

(** [m] never raises [MCPClientError] and, when it returns, returns a value
    in [P]. *)
Definition guards {A} (m : M A) (P : A -> Prop) : Prop :=
  forall w,
    match fst (m w) with
    | Ok a => P a
    | Raise (MCPClientError _) => False
    | Raise _ => True
    end.

(** The outcome is not a raised [MCPClientError]. *)
Definition no_MCPClientError {A} (o : outcome A) : Prop :=
  match o with
  | Raise (MCPClientError _) => False
  | _ => True
  end.

(** The preconditions of [execute_ability]. *)
Definition precondition_fails (c : MCPClient) (a : Ability) : Prop :=
  connected c = false \/ ability_server a <> server_type c.

(** The message of the error raised when a precondition fails. *)
Definition precondition_message (c : MCPClient) (a : Ability) : string :=
  if negb (connected c) then MCPClient.not_connected_message c
  else MCPClient.wrong_server_message c a.

(** A stage result with status "completed" and one result per ability. *)
Definition completed_with (stage_config : Stage) (r : dict) : Prop :=
  exists results,
    r = stage_result stage_config results /\
    List.length results = List.length (stage_abilities stage_config).

(** Every stage returns a result, whatever its handlers raise. *)
Definition every_handler_exception_is_caught : Prop :=
  forall (handlers : HandlerTable) (name : string) (w : World),
    In name stage_order ->
    exists r,
      result_of (execute_stage handlers (fst (setup_clients StageExecutor_init)) name) w
      = Ok r.

(** A knowledge base that is out of reach: its search handler raises the
    client error. *)
Definition unreachable_kb_handlers : HandlerTable :=
  fun server name =>
    match server with
    | ATLAS =>
        if String.eqb name "knowledge_base_search"
        then Some (fun _ _ => Raise (MCPClientError "knowledge base unreachable"))
        else None
    | COMMON => None
    end.

(** The DECIDE entry of the stage table. *)
Definition decide_stage : Stage :=
  mkStage "DECIDE" NON_DETERMINISTIC
    [ mkAbility "solution_evaluation" COMMON "Score potential solutions 1-100";
      mkAbility "escalation_decision" ATLAS "Assign to human agent if score <90";
      mkAbility "update_payload" COMMON "Record decision outcomes" ]
    "Evaluate solutions and make escalation decisions".

(** An executor after [setup_clients]. *)
Definition connected_executor : StageExecutor :=
  fst (setup_clients StageExecutor_init).

(** What the COMMON client answers to [solution_evaluation]. *)
Definition evaluation_outcome (handlers : HandlerTable) (context : dict)
  (t : Time) : outcome dict :=
  match handlers COMMON "solution_evaluation" with
  | Some handler => handler context t
  | None =>
      MCPClient._default_handler
        (mkAbility "solution_evaluation" COMMON "Score potential solutions 1-100")
        context t
  end.

(** A solution mapping with the score the executor reads from it. *)
Definition scored (solution : value) : outcome (dict * Z) :=
  score <~ score_of solution ;; d <~ as_dict solution ;; Ok (d, score).

(** The solutions of an evaluation result, with their scores. *)
Definition solutions_of (eval_result : dict) : outcome (list (dict * Z)) :=
  items <~ iterate (get_or "solutions" (VList []) eval_result) ;;
  omap scored items.

(** The part of the state the escalation decision is about. *)
Definition decision_view (s : AgentState) :=
  (solutions s, solution_scores s, escalation_required s, escalation_reason s).

(** A solution evaluation that returns one solution for each of [scores],
    next to the escalation handler of the source. *)
Definition scoring_handlers (scores : list Z) : HandlerTable :=
  fun server name =>
    match server with
    | COMMON =>
        if String.eqb name "solution_evaluation"
        then Some (fun _ _ =>
                     Ok [("solutions",
                          VList (map (fun z => VDict [("score", VInt z)]) scores))])
        else None
    | ATLAS =>
        if String.eqb name "escalation_decision"
        then Some AtlasMCPClient._handle_escalation_decision
        else None
    end.


(** ** Further parts of the source and of the vocabulary *)

(** [simulate_human_interaction] of [langgraph_agent.py]; [responses] is
    [None] when the caller leaves it out. *)
Definition default_responses : list string :=
  ["My account number is 123456789";
   "The order number is ORD-2024-001";
   "This happened yesterday around 3 PM"].

Definition simulate_human_interaction (questions : list value)
  (responses : option (list string)) : M dict :=
  let responses :=
    match responses with
    | None => default_responses
    | Some given => given
    end in
  t <- datetime_now ;;
  let interaction_data : dict :=
    [("questions_asked", VList questions);
     ("responses_received",
      VList (map VStr (firstn (List.length questions) responses)));
     ("interaction_completed", VBool true);
     ("timestamp", VStr (isoformat t))] in
  for_each (firstn (List.length questions) responses)
    StateManager.add_human_response ;;;
  ret interaction_data.

(** The [ability_handlers] tables of the two clients, for the handlers
    embedded above; the other abilities fall to [_default_handler]. *)
Definition source_handlers : HandlerTable :=
  fun server name =>
    match server with
    | COMMON =>
        lookup name
          [("parse_request_text", CommonMCPClient._handle_parse_request_text);
           ("store_answer", CommonMCPClient._handle_store_answer);
           ("store_data", CommonMCPClient._handle_store_data);
           ("solution_evaluation", CommonMCPClient._handle_solution_evaluation);
           ("update_payload", CommonMCPClient._handle_update_payload);
           ("output_payload", CommonMCPClient._handle_output_payload)]
    | ATLAS =>
        lookup name
          [("clarify_question", AtlasMCPClient._handle_clarify_question);
           ("extract_answer", AtlasMCPClient._handle_extract_answer);
           ("knowledge_base_search", AtlasMCPClient._handle_knowledge_base_search);
           ("escalation_decision", AtlasMCPClient._handle_escalation_decision);
           ("update_ticket", AtlasMCPClient._handle_update_ticket);
           ("close_ticket", AtlasMCPClient._handle_close_ticket);
           ("execute_api_calls", AtlasMCPClient._handle_execute_api_calls)]
    end.

(** A sequence of calls of mutation methods. *)
Definition run_mutations (ms : list Mutation) : M unit :=
  for_each ms run_mutation.

(** The value the last item of [m] with key [k] carries. *)
Definition last_binding (k : string) (m : dict) : option value :=
  dict_get k (rev m).

(** The score [_handle_solution_evaluation] gives the result of rank [i]
    (from 0) with title [title] for the query [query]. *)
Definition relevance_score (query : string) (i : Z) (title : string) : Z :=
  (60 + i * 5 + (if CommonMCPClient.any_word_in (lower query) (lower title)
                 then 20 else 0))%Z.

(** The titles of knowledge-base records, each read with [get("title", "")]. *)
Definition titles_of (records : list dict) (titles : list string) : Prop :=
  map (fun r => get_or "title" (VStr "") r) records = map VStr titles.

(** The scores of the results of ranks [i], [i + 1], ... with the titles
    [titles]. *)
Fixpoint scores_from (query : string) (i : Z) (titles : list string) : list Z :=
  match titles with
  | [] => []
  | title :: titles' =>
      relevance_score query i title :: scores_from query (i + 1) titles'
  end.

(** The third title, when there are three, shares a word with the query. *)
Definition third_title_matches (query : string) (titles : list string) : bool :=
  match titles with
  | [_; _; third] => CommonMCPClient.any_word_in (lower query) (lower third)
  | _ => false
  end.

(** The view of every attribute that no stage writes. *)
Definition untouched_view (s : AgentState) :=
  (input_fields s, actions_taken s, created_at s).

(** The calls of [update_stage] in a sequence of mutations. *)
Definition update_stage_calls (ms : list Mutation) : nat :=
  List.length
    (filter (fun m => match m with UpdateStage _ => true | _ => false end) ms).

(** [update_stage] called for each of [names], in order. *)
Definition update_stages (names : list string) : M unit :=
  for_each names StateManager.update_stage.

(** The event types of log entries. *)
Definition event_types (log : list dict) : list (option value) :=
  map (dict_get "event_type") log.

(** * Properties of the State Store *)

Lemma fold_left_max_ge (xs : list Z) (x : Z) :
  (x <= fold_left Z.max xs x)%Z /\
  Forall (fun y => (y <= fold_left Z.max xs x)%Z) xs.
Proof.
  revert x. induction xs as [|y ys IH]; intros x; simpl.
  - split; [lia | constructor].
  - destruct (IH (Z.max x y)) as [H1 H2]. split; [lia|].
    constructor; [lia | exact H2].
Qed.

Lemma fold_left_max_In (xs : list Z) (x : Z) :
  fold_left Z.max xs x = x \/ In (fold_left Z.max xs x) xs.
Proof.
  revert x. induction xs as [|y ys IH]; intros x; simpl.
  - now left.
  - destruct (IH (Z.max x y)) as [H | H].
    + rewrite H. destruct (Z.max_spec x y) as [[_ E] | [_ E]]; rewrite E; auto.
    + auto.
Qed.

Lemma max_or_0_maximum (xs : list Z) :
  maximum_or_0 (StateManager.max_or_0 xs) xs.
Proof.
  destruct xs as [|x xs]; simpl; [reflexivity|].
  destruct (fold_left_max_ge xs x) as [H1 H2].
  split.
  - destruct (fold_left_max_In xs x) as [H | H]; [left; now rewrite H | now right].
  - constructor; assumption.
Qed.


(** The world a State Store method is called in, taken apart. *)
Ltac open_world w :=
  let s := fresh "s" in
  let c := fresh "c" in
  destruct w as [s c]; destruct s.

(** Run the State Store methods of the goal on the opened world. *)
Ltac run_store := cbv -[isoformat get_or keys app dict_get str_len py_len].

(** C5. Each of the twelve mutation methods returns normally and leaves the
    event log one entry longer: the old log followed by one entry that
    carries the method's event type and the stage current after the call. *)
Theorem mutation_logs_exactly_one_event (m : Mutation) (w : World) :
  exists entry,
    result_of (run_mutation m) w = Ok tt /\
    processing_log (state_after (run_mutation m) w)
    = processing_log (state w) ++ [entry] /\
    dict_get "event_type" entry = Some (VStr (event_type_of m)) /\
    dict_get "stage" entry
    = Some (VStr (current_stage (state_after (run_mutation m) w))).
Proof.
  open_world w.
  destruct m; try (eexists; repeat split; reflexivity).
  destruct current_stage0; eexists; repeat split; reflexivity.
Qed.

(** C6. [export_final_payload] is a projection of the state: any number of
    calls in a row returns the same payload every time, and the world after
    them (state, event log and clock) is the world before. *)
Theorem export_pure_idempotent (n : nat) (w : World) :
  exists payload,
    StateManager.export_final_payload w = (Ok payload, w) /\
    call_n n StateManager.export_final_payload w = (Ok (repeat payload n), w).
Proof.
  assert (E : exists p, StateManager.export_final_payload w = (Ok p, w))
    by (eexists; reflexivity).
  destruct E as [p E]. exists p. split; [exact E|].
  induction n as [|n IH]; [reflexivity|].
  cbn [call_n repeat]. unfold bind. now rewrite E, IH.
Qed.

(** C9. A mutation method other than [initialize_state] leaves the five
    input fields as they were, and so does [log_event]; [initialize_state]
    is the method that sets them, from the input mapping. *)
Theorem input_fields_frame (m : Mutation) (w : World)
  (Hm : is_initialize m = false) :
  input_fields (state_after (run_mutation m) w) = input_fields (state w) /\
  (forall event_type details,
      input_fields (state_after (StateManager.log_event event_type details) w)
      = input_fields (state w)) /\
  (forall input_data,
      input_fields (state_after (StateManager.initialize_state input_data) w)
      = (get_or "customer_name" (VStr "") input_data,
         get_or "email" (VStr "") input_data,
         get_or "query" (VStr "") input_data,
         get_or "priority" (VStr "medium") input_data,
         get_or "ticket_id" (VStr "") input_data)).
Proof.
  open_world w. repeat split.
  destruct m; try discriminate Hm; try reflexivity.
  destruct current_stage0; reflexivity.
Qed.

Lemma input_fields_frame_witness :
  input_fields
    (state_after (run_mutation (SetEscalation true "low score"))
       (StateManager.init 0))
  = input_fields (state (StateManager.init 0)).
Proof.
  exact (proj1 (input_fields_frame (SetEscalation true "low score")
                  (StateManager.init 0) eq_refl)).
Defined.

(** C10. A second [initialize_state] on the same State Store returns
    normally; the input fields become those of the second input (absent keys
    at their defaults, the priority at "medium"), the event log of the first
    call gains one more STATE_INITIALIZED entry, and every other attribute
    keeps the value it had after the first call. *)
Theorem initialize_state_twice (first second : dict) (w : World) :
  let w1 := world_after (StateManager.initialize_state first) w in
  let w2 := world_after (StateManager.initialize_state second) w1 in
  exists entry1 entry2,
    result_of (StateManager.initialize_state second) w1 = Ok (state w2) /\
    input_fields (state w2)
    = (get_or "customer_name" (VStr "") second,
       get_or "email" (VStr "") second,
       get_or "query" (VStr "") second,
       get_or "priority" (VStr "medium") second,
       get_or "ticket_id" (VStr "") second) /\
    processing_log (state w1) = processing_log (state w) ++ [entry1] /\
    processing_log (state w2) = processing_log (state w1) ++ [entry2] /\
    dict_get "event_type" entry1 = Some (VStr "STATE_INITIALIZED") /\
    dict_get "event_type" entry2 = Some (VStr "STATE_INITIALIZED") /\
    dict_get "details" entry2 = Some (VDict [("input_keys", keys second)]) /\
    processing_fields (state w2) = processing_fields (state w1).
Proof.
  open_world w. run_store.
  do 2 eexists. repeat split; reflexivity.
Qed.

(** *** Merging into a mapping *)

Lemma replace_first_keys k v d : map fst (replace_first k v d) = map fst d.
Proof.
  induction d as [|[k' v'] d IH]; simpl; [reflexivity|].
  destruct (String.eqb k k'); simpl; [reflexivity | now rewrite IH].
Qed.

Lemma dict_set_present k v d : has_key k d -> dict_set k v d = replace_first k v d.
Proof.
  unfold has_key. induction d as [|[k' v'] d IH]; simpl; [tauto|].
  intros [E | H].
  - subst. now rewrite String.eqb_refl.
  - destruct (String.eqb k k'); [reflexivity | now rewrite IH].
Qed.

Lemma dict_set_absent k v d : ~ has_key k d -> dict_set k v d = d ++ [(k, v)].
Proof.
  unfold has_key. induction d as [|[k' v'] d IH]; simpl; [reflexivity|].
  intros H. destruct (String.eqb_spec k k') as [E | NE].
  - subst. tauto.
  - rewrite IH; [reflexivity | tauto].
Qed.

Lemma replace_first_app_l k v d e :
  has_key k d -> replace_first k v (d ++ e) = replace_first k v d ++ e.
Proof.
  unfold has_key. induction d as [|[k' v'] d IH]; simpl; [tauto|].
  intros [E | H].
  - subst. now rewrite String.eqb_refl.
  - destruct (String.eqb k k'); [reflexivity | now rewrite IH].
Qed.

Lemma replace_first_new k v d e :
  ~ has_key k d -> replace_first k v (d ++ (k, v) :: e) = d ++ (k, v) :: e.
Proof.
  unfold has_key. induction d as [|[k' v'] d IH]; simpl.
  - now rewrite String.eqb_refl.
  - intros H. destruct (String.eqb_spec k k') as [E | NE].
    + subst. tauto.
    + rewrite IH; [reflexivity | tauto].
Qed.

Lemma replace_first_twice k v v' d :
  replace_first k v (replace_first k v' d) = replace_first k v d.
Proof.
  induction d as [|[k1 v1] d IH]; simpl; [reflexivity|].
  destruct (String.eqb k k1) eqn:E; simpl; rewrite E; [reflexivity | now rewrite IH].
Qed.

Lemma replace_first_comm k v k' v' d :
  k <> k' ->
  replace_first k v (replace_first k' v' d)
  = replace_first k' v' (replace_first k v d).
Proof.
  intros NE. induction d as [|[k1 v1] d IH]; simpl; [reflexivity|].
  destruct (String.eqb_spec k' k1) as [E1 | N1];
    destruct (String.eqb_spec k k1) as [E2 | N2]; simpl.
  - congruence.
  - destruct (String.eqb_spec k k1); [congruence|].
    destruct (String.eqb_spec k' k1); [reflexivity | congruence].
  - destruct (String.eqb_spec k k1); [|congruence].
    destruct (String.eqb_spec k' k1); [congruence | reflexivity].
  - destruct (String.eqb_spec k k1); [congruence|].
    destruct (String.eqb_spec k' k1); [congruence|]. now rewrite IH.
Qed.

Lemma replace_all_keys m d : map fst (replace_all d m) = map fst d.
Proof.
  revert d. induction m as [|[k v] m IH]; intros d; simpl; [reflexivity|].
  unfold replace_all in *. simpl. now rewrite IH, replace_first_keys.
Qed.

Lemma replace_all_overwritten m k v d :
  has_key k m -> replace_all (replace_first k v d) m = replace_all d m.
Proof.
  unfold has_key, replace_all. revert d.
  induction m as [|[k1 v1] m IH]; intros d; simpl; [tauto|].
  intros [E | H].
  - subst. now rewrite replace_first_twice.
  - destruct (String.eqb_spec k1 k) as [E | NE].
    + subst. now rewrite replace_first_twice.
    + rewrite (replace_first_comm k1 v1 k v d NE). now apply IH.
Qed.

Lemma replace_all_comm m k v d :
  ~ has_key k m ->
  replace_first k v (replace_all d m) = replace_all (replace_first k v d) m.
Proof.
  unfold has_key, replace_all. revert d.
  induction m as [|[k1 v1] m IH]; intros d; simpl; [reflexivity|].
  intros H. rewrite IH by tauto.
  rewrite (replace_first_comm k v k1 v1 d); [reflexivity | intros E; subst; tauto].
Qed.

Lemma replace_all_idempotent m d :
  replace_all (replace_all d m) m = replace_all d m.
Proof.
  revert d. induction m as [|[k v] m IH]; intros d; [reflexivity|].
  change (replace_all (replace_first k v (replace_all (replace_first k v d) m)) m
          = replace_all (replace_first k v d) m).
  destruct (in_dec String.string_dec k (map fst m)) as [H | H].
  - rewrite replace_all_overwritten by exact H. apply IH.
  - rewrite replace_all_comm by exact H.
    rewrite replace_first_twice. apply IH.
Qed.

Lemma dict_update_present m d :
  (forall k, has_key k m -> has_key k d) -> dict_update d m = replace_all d m.
Proof.
  unfold dict_update, replace_all. revert d.
  induction m as [|[k v] m IH]; intros d H; simpl; [reflexivity|].
  assert (Hk : has_key k d) by (apply H; now left).
  rewrite (dict_set_present k v d Hk). apply IH.
  intros k' Hk'. unfold has_key. rewrite replace_first_keys.
  apply H. now right.
Qed.

(** A merge is a replacement in the mapping extended by the new keys. *)
Lemma dict_update_as_replace m d :
  exists new,
    dict_update d m = replace_all (d ++ new) m /\
    forall k, has_key k m -> has_key k (d ++ new).
Proof.
  revert d. induction m as [|[k v] m IH]; intros d.
  - exists []. rewrite app_nil_r. split; [reflexivity | intros k []].
  - change (dict_update d ((k, v) :: m)) with (dict_update (dict_set k v d) m).
    destruct (IH (dict_set k v d)) as (new & E & Hkeys).
    destruct (in_dec String.string_dec k (map fst d)) as [Hk | Hk].
    + rewrite (dict_set_present k v d Hk) in E, Hkeys |- *.
      exists new. split.
      * rewrite E. unfold replace_all. simpl.
        now rewrite (replace_first_app_l k v d new Hk).
      * intros k' [E' | H'].
        -- simpl in E'. subst. unfold has_key. rewrite map_app.
           apply in_or_app. now left.
        -- specialize (Hkeys k' H'). unfold has_key in *.
           rewrite map_app in *. now rewrite replace_first_keys in Hkeys.
    + rewrite (dict_set_absent k v d Hk) in E, Hkeys |- *.
      exists ((k, v) :: new). rewrite <- app_assoc in E, Hkeys. simpl in E, Hkeys.
      split.
      * rewrite E. unfold replace_all. simpl.
        now rewrite (replace_first_new k v d new Hk).
      * intros k' [E' | H'].
        -- simpl in E'. subst. unfold has_key. rewrite map_app.
           apply in_or_app. right. now left.
        -- now apply Hkeys.
Qed.

(** [d.update(m)] a second time changes nothing. *)
Lemma dict_update_idempotent (d m : dict) :
  dict_update (dict_update d m) m = dict_update d m.
Proof.
  destruct (dict_update_as_replace m d) as (new & E & Hkeys).
  rewrite dict_update_present.
  - rewrite E. apply replace_all_idempotent.
  - intros k Hk. rewrite E. unfold has_key. rewrite replace_all_keys.
    now apply Hkeys.
Qed.

(** A merge keeps the keys of a mapping distinct. *)
Lemma dict_set_NoDup k v d : NoDup (map fst d) -> NoDup (map fst (dict_set k v d)).
Proof.
  intros H. destruct (in_dec String.string_dec k (map fst d)) as [Hk | Hk].
  - now rewrite (dict_set_present k v d Hk), replace_first_keys.
  - rewrite (dict_set_absent k v d Hk), map_app. simpl.
    apply NoDup_app; [exact H | repeat constructor; simpl; tauto |].
    intros x Hx [E | []]. now subst.
Qed.

Lemma dict_update_NoDup m d :
  NoDup (map fst d) -> NoDup (map fst (dict_update d m)).
Proof.
  unfold dict_update. revert d.
  induction m as [|[k v] m IH]; intros d H; simpl; [exact H|].
  apply IH. now apply dict_set_NoDup.
Qed.

(** C7. Merging the same mapping twice into the entities, the normalized
    fields or the enriched data returns normally and leaves that mapping as
    the first merge left it. *)
Theorem merge_setters_idempotent (m : dict) (w : World) :
  (result_of (StateManager.update_entities m ;;; StateManager.update_entities m) w
   = Ok tt /\
   entities
     (state_after (StateManager.update_entities m ;;; StateManager.update_entities m) w)
   = entities (state_after (StateManager.update_entities m) w)) /\
  (result_of (StateManager.update_normalized_fields m ;;;
              StateManager.update_normalized_fields m) w
   = Ok tt /\
   normalized_fields
     (state_after (StateManager.update_normalized_fields m ;;;
                   StateManager.update_normalized_fields m) w)
   = normalized_fields (state_after (StateManager.update_normalized_fields m) w)) /\
  (result_of (StateManager.add_enriched_data m ;;; StateManager.add_enriched_data m) w
   = Ok tt /\
   enriched_data
     (state_after (StateManager.add_enriched_data m ;;; StateManager.add_enriched_data m) w)
   = enriched_data (state_after (StateManager.add_enriched_data m) w)).
Proof.
  open_world w.
  repeat split; try reflexivity;
    cbv -[isoformat get_or keys app dict_get dict_update];
    apply dict_update_idempotent.
Qed.

(** * Properties of the Stage Executor *)

(** ** Frame reasoning: a computation that leaves a view of the state alone *)

Section Preservation.

Context {B : Type} (f : AgentState -> B).

Lemma preserves_ret {A} (a : A) : preserves f (ret a).
Proof. intros w. reflexivity. Qed.

Lemma preserves_raise {A} (e : exn) : preserves f (@raise A e).
Proof. intros w. reflexivity. Qed.

Lemma preserves_lift_outcome {A} (o : outcome A) : preserves f (lift_outcome o).
Proof. intros w. reflexivity. Qed.

Lemma preserves_gets {A} (g : AgentState -> A) : preserves f (gets g).
Proof. intros w. reflexivity. Qed.

Lemma preserves_datetime_now : preserves f datetime_now.
Proof. intros w. reflexivity. Qed.

Lemma preserves_modify (g : AgentState -> AgentState) :
  (forall s, f (g s) = f s) -> preserves f (modify g).
Proof. intros H w. simpl. apply H. Qed.

Lemma preserves_bind {A C} (m : M A) (k : A -> M C) :
  preserves f m -> (forall a, preserves f (k a)) -> preserves f (bind m k).
Proof.
  intros Hm Hk w. unfold bind. specialize (Hm w).
  destruct (m w) as [[a | e] w']; simpl in *.
  - now rewrite Hk.
  - exact Hm.
Qed.

Lemma preserves_try_except_MCPClientError {A} (body : M A) handler :
  preserves f body -> (forall msg, preserves f (handler msg)) ->
  preserves f (try_except_MCPClientError body handler).
Proof.
  intros Hb Hh w. unfold try_except_MCPClientError. specialize (Hb w).
  destruct (body w) as [[a | e] w']; simpl in *; [exact Hb|].
  destruct e; simpl; try exact Hb. now rewrite Hh.
Qed.

Lemma preserves_try_except_Exception {A} (body : M A) handler :
  preserves f body -> (forall e, preserves f (handler e)) ->
  preserves f (try_except_Exception body handler).
Proof.
  intros Hb Hh w. unfold try_except_Exception. specialize (Hb w).
  destruct (body w) as [[a | e] w']; simpl in *; [exact Hb|].
  now rewrite Hh.
Qed.

Lemma preserves_try_finally {A} (body : M A) (cleanup : M unit) :
  preserves f body -> preserves f cleanup -> preserves f (try_finally body cleanup).
Proof.
  intros Hb Hc w. unfold try_finally. specialize (Hb w).
  destruct (body w) as [r w']. specialize (Hc w').
  destruct (cleanup w') as [[u | e] w'']; simpl in *; congruence.
Qed.

Lemma preserves_for_each {A} (xs : list A) (body : A -> M unit) :
  (forall x, preserves f (body x)) -> preserves f (for_each xs body).
Proof.
  intros H. induction xs as [|x xs IH]; simpl.
  - apply preserves_ret.
  - apply preserves_bind; [apply H | intros _; exact IH].
Qed.

Lemma preserves_execute_ability handlers c ability context :
  preserves f (MCPClient.execute_ability handlers c ability context).
Proof.
  unfold MCPClient.execute_ability.
  destruct (negb (connected c)); [apply preserves_raise|].
  destruct (negb _); [apply preserves_raise|].
  apply preserves_bind; [apply preserves_datetime_now|].
  intros t. destruct (handlers _ _); apply preserves_lift_outcome.
Qed.

Lemma preserves_export_final_payload :
  preserves f StateManager.export_final_payload.
Proof. intros w. reflexivity. Qed.

(** The State Store methods the loops of the executor call. *)
Hypothesis f_log : ignores f with_processing_log.

Lemma preserves_log_event event_type details :
  preserves f (StateManager.log_event event_type details).
Proof. intros w. simpl. apply f_log. Qed.

Hypothesis f_entities : ignores f with_entities.
Hypothesis f_normalized_fields : ignores f with_normalized_fields.
Hypothesis f_enriched_data : ignores f with_enriched_data.
Hypothesis f_kb_results : ignores f with_kb_results.
Hypothesis f_generated_response : ignores f with_generated_response.
Hypothesis f_human_responses : ignores f with_human_responses.
Hypothesis f_clarification_questions : ignores f with_clarification_questions.

Ltac setter_frame :=
  intros w; simpl;
  repeat first [rewrite f_log | rewrite f_entities | rewrite f_normalized_fields
               | rewrite f_enriched_data | rewrite f_kb_results
               | rewrite f_generated_response | rewrite f_human_responses
               | rewrite f_clarification_questions];
  reflexivity.

Lemma preserves_update_entities d : preserves f (StateManager.update_entities d).
Proof. setter_frame. Qed.

Lemma preserves_update_normalized_fields d :
  preserves f (StateManager.update_normalized_fields d).
Proof. setter_frame. Qed.

Lemma preserves_add_enriched_data d :
  preserves f (StateManager.add_enriched_data d).
Proof. setter_frame. Qed.

Lemma preserves_add_kb_result d : preserves f (StateManager.add_kb_result d).
Proof. setter_frame. Qed.

Lemma preserves_set_generated_response r :
  preserves f (StateManager.set_generated_response r).
Proof. setter_frame. Qed.

Lemma preserves_add_human_response r :
  preserves f (StateManager.add_human_response r).
Proof. setter_frame. Qed.

Lemma preserves_add_clarification_question q :
  preserves f (StateManager.add_clarification_question q).
Proof. setter_frame. Qed.

End Preservation.

Create HintDb frame.

#[export] Hint Resolve
  preserves_ret preserves_raise preserves_lift_outcome preserves_gets
  preserves_datetime_now preserves_execute_ability
  preserves_export_final_payload preserves_log_event
  preserves_update_entities preserves_update_normalized_fields
  preserves_add_enriched_data preserves_add_kb_result
  preserves_set_generated_response preserves_add_human_response
  preserves_add_clarification_question : frame.

(** Take a computation apart along its control structure; the leaves are
    closed from the hint database. *)
Ltac frame :=
  repeat first
    [ progress intros
    | progress cbv zeta
    | solve [eauto with frame]
    | apply preserves_bind
    | apply preserves_try_except_MCPClientError
    | apply preserves_try_except_Exception
    | apply preserves_try_finally
    | apply preserves_for_each
    | match goal with
      | |- preserves _ (if ?b then _ else _) => destruct b
      | |- preserves _ (match ?x with _ => _ end) => destruct x
      end ].

Section StageFrame.

Context {B : Type} (f : AgentState -> B) (handlers : HandlerTable).

Hypothesis f_log : ignores f with_processing_log.
Hypothesis f_entities : ignores f with_entities.
Hypothesis f_normalized_fields : ignores f with_normalized_fields.
Hypothesis f_enriched_data : ignores f with_enriched_data.
Hypothesis f_kb_results : ignores f with_kb_results.
Hypothesis f_generated_response : ignores f with_generated_response.
Hypothesis f_human_responses : ignores f with_human_responses.
Hypothesis f_clarification_questions : ignores f with_clarification_questions.

Lemma preserves_update_state_from_result ability result context :
  preserves f (_update_state_from_result ability result context).
Proof. unfold _update_state_from_result. frame. Qed.

Lemma preserves_get_current_state : preserves f StateManager.get_current_state.
Proof. intros w. reflexivity. Qed.

Hint Resolve preserves_update_state_from_result preserves_get_current_state
  : frame.

Lemma preserves_payload_loop self abilities context results :
  preserves f (payload_loop handlers self abilities context results).
Proof.
  revert results. induction abilities as [|a rest IH]; intros results; simpl.
  - frame.
  - apply preserves_bind; [frame | intros; apply IH].
Qed.

Lemma preserves_deterministic_loop self abilities context results :
  preserves f (deterministic_loop handlers self abilities context results).
Proof.
  revert context results.
  induction abilities as [|a rest IH]; intros context results; simpl.
  - frame.
  - apply preserves_bind; [frame | intros; apply IH].
Qed.

Lemma preserves_human_loop self abilities context results :
  preserves f (human_loop handlers self abilities context results).
Proof.
  revert results. induction abilities as [|a rest IH]; intros results; simpl.
  - frame.
  - apply preserves_bind; [frame | intros; apply IH].
Qed.

Hint Resolve preserves_payload_loop preserves_deterministic_loop
  preserves_human_loop : frame.

Lemma preserves_execute_payload_stage self stage_config :
  preserves f (_execute_payload_stage handlers self stage_config).
Proof. unfold _execute_payload_stage. frame. Qed.

Lemma preserves_execute_deterministic_stage self stage_config :
  preserves f (_execute_deterministic_stage handlers self stage_config).
Proof. unfold _execute_deterministic_stage. frame. Qed.

Lemma preserves_execute_human_stage self stage_config :
  preserves f (_execute_human_stage handlers self stage_config).
Proof. unfold _execute_human_stage. frame. Qed.

(** The DECIDE choreography writes the solutions and the escalation. *)
Hypothesis f_solutions : ignores f with_solutions.
Hypothesis f_solution_scores : ignores f with_solution_scores.
Hypothesis f_escalation_required : ignores f with_escalation_required.
Hypothesis f_escalation_reason : ignores f with_escalation_reason.

Lemma preserves_add_solution d score :
  preserves f (StateManager.add_solution d score).
Proof.
  intros w. simpl. now rewrite f_log, f_solution_scores, f_solutions.
Qed.

Lemma preserves_set_escalation required reason :
  preserves f (StateManager.set_escalation required reason).
Proof.
  intros w. simpl. now rewrite f_log, f_escalation_reason, f_escalation_required.
Qed.

Hint Resolve preserves_add_solution preserves_set_escalation : frame.

Lemma preserves_execute_non_deterministic_stage self stage_config :
  preserves f (_execute_non_deterministic_stage handlers self stage_config).
Proof.
  unfold _execute_non_deterministic_stage, evaluate_solutions,
    decide_escalation, record_decision.
  frame.
Qed.

End StageFrame.

(** * Properties of the Workflow Engine *)

Lemma bind_Ok {A C} (m : M A) (k : A -> M C) w a w' :
  m w = (Ok a, w') -> bind m k w = k a w'.
Proof. intros E. unfold bind. now rewrite E. Qed.

Lemma bind_Raise {A C} (m : M A) (k : A -> M C) w e w' :
  m w = (Raise e, w') -> bind m k w = (Raise e, w').
Proof. intros E. unfold bind. now rewrite E. Qed.

Lemma update_stage_view name w :
  StateManager.str_truthy (current_stage (state w)) = true ->
  stage_view (state_after (StateManager.update_stage name) w)
  = (stage_history (state w) ++ [current_stage (state w)], name).
Proof.
  open_world w. simpl. intros H.
  destruct current_stage0; [discriminate H | reflexivity].
Qed.

Section Engine.

Variable handlers : HandlerTable.

Lemma execute_stage_view self name stage_config w :
  find (fun s => String.eqb (stage_name s) name) STAGES = Some stage_config ->
  stage_view (state_after (execute_stage handlers self name) w)
  = stage_view (state_after (StateManager.update_stage name) w).
Proof.
  intros Hfind. unfold state_after, world_after, execute_stage. rewrite Hfind.
  unfold bind at 1.
  destruct (StateManager.update_stage name w) as [[[] | e] w1] eqn:E;
    [|reflexivity].
  cbn [snd].
  destruct (stage_mode stage_config).
  - apply preserves_execute_deterministic_stage; intros v s; reflexivity.
  - apply preserves_execute_non_deterministic_stage; intros v s; reflexivity.
  - apply preserves_execute_human_stage; intros v s; reflexivity.
  - apply preserves_execute_payload_stage; intros v s; reflexivity.
Qed.

Lemma stage_node_view name stage_config w :
  find (fun s => String.eqb (stage_name s) name) STAGES = Some stage_config ->
  StateManager.str_truthy (current_stage (state w)) = true ->
  stage_view (state_after (stage_node handlers name) w)
  = (stage_history (state w) ++ [current_stage (state w)], name).
Proof.
  intros Hfind Hcur. rewrite <- (update_stage_view name w Hcur).
  rewrite <- (execute_stage_view (fst (setup_clients StageExecutor_init))
                name stage_config w Hfind).
  unfold state_after, world_after, stage_node, try_finally.
  destruct (execute_stage _ _ _ w) as [r w']. reflexivity.
Qed.

(** A wrapped node never raises: it returns a graph state, and the world is
    the one the node function leaves. *)
Lemma wrap_node_returns (node_func : M dict) (st : dict) (w : World) :
  exists st', _wrap_node node_func st w = (Ok st', world_after node_func w).
Proof.
  unfold _wrap_node, try_except_Exception, bind, world_after.
  destruct (node_func w) as [[r | e] w']; eexists; reflexivity.
Qed.

Lemma run_graph_step g limit node st w node_func target st' w' w'' :
  String.eqb node END = false ->
  lookup node (nodes g) = Some node_func ->
  node_func st w = (Ok st', w') ->
  next_node g node st' w' = (Ok target, w'') ->
  run_graph g (S limit) node st w = run_graph g limit target st' w''.
Proof.
  intros HE HL HN HT. simpl. rewrite HE, HL.
  rewrite (bind_Ok _ _ _ _ _ HN). now rewrite (bind_Ok _ _ _ _ _ HT).
Qed.

Lemma next_node_graph node st w :
  In node ["intake"; "understand"; "prepare"; "ask"; "wait"; "retrieve";
           "decide"; "update"; "create"; "do"; "complete"] ->
  exists target,
    next_node (graph handlers) node st w = (Ok target, w) /\
    lookup node
      [("intake", "understand"); ("understand", "prepare"); ("prepare", "ask");
       ("ask", "wait"); ("wait", "retrieve"); ("retrieve", "decide");
       ("decide", "update"); ("update", "create"); ("create", "do");
       ("do", "complete"); ("complete", END)] = Some target.
Proof.
  intros H. simpl in H.
  repeat (destruct H as [<- | H]; [eexists; split; [|reflexivity] |]);
    try contradiction; try reflexivity.
  unfold next_node. simpl. unfold _should_escalate, bind.
  simpl. destruct (escalation_required (state w)); reflexivity.
Qed.

End Engine.

Section EngineRun.

Variable handlers : HandlerTable.

Lemma graph_step node name target limit st w :
  lookup node (nodes (graph handlers))
  = Some (_wrap_node (stage_node handlers name)) ->
  lookup node
    [("intake", "understand"); ("understand", "prepare"); ("prepare", "ask");
     ("ask", "wait"); ("wait", "retrieve"); ("retrieve", "decide");
     ("decide", "update"); ("update", "create"); ("create", "do");
     ("do", "complete"); ("complete", END)] = Some target ->
  In node ["intake"; "understand"; "prepare"; "ask"; "wait"; "retrieve";
           "decide"; "update"; "create"; "do"; "complete"] ->
  exists st',
    run_graph (graph handlers) (S limit) node st w
    = run_graph (graph handlers) limit target st'
        (world_after (stage_node handlers name) w).
Proof.
  intros Hnode Htarget Hin.
  destruct (wrap_node_returns (stage_node handlers name) st w) as [st' E].
  destruct (next_node_graph handlers node st'
              (world_after (stage_node handlers name) w) Hin)
    as (target' & Hnext & Htarget').
  assert (target' = target) by congruence. subst target'.
  exists st'. eapply run_graph_step; eauto.
  simpl in Hin.
  repeat (destruct Hin as [<- | Hin]; [reflexivity|]). contradiction.
Qed.

Ltac graph_next node name target :=
  match goal with
  | |- exists st', run_graph _ (S ?limit) _ ?st ?w = _ =>
      let st1 := fresh "st" in
      let E := fresh "E" in
      destruct (graph_step node name target limit st w eq_refl eq_refl) as [st1 E];
      [simpl; tauto | rewrite E; clear E]
  end.

(** The graph runs the eleven nodes in the stage order and ends. *)
Lemma ainvoke_graph st w :
  exists st',
    ainvoke (graph handlers) st w = (Ok st', after_nodes handlers stage_order w).
Proof.
  unfold ainvoke, recursion_limit, after_nodes, stage_order.
  cbn [entry_point graph fold_left].
  graph_next "intake" "INTAKE" "understand".
  graph_next "understand" "UNDERSTAND" "prepare".
  graph_next "prepare" "PREPARE" "ask".
  graph_next "ask" "ASK" "wait".
  graph_next "wait" "WAIT" "retrieve".
  graph_next "retrieve" "RETRIEVE" "decide".
  graph_next "decide" "DECIDE" "update".
  graph_next "update" "UPDATE" "create".
  graph_next "create" "CREATE" "do".
  graph_next "do" "DO" "complete".
  graph_next "complete" "COMPLETE" END.
  eexists. reflexivity.
Qed.

Lemma after_nodes_stage_view names w :
  Forall (fun name =>
            exists stage_config,
              find (fun s => String.eqb (stage_name s) name) STAGES
              = Some stage_config /\ StateManager.str_truthy name = true) names ->
  StateManager.str_truthy (current_stage (state w)) = true ->
  stage_history (state (after_nodes handlers names w))
  ++ [current_stage (state (after_nodes handlers names w))]
  = stage_history (state w) ++ [current_stage (state w)] ++ names.
Proof.
  intros H. revert w. induction H as [|name names (cfg & Hfind & Hname) _ IH];
    intros w Hcur.
  - simpl. reflexivity.
  - cbn [after_nodes fold_left].
    pose proof (stage_node_view handlers name cfg w Hfind Hcur) as V.
    unfold stage_view, state_after in V. injection V as Vh Vc.
    unfold after_nodes in IH. rewrite IH by (now rewrite Vc).
    rewrite Vh, Vc. now rewrite <- app_assoc.
Qed.

End EngineRun.

Lemma dict_get_set_same k v d : dict_get k (dict_set k v d) = Some v.
Proof.
  induction d as [|[k' v'] d IH]; simpl.
  - now rewrite String.eqb_refl.
  - destruct (String.eqb k k') eqn:E; simpl; rewrite E; [reflexivity | exact IH].
Qed.

Lemma datetime_now_tick w : datetime_now w = (Ok (clock w), tick w).
Proof. reflexivity. Qed.

Lemma initialize_state_returns input_data w :
  exists s,
    StateManager.initialize_state input_data w
    = (Ok s, world_after (StateManager.initialize_state input_data) w).
Proof.
  unfold world_after. open_world w. run_store. eexists. reflexivity.
Qed.

(** [process_request] returns the graph state with the exported payload
    under "final_payload"; the world is the one the eleven nodes leave. *)
Lemma process_request_returns handlers input_data w :
  let w1 := tick (tick (world_after (StateManager.initialize_state input_data) w)) in
  let w2 := after_nodes handlers stage_order w1 in
  exists st' payload,
    StateManager.export_final_payload w2 = (Ok payload, w2) /\
    process_request handlers input_data w
    = (Ok (dict_set "final_payload" (VDict payload) st'), w2).
Proof.
  intros w1 w2.
  destruct (initialize_state_returns input_data w) as [s Ei].
  unfold process_request, try_except_Exception.
  rewrite (bind_Ok _ _ _ _ _ Ei).
  rewrite (bind_Ok _ _ _ _ _ (datetime_now_tick _)).
  rewrite (bind_Ok _ _ _ _ _ (datetime_now_tick _)).
  fold w1.
  match goal with
  | |- context [ainvoke (graph handlers) ?st] =>
      destruct (ainvoke_graph handlers st w1) as [st' Eg]
  end.
  rewrite (bind_Ok _ _ _ _ _ Eg). fold w2.
  assert (Ep : exists p, StateManager.export_final_payload w2 = (Ok p, w2)) by (eexists; reflexivity).
  destruct Ep as [p Ep].
  rewrite (bind_Ok _ _ _ _ _ Ep).
  exists st', p. split; [exact Ep | reflexivity].
Qed.

Lemma initialize_state_stage_view input_data w :
  stage_view (state_after (StateManager.initialize_state input_data) w)
  = stage_view (state w).
Proof. open_world w. reflexivity. Qed.

Lemma export_stages_completed w payload w' :
  StateManager.export_final_payload w = (Ok payload, w') ->
  path_get ["processing"; "stages_completed"] (VDict payload)
  = Some (VList (map VStr (stage_history (state w) ++ [current_stage (state w)]))).
Proof. intros E. injection E as <- _. reflexivity. Qed.

(** C1. On a new agent, whatever the input and whatever the handlers do, the
    run returns a final payload whose [stages_completed] has twelve entries:
    the eleven stages in order, after a first "INTAKE" that [update_stage]
    pushes when INTAKE starts, because a new [AgentState] already has
    "INTAKE" as its current stage. *)
Theorem process_request_stages_completed
  (handlers : HandlerTable) (input_data : dict) (t : Time) :
  exists final_state,
    result_of (process_request handlers input_data) (LangieAgent_init t)
    = Ok final_state /\
    path_get ["final_payload"; "processing"; "stages_completed"]
      (VDict final_state)
    = Some (VList (map VStr ("INTAKE" :: stage_order))).
Proof.
  destruct (process_request_returns handlers input_data (LangieAgent_init t))
    as (st' & payload & Ep & Er).
  eexists. unfold result_of. rewrite Er. split; [reflexivity|].
  cbn [path_get fst]. rewrite dict_get_set_same.
  apply export_stages_completed in Ep. cbn [path_get] in Ep. rewrite Ep.
  match goal with
  | |- context [after_nodes handlers stage_order ?w] => set (w1 := w)
  end.
  pose proof (initialize_state_stage_view input_data (LangieAgent_init t)) as V.
  assert (V1 : stage_view (state w1) = ([], "INTAKE")).
  { transitivity (stage_view (state_after (StateManager.initialize_state input_data)
                                (LangieAgent_init t))); [reflexivity|].
    rewrite V. reflexivity. }
  clearbody w1. injection V1 as Vh Vc.
  rewrite (after_nodes_stage_view handlers stage_order w1).
  - now rewrite Vh, Vc.
  - repeat constructor; eexists; split; reflexivity.
  - now rewrite Vc.
Qed.

(** The first test scenario of [test_cases.py], which expects 11 stages. *)
Example stages_completed_order_inquiry :
  obind
    (result_of
       (process_request embedded_handlers
          [("customer_name", VStr "John Smith");
           ("email", VStr "john.smith@email.com");
           ("query", VStr "Where is my order? Order number: ORD123456");
           ("priority", VStr "low");
           ("ticket_id", VStr "SC-ORDER-001")])
       (LangieAgent_init 0))
    (fun st =>
       Ok (path_get ["final_payload"; "processing"; "stages_completed"] (VDict st)))
  = Ok (Some (VList [VStr "INTAKE"; VStr "INTAKE"; VStr "UNDERSTAND";
                     VStr "PREPARE"; VStr "ASK"; VStr "WAIT"; VStr "RETRIEVE";
                     VStr "DECIDE"; VStr "UPDATE"; VStr "CREATE"; VStr "DO";
                     VStr "COMPLETE"])).
Proof. vm_compute. reflexivity. Qed.

(** * Failures of ability calls *)

Lemma guards_ensures {A} (m : M A) P : guards m P -> ensures m P.
Proof.
  intros H w. specialize (H w). destruct (fst (m w)) as [a | e]; [exact H | exact I].
Qed.

Lemma ensures_True {A} (m : M A) : ensures m (fun _ => True).
Proof. intros w. now destruct (fst (m w)). Qed.

Lemma guards_ret {A} (a : A) (P : A -> Prop) : P a -> guards (ret a) P.
Proof. intros H w. exact H. Qed.

Lemma guards_lift_outcome {A} (o : outcome A) :
  no_MCPClientError o -> guards (lift_outcome o) (fun _ => True).
Proof. intros H w. simpl. destruct o as [a | []]; simpl in *; auto. Qed.

Lemma guards_weaken {A} (m : M A) (P Q : A -> Prop) :
  guards m P -> (forall a, P a -> Q a) -> guards m Q.
Proof.
  intros H HPQ w. specialize (H w).
  destruct (fst (m w)) as [a | e]; [now apply HPQ | exact H].
Qed.

Lemma guards_bind {A C} (m : M A) (k : A -> M C) Q P :
  guards m Q -> (forall a, Q a -> guards (k a) P) -> guards (bind m k) P.
Proof.
  intros Hm Hk w. unfold bind. specialize (Hm w).
  destruct (m w) as [[a | e] w']; simpl in *.
  - exact (Hk a Hm w').
  - exact Hm.
Qed.

Lemma ensures_bind {A C} (m : M A) (k : A -> M C) Q P :
  ensures m Q -> (forall a, Q a -> ensures (k a) P) -> ensures (bind m k) P.
Proof.
  intros Hm Hk w. unfold bind. specialize (Hm w).
  destruct (m w) as [[a | e] w']; simpl in *.
  - exact (Hk a Hm w').
  - exact I.
Qed.

(** The handler of a [try] makes up for the [MCPClientError] of the body. *)
Lemma guards_try {A} (body : M A) handler P :
  ensures body P -> (forall msg, guards (handler msg) P) ->
  guards (try_except_MCPClientError body handler) P.
Proof.
  intros Hb Hh w. unfold try_except_MCPClientError. specialize (Hb w).
  destruct (body w) as [[a | e] w']; simpl in *; [exact Hb|].
  destruct e; simpl; auto. apply Hh.
Qed.

(** A [try] around a body that raises no [MCPClientError] is the body. *)
Lemma guards_try_body {A} (body : M A) handler P :
  guards body P -> guards (try_except_MCPClientError body handler) P.
Proof.
  intros Hb w. unfold try_except_MCPClientError. specialize (Hb w).
  destruct (body w) as [[a | e] w']; simpl in *; [exact Hb|].
  destruct e; simpl; auto. contradiction.
Qed.

Lemma guards_for_each {A} (xs : list A) (body : A -> M unit) :
  (forall x, guards (body x) (fun _ => True)) ->
  guards (for_each xs body) (fun _ => True).
Proof.
  intros H. induction xs as [|x xs IH]; simpl.
  - now apply guards_ret.
  - eapply guards_bind; [apply H | intros _ _; exact IH].
Qed.

(** The State Store methods return. *)
Lemma guards_mutation (m : Mutation) : guards (run_mutation m) (fun _ => True).
Proof.
  intros w. open_world w.
  destruct m; try exact I. simpl. now destruct current_stage0.
Qed.

Lemma guards_get_current_state :
  guards StateManager.get_current_state (fun _ => True).
Proof. intros w. exact I. Qed.

Lemma guards_export_final_payload :
  guards StateManager.export_final_payload (fun _ => True).
Proof. intros w. exact I. Qed.

Lemma as_dict_no_MCPClientError v : no_MCPClientError (as_dict v).
Proof. now destruct v. Qed.

Lemma as_str_no_MCPClientError v : no_MCPClientError (as_str v).
Proof. now destruct v. Qed.

Lemma iterate_no_MCPClientError v : no_MCPClientError (iterate v).
Proof. now destruct v. Qed.

Create HintDb guard.

#[export] Hint Resolve guards_get_current_state guards_export_final_payload
  as_dict_no_MCPClientError as_str_no_MCPClientError iterate_no_MCPClientError
  guards_lift_outcome : guard.

#[export] Hint Extern 1 (guards (StateManager.update_entities ?d) _) =>
  exact (guards_mutation (UpdateEntities d)) : guard.
#[export] Hint Extern 1 (guards (StateManager.update_normalized_fields ?d) _) =>
  exact (guards_mutation (UpdateNormalizedFields d)) : guard.
#[export] Hint Extern 1 (guards (StateManager.add_enriched_data ?d) _) =>
  exact (guards_mutation (AddEnrichedData d)) : guard.
#[export] Hint Extern 1 (guards (StateManager.add_kb_result ?d) _) =>
  exact (guards_mutation (AddKbResult d)) : guard.
#[export] Hint Extern 1 (guards (StateManager.set_generated_response ?r) _) =>
  exact (guards_mutation (SetGeneratedResponse r)) : guard.
#[export] Hint Extern 1 (guards (StateManager.add_human_response ?r) _) =>
  exact (guards_mutation (AddHumanResponse r)) : guard.
#[export] Hint Extern 1 (guards (StateManager.add_clarification_question ?q) _) =>
  exact (guards_mutation (AddClarificationQuestion q)) : guard.

(** A computation built from calls that raise no [MCPClientError]. *)
Ltac guard_unit :=
  repeat first
    [ progress intros
    | progress cbv zeta
    | solve [eauto with guard]
    | apply guards_for_each
    | eapply guards_bind with (Q := fun _ => True)
    | apply guards_ret; exact I
    | match goal with
      | |- guards (if ?b then _ else _) _ => destruct b
      end ].

Lemma guards_update_state_from_result ability result context :
  guards (_update_state_from_result ability result context) (fun _ => True).
Proof. unfold _update_state_from_result. guard_unit. Qed.

Section LoopFailures.

Variable handlers : HandlerTable.

(** An ability call that raises [MCPClientError]: the three loops append
    the error entry and go on with the next ability. *)
Lemma payload_loop_catches self a rest context results w msg w' :
  MCPClient.execute_ability handlers (get_client self (ability_server a)) a context w
  = (Raise (MCPClientError msg), w') ->
  payload_loop handlers self (a :: rest) context results w
  = payload_loop handlers self rest context (results ++ [error_result msg a]) w'.
Proof.
  intros E. cbn [payload_loop]. unfold bind at 1.
  unfold try_except_MCPClientError at 1.
  rewrite (bind_Raise _ _ _ _ _ E). reflexivity.
Qed.

Lemma deterministic_loop_catches self a rest context results w msg w' :
  MCPClient.execute_ability handlers (get_client self (ability_server a)) a context w
  = (Raise (MCPClientError msg), w') ->
  deterministic_loop handlers self (a :: rest) context results w
  = deterministic_loop handlers self rest context
      (results ++ [error_result msg a]) w'.
Proof.
  intros E. cbn [deterministic_loop]. unfold bind at 1.
  unfold try_except_MCPClientError at 1.
  rewrite (bind_Raise _ _ _ _ _ E). reflexivity.
Qed.

Lemma human_loop_catches self a rest context results w msg w' :
  MCPClient.execute_ability handlers (get_client self (ability_server a)) a context w
  = (Raise (MCPClientError msg), w') ->
  human_loop handlers self (a :: rest) context results w
  = human_loop handlers self rest context (results ++ [error_result msg a]) w'.
Proof.
  intros E. cbn [human_loop]. unfold bind at 1.
  unfold try_except_MCPClientError at 1.
  rewrite (bind_Raise _ _ _ _ _ E). reflexivity.
Qed.

(** An ability call that raises another exception: the loops let it
    through. *)
Lemma payload_loop_propagates self a rest context results w e w' :
  no_MCPClientError (@Raise dict e) ->
  MCPClient.execute_ability handlers (get_client self (ability_server a)) a context w
  = (Raise e, w') ->
  payload_loop handlers self (a :: rest) context results w = (Raise e, w').
Proof.
  intros He E. cbn [payload_loop]. unfold bind at 1.
  unfold try_except_MCPClientError at 1.
  rewrite (bind_Raise _ _ _ _ _ E). destruct e; try reflexivity. contradiction.
Qed.

Lemma deterministic_loop_propagates self a rest context results w e w' :
  no_MCPClientError (@Raise dict e) ->
  MCPClient.execute_ability handlers (get_client self (ability_server a)) a context w
  = (Raise e, w') ->
  deterministic_loop handlers self (a :: rest) context results w = (Raise e, w').
Proof.
  intros He E. cbn [deterministic_loop]. unfold bind at 1.
  unfold try_except_MCPClientError at 1.
  rewrite (bind_Raise _ _ _ _ _ E). destruct e; try reflexivity. contradiction.
Qed.

Lemma human_loop_propagates self a rest context results w e w' :
  no_MCPClientError (@Raise dict e) ->
  MCPClient.execute_ability handlers (get_client self (ability_server a)) a context w
  = (Raise e, w') ->
  human_loop handlers self (a :: rest) context results w = (Raise e, w').
Proof.
  intros He E. cbn [human_loop]. unfold bind at 1.
  unfold try_except_MCPClientError at 1.
  rewrite (bind_Raise _ _ _ _ _ E). destruct e; try reflexivity. contradiction.
Qed.

(** The three loops raise no [MCPClientError], and return one result for
    each ability. *)
Lemma guards_payload_loop self abilities context results :
  guards (payload_loop handlers self abilities context results)
    (fun rs => List.length rs = (List.length results + List.length abilities)%nat).
Proof.
  revert results. induction abilities as [|a rest IH]; intros results; simpl.
  - apply guards_ret. lia.
  - eapply guards_bind
      with (Q := fun rs => List.length rs = S (List.length results)).
    + apply guards_try.
      * eapply ensures_bind; [apply ensures_True|]. intros result _.
        apply guards_ensures.
        destruct (String.eqb _ "accept_payload");
          [apply guards_ret; rewrite length_app; simpl; lia|].
        destruct (String.eqb _ "output_payload");
          [|apply guards_ret; rewrite length_app; simpl; lia].
        apply guards_try_body.
        eapply guards_bind; [apply guards_export_final_payload|].
        intros p _. apply guards_ret. rewrite length_app. simpl. lia.
      * intros msg. apply guards_ret. rewrite length_app. simpl. lia.
    + intros rs Hrs. eapply guards_weaken; [apply IH|].
      intros rs' H. simpl in H. lia.
Qed.

Lemma guards_deterministic_loop self abilities context results :
  guards (deterministic_loop handlers self abilities context results)
    (fun rs => List.length rs = (List.length results + List.length abilities)%nat).
Proof.
  revert context results.
  induction abilities as [|a rest IH]; intros context results; simpl.
  - apply guards_ret. lia.
  - eapply guards_bind
      with (Q := fun next => List.length (snd next) = S (List.length results)).
    + apply guards_try.
      * eapply ensures_bind; [apply ensures_True|]. intros result _.
        apply guards_ensures, guards_try_body.
        eapply guards_bind; [apply guards_update_state_from_result|].
        intros _ _.
        eapply guards_bind; [apply guards_get_current_state|].
        intros s _. apply guards_ret. simpl. rewrite length_app. simpl. lia.
      * intros msg. apply guards_ret. simpl. rewrite length_app. simpl. lia.
    + intros next Hnext. eapply guards_weaken; [apply IH|].
      intros rs' H. simpl in H. lia.
Qed.

Lemma guards_human_loop self abilities context results :
  guards (human_loop handlers self abilities context results)
    (fun rs => List.length rs = (List.length results + List.length abilities)%nat).
Proof.
  revert results. induction abilities as [|a rest IH]; intros results; simpl.
  - apply guards_ret. lia.
  - eapply guards_bind
      with (Q := fun rs => List.length rs = S (List.length results)).
    + apply guards_try.
      * eapply ensures_bind; [apply ensures_True|]. intros result _.
        apply guards_ensures, guards_try_body.
        eapply guards_bind with (Q := fun _ => True).
        -- guard_unit.
        -- intros _ _. apply guards_ret. rewrite length_app. simpl. lia.
      * intros msg. apply guards_ret. rewrite length_app. simpl. lia.
    + intros rs Hrs. eapply guards_weaken; [apply IH|].
      intros rs' H. simpl in H. lia.
Qed.

End LoopFailures.

(** C8. A call of [execute_ability] on a client that is not connected, or
    for an ability of the other backend group, raises [MCPClientError] with
    the message of the failed precondition, whatever the handler table
    holds, and leaves the world as it was; in the loop of a payload-only, a
    deterministic or a human stage the failure becomes the error entry of
    that ability and the loop goes on with the abilities that remain. *)
Theorem execute_ability_preconditions
  (handlers : HandlerTable) (c : MCPClient) (a : Ability) (context : dict)
  (w : World) (H : precondition_fails c a) :
  MCPClient.execute_ability handlers c a context w
  = (Raise (MCPClientError (precondition_message c a)), w) /\
  forall self rest results,
    get_client self (ability_server a) = c ->
    payload_loop handlers self (a :: rest) context results w
    = payload_loop handlers self rest context
        (results ++ [error_result (precondition_message c a) a]) w /\
    deterministic_loop handlers self (a :: rest) context results w
    = deterministic_loop handlers self rest context
        (results ++ [error_result (precondition_message c a) a]) w /\
    human_loop handlers self (a :: rest) context results w
    = human_loop handlers self rest context
        (results ++ [error_result (precondition_message c a) a]) w.
Proof.
  assert (E : MCPClient.execute_ability handlers c a context w
              = (Raise (MCPClientError (precondition_message c a)), w)).
  { unfold MCPClient.execute_ability, precondition_message.
    destruct H as [H | H].
    - rewrite H. reflexivity.
    - destruct (connected c); [|reflexivity]. simpl.
      destruct (ability_server a), (server_type c); simpl; try reflexivity;
        now contradiction H. }
  split; [exact E|].
  intros self rest results Hc. subst c.
  repeat split.
  - now apply payload_loop_catches.
  - now apply deterministic_loop_catches.
  - now apply human_loop_catches.
Qed.

(** A new executor has not connected its clients: the first ability of
    UNDERSTAND fails on the precondition. *)
Lemma execute_ability_preconditions_witness :
  MCPClient.execute_ability embedded_handlers (MCPClient.init COMMON)
    (mkAbility "parse_request_text" COMMON
       "Convert unstructured request to structured data")
    [] (StateManager.init 0)
  = (Raise (MCPClientError "Not connected to common server"), StateManager.init 0).
Proof.
  exact (proj1 (execute_ability_preconditions embedded_handlers
                  (MCPClient.init COMMON)
                  (mkAbility "parse_request_text" COMMON
                     "Convert unstructured request to structured data")
                  [] (StateManager.init 0) (or_introl eq_refl))).
Defined.



(** An executor that never connected its clients: UNDERSTAND completes with
    the two error entries. *)
Example understand_without_connection :
  result_of (execute_stage embedded_handlers StageExecutor_init "UNDERSTAND")
    (StateManager.init 0)
  = Ok [("stage", VStr "UNDERSTAND");
        ("results",
         VList [VDict [("error", VStr "Not connected to common server");
                       ("ability", VStr "parse_request_text")];
                VDict [("error", VStr "Not connected to atlas server");
                       ("ability", VStr "extract_entities")]]);
        ("status", VStr "completed")].
Proof. vm_compute. reflexivity. Qed.

(** The scenario of a search that fails in RETRIEVE: the stage completes,
    its results are the error entry of the search and the result of
    [store_data]. *)
Example retrieve_with_unreachable_kb :
  result_of (execute_stage unreachable_kb_handlers
               (fst (setup_clients StageExecutor_init)) "RETRIEVE")
    (StateManager.init 0)
  = Ok [("stage", VStr "RETRIEVE");
        ("results",
         VList [VDict [("error", VStr "knowledge base unreachable");
                       ("ability", VStr "knowledge_base_search")];
                VDict [("ability", VStr "store_data");
                       ("server", VStr "common");
                       ("status", VStr "completed");
                       ("timestamp", VStr "5");
                       ("result", VStr "Executed store_data successfully")]]);
        ("status", VStr "completed")].
Proof. vm_compute. reflexivity. Qed.


(** The DECIDE choreography has no [try]: an [MCPClientError] of an ability
    call leaves the stage. *)
Example decide_propagates_MCPClientError :
  result_of (execute_stage embedded_handlers StageExecutor_init "DECIDE")
    (StateManager.init 0)
  = Raise (MCPClientError "Not connected to common server").
Proof. vm_compute. reflexivity. Qed.

(** * The escalation decision *)

Lemma add_solution_effect d score w :
  exists w',
    StateManager.add_solution d score w = (Ok tt, w') /\
    solutions (state w') = solutions (state w) ++ [d] /\
    solution_scores (state w') = solution_scores (state w) ++ [score].
Proof.
  open_world w. run_store.
  eexists. split; [reflexivity | split; reflexivity].
Qed.

Lemma add_solutions_effect items sols w :
  omap scored items = Ok sols ->
  exists w',
    for_each items
      (fun solution =>
         score <- lift_outcome (score_of solution) ;;
         d <- lift_outcome (as_dict solution) ;;
         StateManager.add_solution d score) w = (Ok tt, w') /\
    solutions (state w') = solutions (state w) ++ map fst sols /\
    solution_scores (state w') = solution_scores (state w) ++ map snd sols.
Proof.
  revert sols w. induction items as [|v items IH]; intros sols w H.
  - injection H as <-. exists w. simpl. now rewrite !app_nil_r.
  - cbn [omap] in H. unfold scored at 1 in H.
    destruct (score_of v) as [score | e] eqn:Es; [|discriminate H].
    destruct (as_dict v) as [d | e] eqn:Ed; [|discriminate H].
    cbn [obind] in H.
    destruct (omap scored items) as [rest | e] eqn:Er; [|discriminate H].
    cbn [obind] in H. injection H as <-.
    destruct (add_solution_effect d score w) as (w1 & E1 & S1 & C1).
    destruct (IH rest w1 eq_refl) as (w' & E' & S' & C').
    exists w'. split; [|split].
    + cbn [for_each]. unfold bind at 1. unfold bind at 1.
      unfold lift_outcome at 1. rewrite Es. unfold bind at 1.
      unfold lift_outcome at 1. rewrite Ed. rewrite E1. exact E'.
    + rewrite S', S1, <- app_assoc. reflexivity.
    + rewrite C', C1, <- app_assoc. reflexivity.
Qed.

Lemma omap_length {A C} (f : A -> outcome C) xs ys :
  omap f xs = Ok ys -> List.length ys = List.length xs.
Proof.
  revert ys. induction xs as [|x xs IH]; intros ys H; simpl in H.
  - now injection H as <-.
  - destruct (f x) as [y | e]; [|discriminate H]. simpl in H.
    destruct (omap f xs) as [ys' | e]; [|discriminate H]. simpl in H.
    injection H as <-. simpl. now rewrite (IH ys' eq_refl).
Qed.

Lemma omap_app {A C} (f : A -> outcome C) xs xs' ys ys' :
  omap f xs = Ok ys -> omap f xs' = Ok ys' ->
  omap f (xs ++ xs') = Ok (ys ++ ys').
Proof.
  revert ys. induction xs as [|x xs IH]; intros ys H H'; simpl in *.
  - now injection H as <-.
  - destruct (f x) as [y | e]; [|discriminate H]. simpl in *.
    destruct (omap f xs) as [zs | e]; [|discriminate H]. simpl in *.
    injection H as <-. now rewrite (IH zs eq_refl H').
Qed.

(** The scores the escalation handler reads back from the solutions that
    the executor stored are the scores the executor stored with them. *)
Lemma scored_scores items sols :
  omap scored items = Ok sols ->
  omap score_of (map VDict (map fst sols)) = Ok (map snd sols).
Proof.
  revert sols. induction items as [|v items IH]; intros sols H.
  - now injection H as <-.
  - cbn [omap] in H. unfold scored at 1 in H.
    destruct v; try discriminate H.
    destruct (score_of (VDict d)) as [score | e] eqn:Es; [|discriminate H].
    cbn [as_dict obind] in H.
    destruct (omap scored items) as [rest | e]; [|discriminate H].
    cbn [obind] in H. injection H as <-.
    cbn [map fst snd omap]. rewrite Es. cbn [obind].
    now rewrite (IH rest eq_refl).
Qed.

(** The escalation rule of the handler: the best score is the greatest score
    of the solutions in the context, 0 without solutions. *)
Lemma escalation_decision_result context t sols scores :
  get_or "solutions" (VList []) context = VList (map VDict sols) ->
  omap score_of (map VDict sols) = Ok scores ->
  let best_score := StateManager.max_or_0 scores in
  let escalate := (best_score <? 90)%Z in
  AtlasMCPClient._handle_escalation_decision context t
  = Ok [("escalation_decision",
         VDict
           [("escalation_required", VBool escalate);
            ("reason",
             VStr (if escalate
                   then "Best solution score (" ++ str_of_Z best_score
                        ++ ") below threshold (90)"
                   else "Sufficient solution found"));
            ("assigned_to",
             VStr (if escalate then "specialist_team" else "automated_system"));
            ("priority",
             VStr (if (best_score <? 70)%Z then "high" else "medium"))]);
        ("decision_confidence", VFloat (9 # 10)%Q);
        ("threshold_used", VInt 90)].
Proof.
  intros Hget Hscores. unfold AtlasMCPClient._handle_escalation_decision.
  rewrite Hget. destruct sols as [|d sols].
  - injection Hscores as <-. reflexivity.
  - cbn [truthy map iterate obind]. cbn [map] in Hscores. rewrite Hscores.
    cbn [obind]. pose proof (omap_length _ _ _ Hscores) as L.
    destruct scores as [|z zs]; [discriminate L|]. reflexivity.
Qed.

Lemma MCPServer_eqb_refl s : MCPServer_eqb s s = true.
Proof. now destruct s. Qed.

(** A call that passes the preconditions reads the clock and answers with
    the handler of the ability, or with the default handler. *)
Lemma execute_ability_connected handlers c a context w :
  connected c = true -> ability_server a = server_type c ->
  MCPClient.execute_ability handlers c a context w
  = (match handlers (server_type c) (ability_name a) with
     | Some handler => handler context (clock w)
     | None => MCPClient._default_handler a context (clock w)
     end, tick w).
Proof.
  intros Hc Hs. unfold MCPClient.execute_ability.
  rewrite Hc, Hs, MCPServer_eqb_refl. cbn [negb].
  unfold bind, datetime_now. cbn [clock].
  destruct (handlers (server_type c) (ability_name a)); reflexivity.
Qed.

Section Decide.

Variable handlers : HandlerTable.

Lemma evaluate_solutions_effect context results w eval_result sols :
  evaluation_outcome handlers context (clock w) = Ok eval_result ->
  solutions_of eval_result = Ok sols ->
  exists w',
    evaluate_solutions handlers connected_executor decide_stage context results w
    = (Ok (_build_context (state w'), results ++ [eval_result]), w') /\
    solutions (state w') = solutions (state w) ++ map fst sols /\
    solution_scores (state w') = solution_scores (state w) ++ map snd sols.
Proof.
  intros Heval Hshape.
  unfold solutions_of in Hshape.
  destruct (iterate (get_or "solutions" (VList []) eval_result)) as [items | e] eqn:Ei;
    [|discriminate Hshape].
  cbn [obind] in Hshape.
  destruct (add_solutions_effect items sols (tick w) Hshape) as (w' & E' & S' & C').
  exists w'. split; [|split; assumption].
  unfold evaluate_solutions.
  change (find_ability (stage_abilities decide_stage) "solution_evaluation")
    with (Some (mkAbility "solution_evaluation" COMMON
                  "Score potential solutions 1-100")).
  cbv iota beta.
  rewrite (bind_Ok _ _ w eval_result (tick w)).
  - unfold lift_outcome at 1. rewrite Ei.
    unfold bind at 1. unfold bind at 1. rewrite E'. reflexivity.
  - rewrite execute_ability_connected by reflexivity.
    unfold evaluation_outcome in Heval. cbn [server_type connected_executor get_client ability_server ability_name setup_clients StageExecutor_init fst clients_connected negb MCPClient.connect MCPClient.init common_client].
    now rewrite Heval.
Qed.

Lemma set_escalation_effect required reason w :
  exists w',
    StateManager.set_escalation required reason w = (Ok tt, w') /\
    escalation_required (state w') = required /\
    escalation_reason (state w') = reason /\
    solutions (state w') = solutions (state w) /\
    solution_scores (state w') = solution_scores (state w).
Proof.
  open_world w. run_store.
  eexists. split; [reflexivity | repeat split; reflexivity].
Qed.

Lemma decide_escalation_effect context results w sols scores :
  handlers ATLAS "escalation_decision"
  = Some AtlasMCPClient._handle_escalation_decision ->
  get_or "solutions" (VList []) context = VList (map VDict sols) ->
  omap score_of (map VDict sols) = Ok scores ->
  exists w' escalation_result,
    decide_escalation handlers connected_executor decide_stage context results w
    = (Ok (results ++ [escalation_result]), w') /\
    AtlasMCPClient._handle_escalation_decision context (clock w)
    = Ok escalation_result /\
    escalation_required (state w') = (StateManager.max_or_0 scores <? 90)%Z /\
    solutions (state w') = solutions (state w) /\
    solution_scores (state w') = solution_scores (state w).
Proof.
  intros Hesc Hget Hscores.
  pose proof (escalation_decision_result context (clock w) sols scores Hget Hscores)
    as Hr. cbv zeta in Hr.
  set (best := StateManager.max_or_0 scores) in *.
  match type of Hr with
  | _ = Ok [(_, VDict [(_, VBool ?b); (_, VStr ?reason); _; _]); _; _] =>
      destruct (set_escalation_effect b reason (tick w)) as (w' & E' & R' & _ & S' & C')
  end.
  match type of Hr with _ = Ok ?r => set (escalation_result := r) in * end.
  exists w', escalation_result.
  split; [|split; [exact Hr | split; [exact R' | split; assumption]]].
  unfold decide_escalation.
  change (find_ability (stage_abilities decide_stage) "escalation_decision")
    with (Some (mkAbility "escalation_decision" ATLAS
                  "Assign to human agent if score <90")).
  cbv iota beta.
  rewrite (bind_Ok _ _ w escalation_result (tick w)).
  - unfold escalation_result.
    unfold bind at 1. unfold lift_outcome at 1. cbn [get_or dict_get String.eqb Ascii.eqb Bool.eqb as_mapping].
    unfold bind at 1. unfold lift_outcome at 1. cbn [get_or dict_get String.eqb Ascii.eqb Bool.eqb as_bool].
    unfold bind at 1. unfold lift_outcome at 1. cbn [get_or dict_get String.eqb Ascii.eqb Bool.eqb as_str].
    unfold bind at 1. rewrite E'. reflexivity.
  - rewrite execute_ability_connected by reflexivity.
    cbn [server_type connected_executor get_client ability_server ability_name setup_clients StageExecutor_init fst clients_connected negb MCPClient.connect MCPClient.init atlas_client].
    rewrite Hesc. now rewrite Hr.
Qed.

Lemma preserves_record_decision {B} (f : AgentState -> B) self stage_config
  context results :
  preserves f (record_decision handlers self stage_config context results).
Proof. unfold record_decision. frame. Qed.

Lemma world_after_bind_ret {A C} (m : M A) (g : A -> C) w :
  snd (bind m (fun a => ret (g a)) w) = snd (m w).
Proof. unfold bind. now destruct (m w) as [[a | e] w']. Qed.

(** The DECIDE choreography on a state whose recorded scores are those of
    its recorded solutions: the new solutions are appended with their
    scores, and the escalation flag is set by the rule on all the scores. *)
Lemma decide_stage_effect w eval_result sols :
  handlers ATLAS "escalation_decision"
  = Some AtlasMCPClient._handle_escalation_decision ->
  evaluation_outcome handlers (_build_context (state w)) (clock w)
  = Ok eval_result ->
  solutions_of eval_result = Ok sols ->
  omap score_of (map VDict (solutions (state w))) = Ok (solution_scores (state w)) ->
  let w' := world_after
              (_execute_non_deterministic_stage handlers connected_executor
                 decide_stage) w in
  solutions (state w') = solutions (state w) ++ map fst sols /\
  solution_scores (state w') = solution_scores (state w) ++ map snd sols /\
  escalation_required (state w')
  = (StateManager.max_or_0 (solution_scores (state w')) <? 90)%Z.
Proof.
  intros Hesc Heval Hshape Hstate w'.
  destruct (evaluate_solutions_effect (_build_context (state w)) [] w
              eval_result sols Heval Hshape) as (w1 & E1 & S1 & C1).
  assert (Hscores : omap score_of (map VDict (solutions (state w1)))
                    = Ok (solution_scores (state w1))).
  { rewrite S1, C1, map_app. apply omap_app; [exact Hstate|].
    unfold solutions_of in Hshape.
    destruct (iterate _) as [items | e]; [|discriminate Hshape].
    now apply (scored_scores items). }
  destruct (decide_escalation_effect (_build_context (state w1))
              ([] ++ [eval_result]) w1 (solutions (state w1))
              (solution_scores (state w1)) Hesc eq_refl Hscores)
    as (w2 & escalation_result & E2 & _ & R2 & S2 & C2).
  assert (Ew : w' = world_after
                      (record_decision handlers connected_executor decide_stage
                         (_build_context (state w1))
                         (([] ++ [eval_result]) ++ [escalation_result])) w2).
  { unfold w', world_after, _execute_non_deterministic_stage.
    unfold bind at 1. cbn [StateManager.get_current_state gets].
    cbn [decide_stage stage_name String.eqb Ascii.eqb Bool.eqb].
    fold decide_stage.
    rewrite (bind_Ok _ _ _ _ _ E1). cbn [fst snd].
    rewrite (bind_Ok _ _ _ _ _ E2).
    apply world_after_bind_ret. }
  rewrite Ew. unfold world_after.
  rewrite (preserves_record_decision solutions),
    (preserves_record_decision solution_scores),
    (preserves_record_decision escalation_required).
  rewrite S2, C2, R2, S1, C1. auto.
Qed.

End Decide.

Lemma update_stage_returns name w :
  StateManager.update_stage name w
  = (Ok tt, world_after (StateManager.update_stage name) w).
Proof.
  unfold world_after. open_world w. destruct current_stage0; reflexivity.
Qed.

Section NodeFrame.

Context {B : Type} (f : AgentState -> B) (handlers : HandlerTable).

Hypothesis f_log : ignores f with_processing_log.
Hypothesis f_entities : ignores f with_entities.
Hypothesis f_normalized_fields : ignores f with_normalized_fields.
Hypothesis f_enriched_data : ignores f with_enriched_data.
Hypothesis f_kb_results : ignores f with_kb_results.
Hypothesis f_generated_response : ignores f with_generated_response.
Hypothesis f_human_responses : ignores f with_human_responses.
Hypothesis f_clarification_questions : ignores f with_clarification_questions.
Hypothesis f_stage_history : ignores f with_stage_history.
Hypothesis f_current_stage : ignores f with_current_stage.
Hypothesis f_updated_at : ignores f with_updated_at.

Lemma preserves_update_stage name : preserves f (StateManager.update_stage name).
Proof.
  intros w. unfold StateManager.update_stage, StateManager.log_event.
  unfold bind, gets, modify, datetime_now, ret. cbn [state clock snd fst].
  destruct (StateManager.str_truthy (current_stage (state w)));
    cbn [state clock snd fst];
    now rewrite f_log, f_updated_at, f_current_stage, ?f_stage_history.
Qed.

(** A node of a stage that is not the DECIDE choreography. *)
Lemma preserves_stage_node name :
  (forall stage_config,
      find (fun s => String.eqb (stage_name s) name) STAGES = Some stage_config ->
      stage_mode stage_config <> NON_DETERMINISTIC) ->
  preserves f (stage_node handlers name).
Proof.
  intros Hmode. unfold stage_node. apply preserves_try_finally; [|apply preserves_ret].
  unfold execute_stage.
  destruct (find _ STAGES) as [stage_config|]; [|apply preserves_raise].
  specialize (Hmode stage_config eq_refl).
  apply preserves_bind; [apply preserves_update_stage|]. intros _.
  destruct (stage_mode stage_config).
  - now apply preserves_execute_deterministic_stage.
  - contradiction.
  - now apply preserves_execute_human_stage.
  - now apply preserves_execute_payload_stage.
Qed.

Lemma after_nodes_preserves names w :
  Forall (fun name => preserves f (stage_node handlers name)) names ->
  f (state (after_nodes handlers names w)) = f (state w).
Proof.
  intros H. revert w. induction H as [|name names Hn _ IH]; intros w.
  - reflexivity.
  - cbn [after_nodes fold_left]. unfold after_nodes in IH. rewrite IH. apply Hn.
Qed.

End NodeFrame.

Lemma stage_node_decide handlers w :
  world_after (stage_node handlers "DECIDE") w
  = world_after
      (_execute_non_deterministic_stage handlers connected_executor decide_stage)
      (world_after (StateManager.update_stage "DECIDE") w).
Proof.
  unfold world_after at 1. unfold stage_node, try_finally, execute_stage.
  change (find (fun s => String.eqb (stage_name s) "DECIDE") STAGES)
    with (Some decide_stage).
  cbv iota beta.
  rewrite (bind_Ok _ _ _ _ _ (update_stage_returns "DECIDE" w)).
  cbn [stage_mode decide_stage]. fold decide_stage. fold connected_executor.
  unfold world_after.
  destruct (_execute_non_deterministic_stage _ _ _ _) as [r w'].
  reflexivity.
Qed.

Lemma export_decisions w payload w' :
  StateManager.export_final_payload w = (Ok payload, w') ->
  path_get ["decisions"; "best_solution_score"] (VDict payload)
  = Some (VInt (StateManager.max_or_0 (solution_scores (state w)))) /\
  path_get ["decisions"; "escalation_required"] (VDict payload)
  = Some (VBool (escalation_required (state w))) /\
  path_get ["output"; "final_status"] (VDict payload)
  = Some (VStr (if escalation_required (state w) then "escalated" else "resolved")).
Proof. intros E. injection E as <- _. repeat split. Qed.

Lemma initialize_state_decision_view input_data w :
  decision_view (state_after (StateManager.initialize_state input_data) w)
  = decision_view (state w).
Proof. open_world w. reflexivity. Qed.

(** The run, cut at the DECIDE choreography. *)
Lemma after_nodes_stage_order handlers w :
  after_nodes handlers stage_order w
  = after_nodes handlers ["UPDATE"; "CREATE"; "DO"; "COMPLETE"]
      (world_after
         (_execute_non_deterministic_stage handlers connected_executor decide_stage)
         (world_after (StateManager.update_stage "DECIDE")
            (after_nodes handlers
               ["INTAKE"; "UNDERSTAND"; "PREPARE"; "ASK"; "WAIT"; "RETRIEVE"] w))).
Proof.
  rewrite <- stage_node_decide. unfold after_nodes, stage_order.
  cbn [fold_left]. reflexivity.
Qed.

Lemma loop_nodes_preserve_decision handlers name :
  In name ["INTAKE"; "UNDERSTAND"; "PREPARE"; "ASK"; "WAIT"; "RETRIEVE";
           "UPDATE"; "CREATE"; "DO"; "COMPLETE"] ->
  preserves decision_view (stage_node handlers name).
Proof.
  intros Hin. apply preserves_stage_node; try (intros v s; reflexivity).
  intros cfg Hfind. simpl in Hin.
  repeat (destruct Hin as [<- | Hin];
          [injection Hfind as <-; discriminate|]).
  contradiction.
Qed.

Lemma process_request_decision handlers input_data t0 :
  handlers ATLAS "escalation_decision"
  = Some AtlasMCPClient._handle_escalation_decision ->
  (forall context t,
      exists eval_result sols,
        evaluation_outcome handlers context t = Ok eval_result /\
        solutions_of eval_result = Ok sols) ->
  exists final_state best context t eval_result sols,
    result_of (process_request handlers input_data) (LangieAgent_init t0)
    = Ok final_state /\
    evaluation_outcome handlers context t = Ok eval_result /\
    solutions_of eval_result = Ok sols /\
    best = StateManager.max_or_0 (map snd sols) /\
    path_get ["final_payload"; "decisions"; "best_solution_score"]
      (VDict final_state) = Some (VInt best) /\
    path_get ["final_payload"; "decisions"; "escalation_required"]
      (VDict final_state) = Some (VBool (best <? 90)%Z) /\
    path_get ["final_payload"; "output"; "final_status"] (VDict final_state)
    = Some (VStr (if (best <? 90)%Z then "escalated" else "resolved")).
Proof.
  intros Hesc Heval.
  destruct (process_request_returns handlers input_data (LangieAgent_init t0))
    as (st' & payload & Ep & Er).
  match type of Ep with
  | _ (after_nodes _ _ ?w) = _ => remember w as w1 eqn:E1
  end.
  assert (V1 : decision_view (state w1) = ([], [], false, "")).
  { rewrite E1.
    transitivity (decision_view
                    (state_after (StateManager.initialize_state input_data)
                       (LangieAgent_init t0))); [reflexivity|].
    rewrite initialize_state_decision_view. reflexivity. }
  clear E1.
  rewrite after_nodes_stage_order in Ep, Er.
  remember (after_nodes handlers
              ["INTAKE"; "UNDERSTAND"; "PREPARE"; "ASK"; "WAIT"; "RETRIEVE"] w1)
    as wA eqn:EA.
  assert (VA : decision_view (state wA) = decision_view (state w1)).
  { rewrite EA. apply after_nodes_preserves.
    repeat constructor; apply loop_nodes_preserve_decision; simpl; tauto. }
  clear EA.
  remember (world_after (StateManager.update_stage "DECIDE") wA) as wU eqn:EU.
  assert (VU : decision_view (state wU) = decision_view (state wA)).
  { rewrite EU. apply (preserves_update_stage decision_view);
      intros v s; reflexivity. }
  clear EU. rewrite VA, V1 in VU. clear VA V1 wA w1.
  injection VU as HS HC _ _.
  destruct (Heval (_build_context (state wU)) (clock wU))
    as (eval_result & sols & He & Hs).
  destruct (decide_stage_effect handlers wU eval_result sols Hesc He Hs)
    as (_ & C & R).
  { now rewrite HS, HC. }
  remember (world_after
              (_execute_non_deterministic_stage handlers connected_executor
                 decide_stage) wU) as wB eqn:EB.
  rewrite HC in C. cbn [app] in C.
  remember (after_nodes handlers ["UPDATE"; "CREATE"; "DO"; "COMPLETE"] wB)
    as wC eqn:EC.
  assert (VC : decision_view (state wC) = decision_view (state wB)).
  { rewrite EC. apply after_nodes_preserves.
    repeat constructor; apply loop_nodes_preserve_decision; simpl; tauto. }
  clear EC EB.
  injection VC as _ VCs VCr _.
  apply export_decisions in Ep. destruct Ep as (P1 & P2 & P3).
  rewrite VCs, VCr, R, C in *.
  exists (dict_set "final_payload" (VDict payload) st'),
    (StateManager.max_or_0 (map snd sols)),
    (_build_context (state wU)), (clock wU), eval_result, sols.
  unfold result_of. rewrite Er.
  repeat split; try assumption;
    cbn [path_get]; rewrite dict_get_set_same; assumption.
Qed.


Lemma scoring_handlers_evaluation (scores : list Z) context t :
  exists eval_result sols,
    evaluation_outcome (scoring_handlers scores) context t = Ok eval_result /\
    solutions_of eval_result = Ok sols.
Proof.
  eexists. exists (map (fun z => ([("score", VInt z)], z)) scores).
  split; [reflexivity|].
  unfold solutions_of. cbn [get_or dict_get String.eqb Ascii.eqb Bool.eqb iterate obind].
  induction scores as [|z scores IH]; [reflexivity|].
  cbn [map omap]. rewrite IH. reflexivity.
Qed.


(** Scores of at most 85: the request is escalated. *)
Example scores_below_threshold :
  let final_state :=
    result_of (process_request (scoring_handlers [85; 60]%Z)
                 [("query", VStr "charged twice, urgent refund");
                  ("priority", VStr "high")])
      (LangieAgent_init 0) in
  obind final_state
    (fun st => Ok (path_get ["final_payload"; "decisions"] (VDict st),
                   path_get ["final_payload"; "output"; "final_status"] (VDict st)))
  = Ok (Some (VDict [("escalation_required", VBool true);
                     ("escalation_reason",
                      VStr "Best solution score (85) below threshold (90)");
                     ("best_solution_score", VInt 85)]),
        Some (VStr "escalated")).
Proof. vm_compute. reflexivity. Qed.

(** A score of 90: the request is resolved. *)
Example scores_at_threshold :
  let final_state :=
    result_of (process_request (scoring_handlers [70; 90]%Z)
                 [("query", VStr "where is my order")])
      (LangieAgent_init 0) in
  obind final_state
    (fun st => Ok (path_get ["final_payload"; "decisions"] (VDict st),
                   path_get ["final_payload"; "output"; "final_status"] (VDict st)))
  = Ok (Some (VDict [("escalation_required", VBool false);
                     ("escalation_reason", VStr "Sufficient solution found");
                     ("best_solution_score", VInt 90)]),
        Some (VStr "resolved")).
Proof. vm_compute. reflexivity. Qed.

(** * Further properties of the State Store *)

Lemma run_mutation_returns (m : Mutation) (w : World) :
  run_mutation m w = (Ok tt, world_after (run_mutation m) w).
Proof.
  unfold world_after. open_world w.
  destruct m; try reflexivity. destruct current_stage0; reflexivity.
Qed.

Lemma run_mutations_cons (m : Mutation) (ms : list Mutation) (w : World) :
  run_mutations (m :: ms) w
  = run_mutations ms (world_after (run_mutation m) w).
Proof.
  unfold run_mutations. cbn [for_each].
  now rewrite (bind_Ok _ _ _ _ _ (run_mutation_returns m w)).
Qed.

Lemma mutation_stage_history (m : Mutation) (w : World) :
  exists suffix,
    stage_history (state_after (run_mutation m) w)
    = stage_history (state w) ++ suffix /\
    (List.length suffix <= update_stage_calls [m])%nat.
Proof.
  open_world w. destruct m;
    try (exists []; split; [cbn; now rewrite app_nil_r | cbn; lia]).
  destruct current_stage0.
  - exists []. split; [cbn; now rewrite app_nil_r | cbn; lia].
  - eexists [_]. split; [reflexivity | cbn; lia].
Qed.

(** X1. Under any sequence of mutation methods the stage history only
    grows: the history before is a prefix of the history after, and it
    grows by at most one name for each call of [update_stage]. *)
Theorem stage_history_only_grows (ms : list Mutation) (w : World) :
  exists suffix,
    result_of (run_mutations ms) w = Ok tt /\
    stage_history (state_after (run_mutations ms) w)
    = stage_history (state w) ++ suffix /\
    (List.length suffix <= update_stage_calls ms)%nat.
Proof.
  revert w. induction ms as [|m ms IH]; intros w.
  - exists []. repeat split; [cbn; now rewrite app_nil_r | cbn; lia].
  - destruct (mutation_stage_history m w) as (s1 & H1 & L1).
    destruct (IH (world_after (run_mutation m) w)) as (s2 & R2 & H2 & L2).
    exists (s1 ++ s2). unfold result_of, state_after, world_after in *.
    rewrite run_mutations_cons. unfold world_after.
    split; [exact R2|]. split.
    + rewrite H2, H1. now rewrite app_assoc.
    + rewrite length_app. unfold update_stage_calls in *. cbn [filter] in *.
      destruct m; cbn [List.length] in *; lia.
Qed.

Lemma mutation_keeps_parallel (m : Mutation) (w : World) :
  List.length (solutions (state w)) = List.length (solution_scores (state w)) ->
  List.length (solutions (state_after (run_mutation m) w))
  = List.length (solution_scores (state_after (run_mutation m) w)).
Proof.
  open_world w. destruct m; cbn; try tauto.
  - destruct current_stage0; cbn; tauto.
  - intros H. rewrite !length_app. cbn. lia.
Qed.

(** X2. Solutions and solution scores stay parallel: when the two lists
    have the same length, they have the same length after any sequence of
    mutation methods. *)
Theorem solutions_and_scores_stay_parallel (ms : list Mutation) (w : World)
  (H : List.length (solutions (state w))
       = List.length (solution_scores (state w))) :
  List.length (solutions (state_after (run_mutations ms) w))
  = List.length (solution_scores (state_after (run_mutations ms) w)).
Proof.
  revert w H. induction ms as [|m ms IH]; intros w H; [exact H|].
  unfold state_after, world_after. rewrite run_mutations_cons.
  apply IH. now apply mutation_keeps_parallel.
Qed.

Lemma solutions_and_scores_stay_parallel_witness :
  List.length
    (solutions
       (state_after
          (run_mutations [AddSolution [("id", VStr "sol_1")] 80;
                          UpdateStage "DECIDE";
                          AddSolution [] 65])
          (StateManager.init 0)))
  = List.length
      (solution_scores
         (state_after
            (run_mutations [AddSolution [("id", VStr "sol_1")] 80;
                            UpdateStage "DECIDE";
                            AddSolution [] 65])
            (StateManager.init 0))).
Proof.
  exact (solutions_and_scores_stay_parallel
           [AddSolution [("id", VStr "sol_1")] 80%Z;
            UpdateStage "DECIDE";
            AddSolution [] 65%Z]
           (StateManager.init 0) eq_refl).
Defined.

Lemma mutation_log_entry (m : Mutation) (w : World) :
  exists entry,
    processing_log (state_after (run_mutation m) w)
    = processing_log (state w) ++ [entry] /\
    dict_get "event_type" entry = Some (VStr (event_type_of m)).
Proof.
  open_world w.
  destruct m; try (eexists; split; reflexivity).
  destruct current_stage0; eexists; split; reflexivity.
Qed.

(** X3. The event log records a sequence of mutation methods in order: the
    log after is the log before followed by one entry for each call, and
    the event types of these entries are those of the calls. *)
Theorem log_records_mutations_in_order (ms : list Mutation) (w : World) :
  exists entries,
    processing_log (state_after (run_mutations ms) w)
    = processing_log (state w) ++ entries /\
    event_types entries = map (fun m => Some (VStr (event_type_of m))) ms.
Proof.
  revert w. induction ms as [|m ms IH]; intros w.
  - exists []. split; [cbn; now rewrite app_nil_r | reflexivity].
  - destruct (mutation_log_entry m w) as (e & H1 & T1).
    destruct (IH (world_after (run_mutation m) w)) as (es & H2 & T2).
    exists (e :: es). unfold state_after, world_after in *.
    rewrite run_mutations_cons. unfold world_after. split.
    + rewrite H2, H1. now rewrite <- app_assoc.
    + unfold event_types in *. cbn [map]. now rewrite T1, T2.
Qed.

Lemma dict_get_app k d e :
  dict_get k (d ++ e)
  = match dict_get k d with
    | Some v => Some v
    | None => dict_get k e
    end.
Proof.
  induction d as [|[k' v'] d IH]; simpl; [reflexivity|].
  destruct (String.eqb k k'); [reflexivity | exact IH].
Qed.

Lemma dict_get_set_other k k' v d :
  k <> k' -> dict_get k (dict_set k' v d) = dict_get k d.
Proof.
  intros NE. induction d as [|[k1 v1] d IH]; simpl.
  - destruct (String.eqb_spec k k'); [contradiction | reflexivity].
  - destruct (String.eqb_spec k' k1) as [E | N]; simpl.
    + subst k1. destruct (String.eqb_spec k k'); [contradiction | reflexivity].
    + destruct (String.eqb k k1); [reflexivity | exact IH].
Qed.

(** A lookup after a merge: the last item of the merged mapping for the key,
    and the old value when the mapping has none. *)
Lemma dict_get_update k m d :
  dict_get k (dict_update d m)
  = match last_binding k m with
    | Some v => Some v
    | None => dict_get k d
    end.
Proof.
  unfold last_binding. revert d.
  induction m as [|[k1 v1] m IH]; intros d; [reflexivity|].
  change (dict_update d ((k1, v1) :: m)) with (dict_update (dict_set k1 v1 d) m).
  rewrite IH. cbn [rev]. rewrite dict_get_app.
  destruct (dict_get k (rev m)); [reflexivity|].
  cbn [dict_get]. destruct (String.eqb_spec k k1) as [E | NE].
  - subst. apply dict_get_set_same.
  - now apply dict_get_set_other.
Qed.

(** X4. The three merge setters are last-write-wins per key and drop
    nothing: after the call, a key that the merged mapping binds has the
    value of its last item there, and every other key has the value (or the
    absence) it had before. *)
Theorem merge_is_last_write_wins (m : dict) (k : string) (w : World) :
  dict_get k (entities (state_after (StateManager.update_entities m) w))
  = match last_binding k m with
    | Some v => Some v
    | None => dict_get k (entities (state w))
    end /\
  dict_get k
    (normalized_fields (state_after (StateManager.update_normalized_fields m) w))
  = match last_binding k m with
    | Some v => Some v
    | None => dict_get k (normalized_fields (state w))
    end /\
  dict_get k (enriched_data (state_after (StateManager.add_enriched_data m) w))
  = match last_binding k m with
    | Some v => Some v
    | None => dict_get k (enriched_data (state w))
    end.
Proof.
  open_world w. repeat split; cbn; apply dict_get_update.
Qed.

(** X5. The merge setters keep the keys of a mapping distinct: a mapping
    without a repeated key has none after a merge, whatever is merged. *)
Theorem merge_keeps_keys_distinct (m : dict) (w : World)
  (He : NoDup (map fst (entities (state w))))
  (Hn : NoDup (map fst (normalized_fields (state w))))
  (Hd : NoDup (map fst (enriched_data (state w)))) :
  NoDup (map fst (entities (state_after (StateManager.update_entities m) w))) /\
  NoDup (map fst
           (normalized_fields
              (state_after (StateManager.update_normalized_fields m) w))) /\
  NoDup (map fst
           (enriched_data (state_after (StateManager.add_enriched_data m) w))).
Proof.
  open_world w. cbn in *. repeat split; now apply dict_update_NoDup.
Qed.

Lemma merge_keeps_keys_distinct_witness :
  NoDup (map fst
           (entities
              (state_after
                 (StateManager.update_entities
                    [("products", VList [VStr "order"]); ("dates", VList []);
                     ("products", VList [])])
                 (StateManager.init 0)))).
Proof.
  exact (proj1 (merge_keeps_keys_distinct
                  [("products", VList [VStr "order"]); ("dates", VList []);
                   ("products", VList [])]
                  (StateManager.init 0)
                  (NoDup_nil _) (NoDup_nil _) (NoDup_nil _))).
Defined.

Lemma update_stages_view (names : list string) (w : World) :
  Forall (fun name => StateManager.str_truthy name = true) names ->
  update_stages names w = (Ok tt, world_after (update_stages names) w) /\
  stage_history (state_after (update_stages names) w)
  ++ [current_stage (state_after (update_stages names) w)]
  = stage_history (state w)
    ++ (if StateManager.str_truthy (current_stage (state w))
        then [current_stage (state w)] else [])
    ++ names
    ++ (match names with [] =>
          if StateManager.str_truthy (current_stage (state w))
          then [] else [current_stage (state w)]
        | _ => [] end).
Proof.
  intros H. revert w. induction H as [|name names Hname _ IH]; intros w.
  - split; [reflexivity|]. cbn.
    destruct (StateManager.str_truthy (current_stage (state w))); cbn;
      now rewrite ?app_nil_r.
  - destruct (IH (world_after (StateManager.update_stage name) w)) as [R V].
    unfold state_after, world_after, update_stages in *. cbn [for_each].
    rewrite (bind_Ok _ _ _ _ _ (update_stage_returns name w)).
    unfold world_after. split; [exact R|]. rewrite V. clear R V IH.
    assert (E : stage_history (state (snd (StateManager.update_stage name w)))
                = stage_history (state w)
                  ++ (if StateManager.str_truthy (current_stage (state w))
                      then [current_stage (state w)] else [])
                /\ current_stage (state (snd (StateManager.update_stage name w)))
                   = name).
    { open_world w. cbn. destruct current_stage0; cbn;
        now rewrite ?app_nil_r. }
    destruct E as [Eh Ec]. rewrite Eh, Ec, Hname.
    rewrite <- !app_assoc. cbn [app].
    destruct names; cbn; now rewrite ?app_nil_r.
Qed.

(** X6. After [update_stage] is called for a sequence of non-empty stage
    names, the exported [stages_completed] is the history before, then the
    stage that was current before (unless it was the empty string), then
    the names in order: the last name is the current stage, and nothing is
    dropped or reordered. *)
Theorem stages_completed_after_updates (name : string) (names : list string)
  (w : World)
  (H : Forall (fun n => StateManager.str_truthy n = true) (name :: names)) :
  exists payload w',
    (update_stages (name :: names) ;;; StateManager.export_final_payload) w
    = (Ok payload, w') /\
    path_get ["processing"; "stages_completed"] (VDict payload)
    = Some (VList (map VStr
                     (stage_history (state w)
                      ++ (if StateManager.str_truthy (current_stage (state w))
                          then [current_stage (state w)] else [])
                      ++ name :: names))).
Proof.
  destruct (update_stages_view (name :: names) w H) as [R V].
  assert (E : exists p, StateManager.export_final_payload
                          (world_after (update_stages (name :: names)) w)
                        = (Ok p, world_after (update_stages (name :: names)) w))
    by (eexists; reflexivity).
  destruct E as [p E]. exists p. eexists.
  rewrite (bind_Ok _ _ _ _ _ R). split; [exact E|].
  rewrite (export_stages_completed _ _ _ E).
  unfold state_after in V. rewrite V. now rewrite app_nil_r.
Qed.

Lemma stages_completed_after_updates_witness :
  exists payload w',
    (update_stages ["INTAKE"; "UNDERSTAND"] ;;; StateManager.export_final_payload)
      (StateManager.init 0)
    = (Ok payload, w') /\
    path_get ["processing"; "stages_completed"] (VDict payload)
    = Some (VList (map VStr ([] ++ ["INTAKE"] ++ ["INTAKE"; "UNDERSTAND"]))).
Proof.
  apply (stages_completed_after_updates "INTAKE" ["UNDERSTAND"]
           (StateManager.init 0)).
  repeat constructor.
Defined.

Lemma add_human_response_effect response w :
  exists w' entry,
    StateManager.add_human_response response w = (Ok tt, w') /\
    human_responses (state w') = human_responses (state w) ++ [response] /\
    processing_log (state w') = processing_log (state w) ++ [entry] /\
    dict_get "event_type" entry = Some (VStr "HUMAN_RESPONSE_ADDED").
Proof.
  open_world w. run_store.
  do 2 eexists. split; [reflexivity | repeat split; reflexivity].
Qed.

Lemma add_human_responses_effect responses w :
  exists w' entries,
    for_each responses StateManager.add_human_response w = (Ok tt, w') /\
    human_responses (state w') = human_responses (state w) ++ responses /\
    processing_log (state w') = processing_log (state w) ++ entries /\
    event_types entries
    = map (fun _ => Some (VStr "HUMAN_RESPONSE_ADDED")) responses.
Proof.
  revert w. induction responses as [|r rs IH]; intros w.
  - exists w, []. cbn. now rewrite !app_nil_r.
  - destruct (add_human_response_effect r w) as (w1 & e & E1 & H1 & L1 & T1).
    destruct (IH w1) as (w' & es & E' & H' & L' & T').
    exists w', (e :: es). cbn [for_each].
    rewrite (bind_Ok _ _ _ _ _ E1). split; [exact E'|].
    rewrite H', H1, L', L1, <- !app_assoc. repeat split.
    unfold event_types in *. cbn [map]. now rewrite T1, T'.
Qed.

(** X7. [simulate_human_interaction] records exactly the responses that
    answer a question: the first [len(questions)] responses (of the three
    default ones when none are given) are appended to the human responses in
    order, each with its HUMAN_RESPONSE_ADDED event, and they are the
    [responses_received] of the result; responses beyond the number of
    questions are dropped. *)
Theorem simulate_human_interaction_records (questions : list value)
  (responses : option (list string)) (w : World) :
  let given := match responses with
               | None => default_responses
               | Some rs => rs
               end in
  let received := firstn (List.length questions) given in
  exists data w' entries,
    simulate_human_interaction questions responses w = (Ok data, w') /\
    human_responses (state w') = human_responses (state w) ++ received /\
    dict_get "responses_received" data = Some (VList (map VStr received)) /\
    List.length received = Nat.min (List.length questions) (List.length given) /\
    processing_log (state w') = processing_log (state w) ++ entries /\
    event_types entries
    = map (fun _ => Some (VStr "HUMAN_RESPONSE_ADDED")) received.
Proof.
  intros given received.
  destruct (add_human_responses_effect received (tick w))
    as (w' & es & E & H & L & T).
  eexists. exists w', es.
  unfold simulate_human_interaction. fold given. fold received.
  rewrite (bind_Ok _ _ _ _ _ (datetime_now_tick w)).
  rewrite (bind_Ok _ _ _ _ _ E).
  split; [reflexivity|]. split; [exact H|]. split; [reflexivity|].
  split; [apply length_firstn|]. split; assumption.
Qed.

(** * Further properties of the Stage Executor and of the Workflow Engine *)

Lemma find_stage_unknown (name : string) :
  ~ In name stage_order ->
  find (fun s => String.eqb (stage_name s) name) STAGES = None.
Proof.
  intros H. unfold STAGES. cbn [find stage_name].
  repeat (match goal with
          | |- context [String.eqb ?a name] =>
              destruct (String.eqb_spec a name) as [E | _];
              [exfalso; apply H; rewrite <- E; simpl; tauto|]
          end).
  reflexivity.
Qed.

(** X8. [execute_stage] with a name that is not one of the eleven stages
    raises [ValueError] naming the stage, before anything happens: the
    stage is not advanced, nothing is logged and the clock is not read. *)
Theorem execute_stage_unknown_stage (handlers : HandlerTable)
  (self : StageExecutor) (name : string) (w : World)
  (H : ~ In name stage_order) :
  execute_stage handlers self name w
  = (Raise (ValueError ("Unknown stage: " ++ name)), w).
Proof.
  unfold execute_stage. now rewrite (find_stage_unknown name H).
Qed.

Lemma execute_stage_unknown_stage_witness :
  execute_stage embedded_handlers StageExecutor_init "ESCALATE"
    (StateManager.init 0)
  = (Raise (ValueError "Unknown stage: ESCALATE"), StateManager.init 0).
Proof.
  apply (execute_stage_unknown_stage embedded_handlers StageExecutor_init
           "ESCALATE" (StateManager.init 0)).
  simpl. intros H.
  repeat (destruct H as [H | H]; [discriminate H|]). exact H.
Defined.

(** X9. The non-deterministic executor only knows the DECIDE choreography:
    for a stage of any other name it calls no ability, whatever abilities
    the stage declares, and returns a completed result with no results,
    leaving the world as it was. *)
Theorem non_deterministic_stage_other_than_DECIDE (handlers : HandlerTable)
  (self : StageExecutor) (stage_config : Stage) (w : World)
  (H : stage_name stage_config <> "DECIDE") :
  _execute_non_deterministic_stage handlers self stage_config w
  = (Ok [("stage", VStr (stage_name stage_config));
         ("results", VList []);
         ("status", VStr "completed")], w).
Proof.
  unfold _execute_non_deterministic_stage.
  unfold bind at 1. cbn [StateManager.get_current_state gets].
  destruct (String.eqb_spec (stage_name stage_config) "DECIDE") as [E | _];
    [contradiction | reflexivity].
Qed.

Lemma non_deterministic_stage_other_than_DECIDE_witness :
  _execute_non_deterministic_stage embedded_handlers connected_executor
    (mkStage "TRIAGE" NON_DETERMINISTIC
       [mkAbility "solution_evaluation" COMMON "Score potential solutions 1-100"]
       "Another non-deterministic stage")
    (StateManager.init 0)
  = (Ok [("stage", VStr "TRIAGE");
         ("results", VList []);
         ("status", VStr "completed")], StateManager.init 0).
Proof.
  apply (non_deterministic_stage_other_than_DECIDE embedded_handlers
           connected_executor
           (mkStage "TRIAGE" NON_DETERMINISTIC
              [mkAbility "solution_evaluation" COMMON
                 "Score potential solutions 1-100"]
              "Another non-deterministic stage")
           (StateManager.init 0)).
  discriminate.
Defined.


Ltac graph_step_with handlers node name target :=
  match goal with
  | |- exists st', run_graph _ (S ?limit) _ ?st ?w = _ =>
      let st1 := fresh "st" in
      let E := fresh "E" in
      destruct (graph_step handlers node name target limit st w eq_refl eq_refl)
        as [st1 E];
      [simpl; tauto | rewrite E; clear E]
  end.



Lemma preserves_untouched_stage_node (handlers : HandlerTable) (name : string) :
  preserves untouched_view (stage_node handlers name).
Proof.
  unfold stage_node. apply preserves_try_finally; [|apply preserves_ret].
  unfold execute_stage.
  destruct (find _ STAGES) as [stage_config|]; [|apply preserves_raise].
  apply preserves_bind;
    [apply preserves_update_stage; intros v s; reflexivity|].
  intros _. destruct (stage_mode stage_config).
  - apply preserves_execute_deterministic_stage; intros v s; reflexivity.
  - apply preserves_execute_non_deterministic_stage; intros v s; reflexivity.
  - apply preserves_execute_human_stage; intros v s; reflexivity.
  - apply preserves_execute_payload_stage; intros v s; reflexivity.
Qed.

Lemma export_input_and_actions w payload w' :
  StateManager.export_final_payload w = (Ok payload, w') ->
  path_get ["input"] (VDict payload)
  = Some (VDict [("customer_name", customer_name (state w));
                 ("email", email (state w));
                 ("query", query (state w));
                 ("priority", priority (state w));
                 ("ticket_id", ticket_id (state w))]) /\
  path_get ["output"; "actions_executed"] (VDict payload)
  = Some (VList (map VStr (actions_taken (state w)))) /\
  path_get ["metadata"; "created_at"] (VDict payload)
  = Some (VStr (isoformat (created_at (state w)))).
Proof. intros E. injection E as <- _. repeat split. Qed.

Lemma initialize_state_untouched input_data w :
  untouched_view (state_after (StateManager.initialize_state input_data) w)
  = ((get_or "customer_name" (VStr "") input_data,
      get_or "email" (VStr "") input_data,
      get_or "query" (VStr "") input_data,
      get_or "priority" (VStr "medium") input_data,
      get_or "ticket_id" (VStr "") input_data),
     actions_taken (state w), created_at (state w)).
Proof. open_world w. reflexivity. Qed.

(** The attributes that no stage writes, at the end of a run. *)
Lemma process_request_untouched handlers input_data w :
  exists final_state payload w',
    process_request handlers input_data w = (Ok final_state, w') /\
    dict_get "final_payload" final_state = Some (VDict payload) /\
    StateManager.export_final_payload w' = (Ok payload, w') /\
    untouched_view (state w')
    = untouched_view
        (state_after (StateManager.initialize_state input_data) w).
Proof.
  destruct (process_request_returns handlers input_data w)
    as (st' & payload & Ep & Er).
  eexists. exists payload. eexists. split; [exact Er|].
  split; [apply dict_get_set_same|]. split; [exact Ep|].
  rewrite (after_nodes_preserves untouched_view handlers).
  - reflexivity.
  - repeat constructor; apply preserves_untouched_stage_node.
Qed.



(** X14. In a stage node the preconditions of [execute_ability] hold for
    every ability: the executor has connected both clients and hands each
    ability to the client of its own backend group, so the call reads the
    clock once and answers with the handler of the ability, or with the
    default handler when the client has none. *)
Theorem node_calls_pass_the_preconditions (handlers : HandlerTable)
  (a : Ability) (context : dict) (w : World) :
  let executor := fst (setup_clients StageExecutor_init) in
  ~ precondition_fails (get_client executor (ability_server a)) a /\
  MCPClient.execute_ability handlers (get_client executor (ability_server a))
    a context w
  = (match handlers (ability_server a) (ability_name a) with
     | Some handler => handler context (clock w)
     | None => MCPClient._default_handler a context (clock w)
     end, tick w).
Proof.
  intros executor. split.
  - unfold precondition_fails. destruct (ability_server a); cbn;
      (intros [H | H]; [discriminate H | now apply H]).
  - rewrite execute_ability_connected.
    + destruct (ability_server a); reflexivity.
    + destruct (ability_server a); reflexivity.
    + destruct (ability_server a); reflexivity.
Qed.

(** X15. The DECIDE choreography does not catch a failure of its first
    step: when the call of [solution_evaluation] raises, whatever the
    exception, the stage raises it; no solution is added, the escalation is
    not decided and [update_payload] is not called: the state is the one
    before the call. *)
Theorem decide_first_step_failure (handlers : HandlerTable)
  (self : StageExecutor) (w w' : World) (e : exn)
  (H : MCPClient.execute_ability handlers (get_client self COMMON)
         (mkAbility "solution_evaluation" COMMON "Score potential solutions 1-100")
         (_build_context (state w)) w
       = (Raise e, w')) :
  _execute_non_deterministic_stage handlers self decide_stage w = (Raise e, w') /\
  state w' = state w.
Proof.
  split.
  - unfold _execute_non_deterministic_stage.
    unfold bind at 1. cbn [StateManager.get_current_state gets].
    cbn [decide_stage stage_name String.eqb Ascii.eqb Bool.eqb].
    fold decide_stage.
    apply bind_Raise. unfold evaluate_solutions.
    change (find_ability (stage_abilities decide_stage) "solution_evaluation")
      with (Some (mkAbility "solution_evaluation" COMMON
                    "Score potential solutions 1-100")).
    cbv iota beta. apply bind_Raise. exact H.
  - pose proof (preserves_execute_ability (fun s => s) handlers
                  (get_client self COMMON)
                  (mkAbility "solution_evaluation" COMMON
                     "Score potential solutions 1-100")
                  (_build_context (state w)) w) as P.
    rewrite H in P. exact P.
Qed.

Lemma decide_first_step_failure_witness :
  _execute_non_deterministic_stage embedded_handlers StageExecutor_init
    decide_stage (StateManager.init 0)
  = (Raise (MCPClientError "Not connected to common server"),
     StateManager.init 0).
Proof.
  exact (proj1 (decide_first_step_failure embedded_handlers StageExecutor_init
                  (StateManager.init 0) (StateManager.init 0)
                  (MCPClientError "Not connected to common server") eq_refl)).
Defined.

(** * Properties of the handlers of the source *)

Lemma relevance_score_cases query i title :
  relevance_score query i title = (60 + i * 5)%Z \/
  relevance_score query i title = (80 + i * 5)%Z.
Proof.
  unfold relevance_score.
  destruct (CommonMCPClient.any_word_in _ _); [right | left]; lia.
Qed.

(** The loop of the evaluation on records with string titles, while the
    rank stays below three. *)
Lemma evaluate_results_scores (context : dict) (q : string) (i : Z)
  (records : list dict) (titles : list string) :
  get_or "query" (VStr "") context = VStr q ->
  titles_of records titles ->
  (0 <= i)%Z -> (i + Z.of_nat (List.length records) <= 3)%Z ->
  exists solutions : list dict,
    CommonMCPClient.evaluate_results context i (map VDict records) = Ok solutions /\
    omap CommonMCPClient.score_item solutions = Ok (scores_from q i titles) /\
    omap scored (map VDict solutions)
    = Ok (combine solutions (scores_from q i titles)) /\
    List.length solutions = List.length records /\
    List.length (scores_from q i titles) = List.length records.
Proof.
  intros Hq. unfold titles_of. revert i titles.
  induction records as [|r records IH]; intros i titles Ht Hi Hn.
  - destruct titles; [|discriminate Ht]. exists []. repeat split.
  - destruct titles as [|title titles]; [discriminate Ht|].
    cbn [map] in Ht. injection Ht as Ht1 Ht.
    cbn [List.length] in Hn.
    destruct (IH (i + 1)%Z titles Ht) as (sols & E & S1 & S2 & L1 & L2);
      [lia | lia |].
    eexists. cbn [map CommonMCPClient.evaluate_results].
    rewrite Hq. cbn [CommonMCPClient.str_method obind as_mapping].
    rewrite Ht1. cbn [CommonMCPClient.str_method obind]. rewrite E.
    cbn [obind].
    assert (Hmin : Z.min (60 + i * 5
                          + (if CommonMCPClient.any_word_in (lower q) (lower title)
                             then 20 else 0)) 100
                   = relevance_score q i title).
    { unfold relevance_score.
      destruct (CommonMCPClient.any_word_in _ _); lia. }
    rewrite Hmin.
    split; [reflexivity|]. split; [|split; [|split]].
    + cbn [omap CommonMCPClient.score_item dict_get String.eqb Ascii.eqb
             Bool.eqb as_int obind scores_from].
      now rewrite S1.
    + cbn [map omap scores_from combine]. unfold scored at 1, score_of.
      cbn [as_mapping as_dict obind get_or dict_get String.eqb Ascii.eqb
             Bool.eqb as_int].
      now rewrite S2.
    + cbn. now rewrite L1.
    + cbn. now rewrite L2.
Qed.

Lemma scores_from_bounds q i titles :
  (0 <= i)%Z -> (i + Z.of_nat (List.length titles) <= 3)%Z ->
  Forall (fun s => (60 <= s <= 90)%Z) (scores_from q i titles).
Proof.
  revert i. induction titles as [|title titles IH]; intros i Hi Hn; cbn.
  - constructor.
  - cbn [List.length] in Hn. constructor.
    + destruct (relevance_score_cases q i title) as [E | E]; rewrite E; lia.
    + apply IH; lia.
Qed.

Lemma combine_snd {A C} (xs : list A) (ys : list C) :
  List.length xs = List.length ys -> map snd (combine xs ys) = ys.
Proof.
  revert ys. induction xs as [|x xs IH]; intros [|y ys] H; try discriminate H;
    [reflexivity|].
  cbn. f_equal. apply IH. now injection H.
Qed.

Lemma combine_fst {A C} (xs : list A) (ys : list C) :
  List.length xs = List.length ys -> map fst (combine xs ys) = xs.
Proof.
  revert ys. induction xs as [|x xs IH]; intros [|y ys] H; try discriminate H;
    [reflexivity|].
  cbn. f_equal. apply IH. now injection H.
Qed.

(** The evaluation of a context with a string query and records with string
    titles. *)
Lemma solution_evaluation_result (context : dict) (t : Time) (q : string)
  (records : list dict) (titles : list string) :
  get_or "query" (VStr "") context = VStr q ->
  get_or "kb_results" (VList []) context = VList (map VDict records) ->
  titles_of (firstn 3 records) titles ->
  exists solutions : list dict,
    CommonMCPClient._handle_solution_evaluation context t
    = Ok [("solutions", VList (map VDict solutions));
          ("best_score", VInt (StateManager.max_or_0 (scores_from q 0 titles)));
          ("evaluation_method", VStr "relevance_based")] /\
    omap scored (map VDict solutions)
    = Ok (combine solutions (scores_from q 0 titles)) /\
    List.length solutions = List.length (scores_from q 0 titles) /\
    List.length solutions = Nat.min 3 (List.length records).
Proof.
  intros Hq Hkb Ht.
  destruct (evaluate_results_scores context q 0 (firstn 3 records) titles
              Hq Ht) as (sols & E & S1 & S2 & L1 & L2);
    [lia
    | rewrite Z.add_0_l; change 3%Z with (Z.of_nat 3);
      apply Nat2Z.inj_le, firstn_le_length |].
  exists sols. unfold CommonMCPClient._handle_solution_evaluation.
  rewrite Hkb. cbn [CommonMCPClient.slice_to obind iterate].
  rewrite firstn_map. unfold dict in *. rewrite E. cbn [obind].
  pose proof (eq_trans L1 (eq_sym L2)) as L.
  split; [|split; [exact S2 | split; [exact L|]]].
  - destruct sols as [|s sols].
    + destruct (scores_from q 0 titles); [reflexivity | discriminate L].
    + rewrite S1. cbn [obind].
      destruct (scores_from q 0 titles) as [|z zs]; [discriminate L|].
      reflexivity.
  - exact (eq_trans L1 (length_firstn 3 records)).
Qed.



(** The best of the scores of at most three results reaches 90 exactly when
    the third result gets the boost. *)
Lemma best_score_below_threshold q titles :
  (List.length titles <= 3)%nat ->
  (StateManager.max_or_0 (scores_from q 0 titles) <? 90)%Z
  = negb (third_title_matches q titles).
Proof.
  intros H.
  destruct titles as [|a [|b [|c [|d titles]]]];
    [| | | | cbn [List.length] in H; lia];
    cbn [scores_from third_title_matches]; unfold relevance_score;
    repeat match goal with
           | |- context [CommonMCPClient.any_word_in ?x ?y] =>
               destruct (CommonMCPClient.any_word_in x y)
           end;
    reflexivity.
Qed.

Lemma titles_of_length records titles :
  titles_of records titles -> List.length titles = List.length records.
Proof.
  unfold titles_of. intros H. apply (f_equal (@List.length value)) in H.
  now rewrite !length_map in H.
Qed.



(** * Stages run with the handlers of the source *)

(** One round of the loop of a deterministic stage whose ability call and
    state update both return. *)
Lemma deterministic_loop_step handlers self ability rest context results
  w result w1 w2 :
  MCPClient.execute_ability handlers (get_client self (ability_server ability))
    ability context w = (Ok result, w1) ->
  _update_state_from_result ability result context w1 = (Ok tt, w2) ->
  deterministic_loop handlers self (ability :: rest) context results w
  = deterministic_loop handlers self rest (_build_context (state w2))
      (results ++ [result]) w2.
Proof.
  intros E1 E2. cbn [deterministic_loop].
  unfold bind at 1. unfold try_except_MCPClientError at 1.
  rewrite (bind_Ok _ _ _ _ _ E1).
  unfold try_except_MCPClientError at 1.
  rewrite (bind_Ok _ _ _ _ _ E2).
  reflexivity.
Qed.

(** A deterministic stage is [update_stage], then the loop on the context
    built from the state [update_stage] left. *)
Lemma execute_deterministic_stage handlers self name stage_config w :
  find (fun s => String.eqb (stage_name s) name) STAGES = Some stage_config ->
  stage_mode stage_config = DETERMINISTIC ->
  let wU := world_after (StateManager.update_stage name) w in
  execute_stage handlers self name w
  = bind (deterministic_loop handlers self (stage_abilities stage_config)
            (_build_context (state wU)) [])
         (fun results => ret (stage_result stage_config results)) wU.
Proof.
  intros F Hm wU. unfold execute_stage. rewrite F, Hm.
  rewrite (bind_Ok _ _ _ _ _ (update_stage_returns name w)).
  reflexivity.
Qed.

(** A call of the connected executor answered by the handler [handler]. *)
Lemma execute_ability_source handlers a context w handler :
  handlers (ability_server a) (ability_name a) = Some handler ->
  MCPClient.execute_ability handlers
    (get_client connected_executor (ability_server a)) a context w
  = (handler context (clock w), tick w).
Proof.
  intros H. rewrite execute_ability_connected.
  - destruct (ability_server a); cbn in H |- *; now rewrite H.
  - now destruct (ability_server a).
  - now destruct (ability_server a).
Qed.

Ltac source_call H :=
  etransitivity; [apply execute_ability_source; exact H | reflexivity].

(** X18. The WAIT stage with the handlers of the source never sees a human
    response: the context has no "human_response" key (the responses
    recorded in the state are under "human_responses"), so
    [extract_answer] answers "No response provided", which it reports to
    contain useful information, [store_answer] stores an answer of length
    0, and the stage changes the state by [update_stage] only. *)
Theorem wait_stage_sees_no_response (handlers : HandlerTable) (w : World)
  (Hextract : handlers ATLAS "extract_answer"
              = Some AtlasMCPClient._handle_extract_answer)
  (Hstore : handlers COMMON "store_answer"
            = Some CommonMCPClient._handle_store_answer) :
  let wU := world_after (StateManager.update_stage "WAIT") w in
  execute_stage handlers connected_executor "WAIT" w
  = (Ok [("stage", VStr "WAIT");
         ("results",
          VList [VDict [("extracted_answer", VStr "No response provided");
                        ("answer_processed", VBool true);
                        ("contains_useful_info", VBool true)];
                 VDict [("stored", VBool true);
                        ("answer_length", VInt 0);
                        ("storage_timestamp", VStr (isoformat (S (clock wU))))]]);
         ("status", VStr "completed")],
     tick (tick wU)).
Proof.
  intros wU.
  rewrite (execute_deterministic_stage handlers connected_executor "WAIT"
             _ w eq_refl eq_refl).
  fold wU. clearbody wU. cbn [stage_abilities]. unfold bind at 1.
  erewrite deterministic_loop_step; [| source_call Hextract | reflexivity].
  erewrite deterministic_loop_step; [| source_call Hstore | reflexivity].
  reflexivity.
Qed.

Lemma wait_stage_sees_no_response_witness :
  let wU := world_after (StateManager.update_stage "WAIT") (StateManager.init 0) in
  execute_stage source_handlers connected_executor "WAIT" (StateManager.init 0)
  = (Ok [("stage", VStr "WAIT");
         ("results",
          VList [VDict [("extracted_answer", VStr "No response provided");
                        ("answer_processed", VBool true);
                        ("contains_useful_info", VBool true)];
                 VDict [("stored", VBool true);
                        ("answer_length", VInt 0);
                        ("storage_timestamp", VStr (isoformat (S (clock wU))))]]);
         ("status", VStr "completed")],
     tick (tick wU)).
Proof.
  exact (wait_stage_sees_no_response source_handlers (StateManager.init 0)
           eq_refl eq_refl).
Defined.

(** X19. The UPDATE stage with the handlers of the source reports the
    ticket closed, with an automated resolution, whether or not the request
    was escalated: the escalation flag only chooses between the statuses
    "escalated" and "in_progress" of [update_ticket]. The stage changes the
    state by [update_stage] only. *)
Theorem update_stage_closes_ticket (handlers : HandlerTable) (w : World)
  (Hupdate : handlers ATLAS "update_ticket"
             = Some AtlasMCPClient._handle_update_ticket)
  (Hclose : handlers ATLAS "close_ticket"
            = Some AtlasMCPClient._handle_close_ticket) :
  let wU := world_after (StateManager.update_stage "UPDATE") w in
  execute_stage handlers connected_executor "UPDATE" w
  = (Ok [("stage", VStr "UPDATE");
         ("results",
          VList [VDict [("ticket_updated", VBool true);
                        ("update_data",
                         VDict [("ticket_id", ticket_id (state w));
                                ("status",
                                 VStr (if escalation_required (state w)
                                       then "escalated" else "in_progress"));
                                ("last_updated", VStr (isoformat (clock wU)));
                                ("updated_by", VStr "langie_agent")]);
                        ("external_system", VStr "crm_system")];
                 VDict [("ticket_closed", VBool true);
                        ("ticket_id", ticket_id (state w));
                        ("closure_timestamp", VStr (isoformat (S (clock wU))));
                        ("resolution_method", VStr "automated")]]);
         ("status", VStr "completed")],
     tick (tick wU)).
Proof.
  intros wU.
  rewrite (execute_deterministic_stage handlers connected_executor "UPDATE"
             _ w eq_refl eq_refl).
  fold wU.
  assert (Hticket : ticket_id (state wU) = ticket_id (state w)).
  { apply (preserves_update_stage ticket_id); intros v s; reflexivity. }
  assert (Hflag : escalation_required (state wU) = escalation_required (state w)).
  { apply (preserves_update_stage escalation_required); intros v s; reflexivity. }
  clearbody wU. cbn [stage_abilities]. unfold bind at 1.
  erewrite deterministic_loop_step; [| source_call Hupdate | reflexivity].
  erewrite deterministic_loop_step; [| source_call Hclose | reflexivity].
  unfold AtlasMCPClient._handle_update_ticket, AtlasMCPClient._handle_close_ticket,
    _build_context.
  cbn [get_or dict_get String.eqb Ascii.eqb Bool.eqb truthy clock tick state].
  rewrite Hticket, Hflag. reflexivity.
Qed.

Lemma update_stage_closes_ticket_witness :
  let w := mkWorld (with_escalation_required true (AgentState_init 0 1)) 2 in
  let wU := world_after (StateManager.update_stage "UPDATE") w in
  execute_stage source_handlers connected_executor "UPDATE" w
  = (Ok [("stage", VStr "UPDATE");
         ("results",
          VList [VDict [("ticket_updated", VBool true);
                        ("update_data",
                         VDict [("ticket_id", ticket_id (state w));
                                ("status",
                                 VStr (if escalation_required (state w)
                                       then "escalated" else "in_progress"));
                                ("last_updated", VStr (isoformat (clock wU)));
                                ("updated_by", VStr "langie_agent")]);
                        ("external_system", VStr "crm_system")];
                 VDict [("ticket_closed", VBool true);
                        ("ticket_id", ticket_id (state w));
                        ("closure_timestamp", VStr (isoformat (S (clock wU))));
                        ("resolution_method", VStr "automated")]]);
         ("status", VStr "completed")],
     tick (tick wU)).
Proof.
  exact (update_stage_closes_ticket source_handlers
           (mkWorld (with_escalation_required true (AgentState_init 0 1)) 2)
           eq_refl eq_refl).
Defined.

(** What [_update_state_from_result] does with the answer of the search of
    the source: the three records are appended, each with its log event. *)
Lemma knowledge_base_search_update ability_description context t w :
  exists w',
    match AtlasMCPClient._handle_knowledge_base_search context t with
    | Ok result =>
        _update_state_from_result
          (mkAbility "knowledge_base_search" ATLAS ability_description)
          result context w
    | Raise e => raise e w
    end = (Ok tt, w') /\
    kb_results (state w') = kb_results (state w) ++ AtlasMCPClient.kb_records /\
    clock w' = S (S (S (clock w))).
Proof.
  open_world w. eexists. split; [cbv -[isoformat app]; reflexivity|].
  cbn [state clock kb_results]. split; [|reflexivity].
  now rewrite <- !app_assoc.
Qed.

(** X20. The RETRIEVE stage with the handlers of the source appends the
    three records of the search to the records the state already holds
    (running the stage again adds them again), and [store_data], which
    runs on the context rebuilt after the search, counts the old records
    and the three new ones. *)
Theorem retrieve_stage_appends_records (handlers : HandlerTable) (w : World)
  (Hsearch : handlers ATLAS "knowledge_base_search"
             = Some AtlasMCPClient._handle_knowledge_base_search)
  (Hstore : handlers COMMON "store_data"
            = Some CommonMCPClient._handle_store_data) :
  let wU := world_after (StateManager.update_stage "RETRIEVE") w in
  exists w',
    execute_stage handlers connected_executor "RETRIEVE" w
    = (Ok [("stage", VStr "RETRIEVE");
           ("results",
            VList [VDict [("kb_results", VList (map VDict AtlasMCPClient.kb_records));
                          ("total_results", VInt 3);
                          ("search_method", VStr "semantic_search")];
                   VDict [("stored", VBool true);
                          ("data_points",
                           VInt (Z.of_nat (List.length (kb_results (state w)) + 3)));
                          ("storage_timestamp",
                           VStr (isoformat (4 + clock wU)))]]);
           ("status", VStr "completed")],
       w') /\
    kb_results (state w') = kb_results (state w) ++ AtlasMCPClient.kb_records.
Proof.
  intros wU.
  rewrite (execute_deterministic_stage handlers connected_executor "RETRIEVE"
             _ w eq_refl eq_refl).
  fold wU.
  assert (Hrecords : kb_results (state wU) = kb_results (state w)).
  { apply (preserves_update_stage kb_results); intros v s; reflexivity. }
  clearbody wU. cbn [stage_abilities]. unfold bind at 1.
  destruct (knowledge_base_search_update "Lookup KB or FAQ"
              (_build_context (state wU)) (clock wU) (tick wU))
    as (w2 & E2 & K2 & C2).
  cbn [tick state clock] in K2, C2. rewrite Hrecords in K2.
  erewrite deterministic_loop_step; [| source_call Hsearch | exact E2].
  erewrite deterministic_loop_step; [| source_call Hstore | reflexivity].
  exists (tick w2). split; [|exact K2].
  unfold CommonMCPClient._handle_store_data, _build_context.
  cbn [get_or dict_get String.eqb Ascii.eqb Bool.eqb len_of obind].
  unfold py_len. rewrite K2, C2, length_map, length_app.
  reflexivity.
Qed.

Lemma retrieve_stage_appends_records_witness :
  let w := StateManager.init 0 in
  let wU := world_after (StateManager.update_stage "RETRIEVE") w in
  exists w',
    execute_stage source_handlers connected_executor "RETRIEVE" w
    = (Ok [("stage", VStr "RETRIEVE");
           ("results",
            VList [VDict [("kb_results", VList (map VDict AtlasMCPClient.kb_records));
                          ("total_results", VInt 3);
                          ("search_method", VStr "semantic_search")];
                   VDict [("stored", VBool true);
                          ("data_points",
                           VInt (Z.of_nat (List.length (kb_results (state w)) + 3)));
                          ("storage_timestamp",
                           VStr (isoformat (4 + clock wU)))]]);
           ("status", VStr "completed")],
       w') /\
    kb_results (state w') = kb_results (state w) ++ AtlasMCPClient.kb_records.
Proof.
  exact (retrieve_stage_appends_records source_handlers (StateManager.init 0)
           eq_refl eq_refl).
Defined.

(** * The records of the knowledge base along a run *)

Lemma update_keeps_kb_results ability result context :
  ability_name ability <> "knowledge_base_search" ->
  preserves kb_results (_update_state_from_result ability result context).
Proof.
  intros Hname. unfold _update_state_from_result. cbv zeta.
  destruct (String.eqb_spec (ability_name ability) "knowledge_base_search")
    as [E | _]; [contradiction|].
  repeat match goal with
         | |- preserves _ (if ?b then _ else _) => destruct b
         end;
    try apply preserves_ret;
    (apply preserves_bind; [apply preserves_lift_outcome | intros d]).
  - apply preserves_update_entities; intros v s; reflexivity.
  - apply preserves_update_normalized_fields; intros v s; reflexivity.
  - apply preserves_add_enriched_data; intros v s; reflexivity.
  - apply preserves_set_generated_response; intros v s; reflexivity.
  - apply preserves_add_human_response; intros v s; reflexivity.
Qed.

Lemma deterministic_loop_keeps_kb_results handlers self abilities context results :
  Forall (fun a => ability_name a <> "knowledge_base_search") abilities ->
  preserves kb_results (deterministic_loop handlers self abilities context results).
Proof.
  intros H. revert context results.
  induction H as [|ability abilities Ha _ IH]; intros context results.
  - apply preserves_ret.
  - cbn [deterministic_loop]. apply preserves_bind; [|intros next; apply IH].
    apply preserves_try_except_MCPClientError; [|intros msg; apply preserves_ret].
    apply preserves_bind; [apply preserves_execute_ability | intros result].
    apply preserves_try_except_MCPClientError; [|intros msg; apply preserves_ret].
    apply preserves_bind; [now apply update_keeps_kb_results | intros _].
    apply preserves_bind; [apply preserves_get_current_state | intros s].
    apply preserves_ret.
Qed.

Lemma stage_node_world handlers name w :
  world_after (stage_node handlers name) w
  = world_after (execute_stage handlers connected_executor name) w.
Proof.
  unfold world_after, stage_node, try_finally. fold connected_executor.
  now destruct (execute_stage handlers connected_executor name w).
Qed.

Lemma kb_results_frame handlers name :
  name <> "RETRIEVE" -> preserves kb_results (stage_node handlers name).
Proof.
  intros Hname.
  unfold stage_node. apply preserves_try_finally; [|apply preserves_ret].
  unfold execute_stage.
  destruct (find _ STAGES) as [stage_config|] eqn:F; [|apply preserves_raise].
  apply preserves_bind;
    [apply preserves_update_stage; intros v s; reflexivity | intros _].
  destruct (stage_mode stage_config) eqn:Hmode.
  - unfold _execute_deterministic_stage.
    apply preserves_bind; [apply preserves_get_current_state | intros s].
    apply preserves_bind; [|intros results; apply preserves_ret].
    apply deterministic_loop_keeps_kb_results.
    unfold STAGES in F. cbn [find stage_name] in F.
    repeat match type of F with
           | (if String.eqb ?a name then _ else _) = _ =>
               destruct (String.eqb_spec a name) as [E | _];
               [injection F as <-;
                first [ discriminate Hmode
                      | exfalso; apply Hname; now rewrite <- E
                      | repeat constructor; discriminate ]
               |]
           end.
    discriminate F.
  - apply preserves_execute_non_deterministic_stage; intros v s; reflexivity.
  - apply preserves_execute_human_stage; intros v s; reflexivity.
  - apply preserves_execute_payload_stage.
Qed.


(** X21. Knowledge-base records enter the state in the RETRIEVE stage and
    nowhere else: the node of any other stage, and of any name that is no
    stage, leaves [kb_results] as it found it, whatever the handlers
    answer. *)
Theorem kb_results_change_only_in_RETRIEVE (handlers : HandlerTable)
  (name : string) (w : World) (Hname : name <> "RETRIEVE") :
  kb_results (state_after (stage_node handlers name) w) = kb_results (state w).
Proof.
  exact (kb_results_frame handlers name Hname w).
Qed.

Lemma kb_results_change_only_in_RETRIEVE_witness :
  kb_results (state_after (stage_node source_handlers "WAIT") (StateManager.init 0))
  = kb_results (state (StateManager.init 0)).
Proof.
  apply (kb_results_change_only_in_RETRIEVE source_handlers "WAIT"
           (StateManager.init 0)).
  discriminate.
Defined.

(** The RETRIEVE node with the search of the source, whatever [store_data]
    answers. *)
Lemma retrieve_node_kb_results handlers w :
  handlers ATLAS "knowledge_base_search"
  = Some AtlasMCPClient._handle_knowledge_base_search ->
  kb_results (state_after (stage_node handlers "RETRIEVE") w)
  = kb_results (state w) ++ AtlasMCPClient.kb_records.
Proof.
  intros Hsearch. unfold state_after. rewrite stage_node_world. unfold world_after.
  rewrite (execute_deterministic_stage handlers connected_executor "RETRIEVE"
             _ w eq_refl eq_refl).
  assert (Hrecords : kb_results (state (world_after
                                          (StateManager.update_stage "RETRIEVE") w))
                     = kb_results (state w)).
  { apply (preserves_update_stage kb_results); intros v s; reflexivity. }
  remember (world_after (StateManager.update_stage "RETRIEVE") w) as wU eqn:EU.
  clear EU. rewrite world_after_bind_ret. cbn [stage_abilities].
  destruct (knowledge_base_search_update "Lookup KB or FAQ"
              (_build_context (state wU)) (clock wU) (tick wU))
    as (w2 & E2 & K2 & _).
  cbn [tick state clock] in K2. rewrite Hrecords in K2.
  erewrite deterministic_loop_step; [| source_call Hsearch | exact E2].
  rewrite deterministic_loop_keeps_kb_results; [exact K2|].
  repeat constructor; discriminate.
Qed.

Lemma stage_node_keeps_query handlers name :
  name <> "DECIDE" -> preserves query (stage_node handlers name).
Proof.
  intros Hname. unfold stage_node.
  apply preserves_try_finally; [|apply preserves_ret].
  unfold execute_stage.
  destruct (find _ STAGES) as [stage_config|] eqn:F; [|apply preserves_raise].
  apply preserves_bind;
    [apply preserves_update_stage; intros v s; reflexivity | intros _].
  destruct (stage_mode stage_config) eqn:Hmode.
  - apply preserves_execute_deterministic_stage; intros v s; reflexivity.
  - apply preserves_execute_non_deterministic_stage; intros v s; reflexivity.
  - apply preserves_execute_human_stage; intros v s; reflexivity.
  - apply preserves_execute_payload_stage.
Qed.

Lemma after_nodes_app handlers names names' w :
  after_nodes handlers (names ++ names') w
  = after_nodes handlers names' (after_nodes handlers names w).
Proof. unfold after_nodes. apply fold_left_app. Qed.

(** The state the DECIDE choreography of a run on a new agent starts from,
    with the search of the source. *)
Lemma state_before_DECIDE handlers input_data t0 :
  handlers ATLAS "knowledge_base_search"
  = Some AtlasMCPClient._handle_knowledge_base_search ->
  let w1 := tick (tick (world_after (StateManager.initialize_state input_data)
                          (LangieAgent_init t0))) in
  let wU := world_after (StateManager.update_stage "DECIDE")
              (after_nodes handlers
                 ["INTAKE"; "UNDERSTAND"; "PREPARE"; "ASK"; "WAIT"; "RETRIEVE"]
                 w1) in
  query (state wU) = get_or "query" (VStr "") input_data /\
  kb_results (state wU) = AtlasMCPClient.kb_records /\
  solutions (state wU) = [] /\
  solution_scores (state wU) = [].
Proof.
  intros Hsearch w1.
  assert (Q1 : query (state w1) = get_or "query" (VStr "") input_data).
  { pose proof (initialize_state_untouched input_data (LangieAgent_init t0)) as U.
    exact (f_equal (fun v : value * value * value * value * value
                                * list string * Time =>
                      let '(_, _, q, _, _, _, _) := v in q) U). }
  assert (K1 : kb_results (state w1) = []).
  { unfold w1, LangieAgent_init, StateManager.init.
    cbn [tick state]. unfold world_after. now run_store. }
  assert (V1 : decision_view (state w1) = ([], [], false, "")).
  { transitivity (decision_view
                    (state_after (StateManager.initialize_state input_data)
                       (LangieAgent_init t0))); [reflexivity|].
    rewrite initialize_state_decision_view. reflexivity. }
  clearbody w1. cbv zeta.
  change ["INTAKE"; "UNDERSTAND"; "PREPARE"; "ASK"; "WAIT"; "RETRIEVE"]
    with (["INTAKE"; "UNDERSTAND"; "PREPARE"; "ASK"; "WAIT"] ++ ["RETRIEVE"]).
  rewrite after_nodes_app.
  remember (after_nodes handlers
              ["INTAKE"; "UNDERSTAND"; "PREPARE"; "ASK"; "WAIT"] w1)
    as w5 eqn:E5.
  assert (Q5 : query (state w5) = query (state w1)).
  { rewrite E5. apply after_nodes_preserves.
    repeat constructor; apply stage_node_keeps_query; discriminate. }
  assert (K5 : kb_results (state w5) = kb_results (state w1)).
  { rewrite E5. apply after_nodes_preserves.
    repeat constructor; intros w;
      apply (kb_results_frame handlers); discriminate. }
  assert (V5 : decision_view (state w5) = decision_view (state w1)).
  { rewrite E5. apply after_nodes_preserves.
    repeat constructor; apply loop_nodes_preserve_decision; simpl; tauto. }
  clear E5. unfold after_nodes. cbn [fold_left].
  remember (world_after (stage_node handlers "RETRIEVE") w5) as wR eqn:ER.
  assert (QR : query (state wR) = query (state w5)).
  { rewrite ER. apply stage_node_keeps_query. discriminate. }
  assert (KR : kb_results (state wR)
               = kb_results (state w5) ++ AtlasMCPClient.kb_records).
  { rewrite ER. now apply retrieve_node_kb_results. }
  assert (VR : decision_view (state wR) = decision_view (state w5)).
  { rewrite ER. apply loop_nodes_preserve_decision. simpl; tauto. }
  clear ER.
  remember (world_after (StateManager.update_stage "DECIDE") wR) as wU eqn:EU.
  assert (QU : query (state wU) = query (state wR)).
  { rewrite EU. apply (preserves_update_stage query); intros v s; reflexivity. }
  assert (KU : kb_results (state wU) = kb_results (state wR)).
  { rewrite EU.
    apply (preserves_update_stage kb_results); intros v s; reflexivity. }
  assert (VU : decision_view (state wU) = decision_view (state wR)).
  { rewrite EU.
    apply (preserves_update_stage decision_view); intros v s; reflexivity. }
  clear EU.
  rewrite VR, V5, V1 in VU. injection VU as HS HC _ _.
  rewrite QU, QR, Q5, Q1, KU, KR, K5, K1, HS, HC. repeat split.
Qed.



(** * The clarification questions *)

(** The questions [_handle_clarify_question] asks, by the two tests of the
    source. *)
Lemma clarify_question_result context t q e :
  get_or "query" (VStr "") context = VStr q ->
  get_or "extracted_entities" (VDict []) context = VDict e ->
  let ask_account := negb (truthy (get_or "account_numbers" VNone e)) in
  let ask_order := contains "order" (lower q) && negb (AtlasMCPClient.has_digit q) in
  exists questions,
    AtlasMCPClient._handle_clarify_question context t
    = Ok [("clarification_questions", VList (map VStr questions));
          ("question_count", VInt (Z.of_nat (List.length questions)));
          ("requires_human_input", VBool true)] /\
    (1 <= List.length questions <= 2)%nat /\
    (In "Could you please provide your account number?" questions
     <-> ask_account = true) /\
    (In "What is your order number?" questions <-> ask_order = true) /\
    (In "Could you provide more details about your specific issue?" questions
     <-> ask_account = false /\ ask_order = false).
Proof.
  intros Hq He ask_account ask_order.
  unfold AtlasMCPClient._handle_clarify_question.
  rewrite Hq, He. cbn [as_mapping obind CommonMCPClient.str_method].
  fold ask_account. fold ask_order. clearbody ask_account ask_order.
  destruct ask_account, ask_order; cbn [app negb]; eexists;
    (split; [reflexivity|]);
    (split; [cbn [List.length]; lia|]);
    cbn [In]; intuition (try discriminate; try congruence).
Qed.

Lemma add_clarification_questions_effect questions w :
  exists w',
    for_each (map VStr questions)
      (fun question =>
         q <- lift_outcome (as_str question) ;;
         StateManager.add_clarification_question q) w = (Ok tt, w') /\
    clarification_questions (state w')
    = clarification_questions (state w) ++ questions.
Proof.
  revert w. induction questions as [|question questions IH]; intros w.
  - exists w. cbn. now rewrite app_nil_r.
  - assert (E1 : exists w1,
               StateManager.add_clarification_question question w = (Ok tt, w1) /\
               clarification_questions (state w1)
               = clarification_questions (state w) ++ [question]).
    { open_world w. run_store. eexists. split; reflexivity. }
    destruct E1 as (w1 & E1 & C1).
    destruct (IH w1) as (w' & E' & C').
    exists w'. cbn [map for_each]. unfold bind at 1. unfold bind at 1.
    cbn [lift_outcome as_str]. rewrite E1. split; [exact E'|].
    now rewrite C', C1, <- app_assoc.
Qed.

(** One round of the loop of the human stage for [clarify_question], when
    the call returns a list of string questions. *)
Lemma human_loop_clarify handlers self ability rest context results
  w result w1 questions :
  ability_name ability = "clarify_question" ->
  MCPClient.execute_ability handlers (get_client self (ability_server ability))
    ability context w = (Ok result, w1) ->
  get_or "clarification_questions" (VList []) result
  = VList (map VStr questions) ->
  exists w2,
    human_loop handlers self (ability :: rest) context results w
    = human_loop handlers self rest context (results ++ [result]) w2 /\
    clarification_questions (state w2)
    = clarification_questions (state w1) ++ questions.
Proof.
  intros Hname E1 Hquestions.
  destruct (add_clarification_questions_effect questions w1) as (w2 & E2 & C2).
  exists w2. split; [|exact C2].
  cbn [human_loop]. unfold bind at 1. unfold try_except_MCPClientError at 1.
  rewrite (bind_Ok _ _ _ _ _ E1). unfold try_except_MCPClientError at 1.
  rewrite Hname. cbn [String.eqb Ascii.eqb Bool.eqb].
  unfold bind at 1. unfold bind at 1. rewrite Hquestions.
  cbn [lift_outcome iterate]. rewrite E2. reflexivity.
Qed.


